(** * PharmaLink: accounts, roles and the admin workflow

    A shallow embedding of the server side of the PharmaLink prototype:
    the Mongoose [User] model with its save hooks ([models/User.js], the
    file [src/unnamed/part_007]), the [SystemLog] model
    ([src/unnamed/part_005]), the authentication routes
    ([server/routes/auth.js]), the admin routes ([server/routes/admin.js]),
    the [auth] middleware ([server/middleware/auth.js]) and the role
    middleware with [requirePermission] (the second module in
    [server/models/SystemSettings.js]).

    Conventions of the embedding.
    - JavaScript strings are [string]; [role] and [status] stay strings, as
      in the schema ([type: String] with an [enum] validator).
    - A property that is [undefined] is [None]; a required string that is
      [undefined] is the empty string (both are falsy, both fail Mongoose's
      [required] validator, and [?.trim()] is falsy on both).
    - The database is a [World]: the [users] collection in insertion order,
      the [logs] collection, the next free [_id], and a [journal] of the
      write operations in the order in which they were issued.
    - Requests are served one at a time, so [save] writes the whole
      document back (Mongoose sends only the modified paths, which is the
      same thing when nothing interleaves).
    - What the JavaScript gets from the outside is an argument: the clock
      and the random salt of a request ([Ctx]), and the libraries behind
      [bcrypt], [jsonwebtoken] and zod's e-mail check ([Platform]). *)

From stdpp Require Import base strings list option.
From Stdlib Require Import ZArith Lia Ascii.

(** ** Strings *)

Definition lowerAscii (c : ascii) : ascii :=
  let n := nat_of_ascii c in
  if (65 <=? n) && (n <=? 90) then ascii_of_nat (n + 32) else c.

(** [String.prototype.toLowerCase], on the ASCII letters. *)
Fixpoint toLowerCase (s : string) : string :=
  match s with
  | EmptyString => EmptyString
  | String c s' => String (lowerAscii c) (toLowerCase s')
  end.

Definition isSpace (c : ascii) : bool :=
  let n := nat_of_ascii c in
  (n =? 32) || ((9 <=? n) && (n <=? 13)).

Fixpoint trimStart (s : string) : string :=
  match s with
  | EmptyString => EmptyString
  | String c s' => if isSpace c then trimStart s' else s
  end.

Fixpoint trimEnd (s : string) : string :=
  match s with
  | EmptyString => EmptyString
  | String c s' =>
      let t := trimEnd s' in
      if isSpace c && bool_decide (t = "") then "" else String c t
  end.

(** [String.prototype.trim]. *)
Definition trim (s : string) : string := trimEnd (trimStart s).

(** [String.prototype.startsWith]. *)
Definition startsWith (s p : string) : bool := String.prefix p s.

(** JavaScript truthiness of a string: [!!s]. *)
Definition nonEmpty (s : string) : bool := negb (bool_decide (s = "")).

(** Truthiness of a property that may be absent. *)
Definition truthy (o : option string) : bool :=
  match o with Some s => nonEmpty s | None => false end.

(** ** JSON bodies of the responses *)

#[warnings="-register-all"]
Inductive Json :=
| JNull
| JBool (b : bool)
| JNum (n : Z)
| JStr (s : string)
| JArr (items : list Json)
| JObj (fields : list (string * Json)).

(** [res.status(code).json(body)]. *)
Record Response := mkResponse { code : nat; body : Json }.

(** A property whose value may be [undefined]: [JSON.stringify] leaves it out. *)
Definition optField {A} (k : string) (f : A -> Json) (o : option A)
  : list (string * Json) :=
  match o with Some a => [(k, f a)] | None => [] end.

Definition message (m : string) : Json := JObj [("message", JStr m)].

(** ** The data model ([models/User.js], [models/SystemLog.js]) *)

Definition Id := nat.

Record Permissions := mkPermissions {
  manageUsers : bool;
  manageProducts : bool;
  manageOrders : bool;
  manageSettings : bool;
  promoteUsers : bool;
  viewAnalytics : bool;
  managePermissions : bool
}.

(** The schema defaults: every permission [false]. *)
Definition defaultPermissions : Permissions :=
  mkPermissions false false false false false false false.

(** The names of the seven permissions of the schema. *)
Inductive Permission :=
| ManageUsers | ManageProducts | ManageOrders | ManageSettings
| PromoteUsers | ViewAnalytics | ManagePermissions.

Definition permissionName (p : Permission) : string :=
  match p with
  | ManageUsers => "manageUsers"
  | ManageProducts => "manageProducts"
  | ManageOrders => "manageOrders"
  | ManageSettings => "manageSettings"
  | PromoteUsers => "promoteUsers"
  | ViewAnalytics => "viewAnalytics"
  | ManagePermissions => "managePermissions"
  end.

(** [permissions[permission]]. *)
Definition getPermission (ps : Permissions) (p : Permission) : bool :=
  match p with
  | ManageUsers => manageUsers ps
  | ManageProducts => manageProducts ps
  | ManageOrders => manageOrders ps
  | ManageSettings => manageSettings ps
  | PromoteUsers => promoteUsers ps
  | ViewAnalytics => viewAnalytics ps
  | ManagePermissions => managePermissions ps
  end.

Record StoreDetails := mkStoreDetails {
  storeName : string;
  description : string;
  address : string;
  phone : string;
  logo : string;
  active : bool
}.

(** [statusHistorySchema]. *)
Record StatusEntry := mkStatusEntry {
  entry_status : string;
  entry_reason : option string;
  entry_timestamp : Z;
  entry_updatedBy : option Id
}.

(** [userSchema]. *)
Record User := mkUser {
  _id : Id;
  name : string;
  email : string;
  password : string;
  role : string;
  storeDetails : option StoreDetails;
  permissions : Permissions;
  status : string;
  statusHistory : list StatusEntry;
  lastLogin : Z;
  createdAt : Z
}.

(** [systemLogSchema]; [details] is kept as the JSON it was given. *)
Record SystemLog := mkSystemLog {
  log_level : string;
  log_message : string;
  log_timestamp : Z;
  log_user : option Id;
  log_action : option string;
  log_details : option Json
}.

Definition roleEnum : list string := ["user"; "vendor"; "admin"; "superadmin"].
Definition statusEnum : list string :=
  ["active"; "inactive"; "suspended"; "pending"].

Definition inEnum (s : string) (l : list string) : bool :=
  bool_decide (s ∈ l).

(** ** The outside world *)

(** The libraries the routes call. [hmac] stands for the HS256 signature
    of a token's header and payload. *)
Inductive JwtPayload :=
| AccessPayload (userId : Id) (email role : string)
| RefreshPayload (userId : Id) (tokenVersion : Z).

Class Platform := {
  isEmail : string -> bool;
  bcrypt_hash : string -> string -> string;
  bcrypt_compare : string -> string -> bool;
  hmac : string -> JwtPayload -> Z -> Z -> string;
  JWT_SECRET : string
}.

(** What the routes rely on from bcryptjs: a hash is recognised by
    [compare], it is in the [$2a$...] format, and it is long. *)
Class PlatformLaws `{Platform} : Prop := {
  compare_hash : forall pw salt, bcrypt_compare pw (bcrypt_hash pw salt) = true;
  hash_format : forall pw salt, startsWith (bcrypt_hash pw salt) "$2" = true;
  hash_length : forall pw salt, 8 <= String.length (bcrypt_hash pw salt)
}.

(** The clock ([Date.now()], milliseconds) and the salt [bcrypt.genSalt]
    draws while a request is served. *)
Record Ctx := mkCtx { now : Z; salt : string }.

(** ** The database and the effects of a handler *)

Inductive DbOp :=
| OpUserSave (id : Id)
| OpUserPush (id : Id)
| OpUserDelete (id : Id)
| OpLogCreate (entry : SystemLog).

Record World := mkWorld {
  users : list User;
  logs : list SystemLog;
  nextId : Id;
  journal : list DbOp
}.

Inductive Exn :=
| ZodError (issues : list (string * string))
| ValidationError (msg : string)
| Error (msg : string)
| TypeError (msg : string)
| DocumentNotFoundError
| MongoServerError (errorCode : Z)
| TokenExpiredError
| JsonWebTokenError.

Inductive Outcome (A : Type) :=
| Returned (a : A)
| Thrown (e : Exn).
Arguments Returned {A} a.
Arguments Thrown {A} e.

(** An [async] function over the database: it returns or throws, and
    what it wrote before throwing stays written. *)
Definition M (A : Type) : Type := World -> Outcome A * World.

#[global] Instance M_ret : MRet M := fun A a w => (Returned a, w).
#[global] Instance M_bind : MBind M := fun A B f m w =>
  match m w with
  | (Returned a, w') => f a w'
  | (Thrown e, w') => (Thrown e, w')
  end.

Definition throw {A} (e : Exn) : M A := fun w => (Thrown e, w).

(** [try { m } catch (e) { h e }]. *)
Definition tryCatch {A} (m : M A) (h : Exn -> M A) : M A := fun w =>
  match m w with
  | (Returned a, w') => (Returned a, w')
  | (Thrown e, w') => h e w'
  end.

Definition liftOutcome {A} (o : Outcome A) : M A := fun w => (o, w).

(** ** Mongoose documents *)

(** A document in memory: the field values, whether it was built by
    [new User(...)] or loaded, the paths [isModified] answers [true] for,
    and the [$skipMiddleware] property the registration route sets. *)
Record Doc := mkDoc {
  doc : User;
  isNew : bool;
  modifiedPaths : list string;
  skipMiddleware : bool
}.

Definition isModified (p : string) (d : Doc) : bool :=
  bool_decide (p ∈ modifiedPaths d).

(** A document as a query returns it. *)
Definition loaded (u : User) : Doc := mkDoc u false [] false.

Definition with_password (v : string) (u : User) : User :=
  mkUser (_id u) (name u) (email u) v (role u) (storeDetails u)
    (permissions u) (status u) (statusHistory u) (lastLogin u) (createdAt u).
Definition with_role (v : string) (u : User) : User :=
  mkUser (_id u) (name u) (email u) (password u) v (storeDetails u)
    (permissions u) (status u) (statusHistory u) (lastLogin u) (createdAt u).
Definition with_storeDetails (v : option StoreDetails) (u : User) : User :=
  mkUser (_id u) (name u) (email u) (password u) (role u) v
    (permissions u) (status u) (statusHistory u) (lastLogin u) (createdAt u).
Definition with_permissions (v : Permissions) (u : User) : User :=
  mkUser (_id u) (name u) (email u) (password u) (role u) (storeDetails u)
    v (status u) (statusHistory u) (lastLogin u) (createdAt u).
Definition with_status (v : string) (u : User) : User :=
  mkUser (_id u) (name u) (email u) (password u) (role u) (storeDetails u)
    (permissions u) v (statusHistory u) (lastLogin u) (createdAt u).
Definition with_statusHistory (v : list StatusEntry) (u : User) : User :=
  mkUser (_id u) (name u) (email u) (password u) (role u) (storeDetails u)
    (permissions u) (status u) v (lastLogin u) (createdAt u).
Definition with_lastLogin (v : Z) (u : User) : User :=
  mkUser (_id u) (name u) (email u) (password u) (role u) (storeDetails u)
    (permissions u) (status u) (statusHistory u) v (createdAt u).

(** An assignment [this.path = value]: Mongoose marks the path modified
    when the document is new or the value differs from the current one. *)
Definition assign (p : string) (differs : bool) (f : User -> User) (d : Doc)
  : Doc :=
  mkDoc (f (doc d)) (isNew d)
    (if isNew d || differs then p :: modifiedPaths d else modifiedPaths d)
    (skipMiddleware d).

Definition set_password (v : string) (d : Doc) : Doc :=
  assign "password" (negb (bool_decide (password (doc d) = v)))
    (with_password v) d.
Definition set_role (v : string) (d : Doc) : Doc :=
  assign "role" (negb (bool_decide (role (doc d) = v))) (with_role v) d.
Definition set_status (v : string) (d : Doc) : Doc :=
  assign "status" (negb (bool_decide (status (doc d) = v))) (with_status v) d.
Definition set_lastLogin (v : Z) (d : Doc) : Doc :=
  assign "lastLogin" (negb (bool_decide (lastLogin (doc d) = v)))
    (with_lastLogin v) d.
(** [this.permissions = {...}]. *)
Definition set_permissions (v : Permissions) (d : Doc) : Doc :=
  assign "permissions" true (with_permissions v) d.
(** [this.storeDetails = {}]: the sub-document with its defaults. *)
Definition set_storeDetails (v : StoreDetails) (d : Doc) : Doc :=
  assign "storeDetails" true (with_storeDetails (Some v)) d.
(** [this.statusHistory.unshift(entry)]. *)
Definition unshift_statusHistory (e : StatusEntry) (d : Doc) : Doc :=
  assign "statusHistory" true
    (fun u => with_statusHistory (e :: statusHistory u) u) d.

Definition emptyStoreDetails : StoreDetails :=
  mkStoreDetails "" "" "" "" "" false.

Definition with_active (b : bool) (sd : StoreDetails) : StoreDetails :=
  mkStoreDetails (storeName sd) (description sd) (address sd) (phone sd)
    (logo sd) b.

(** [this.storeDetails.active = v], on a document that has store details. *)
Definition set_storeActive (v : bool) (d : Doc) : Doc :=
  match storeDetails (doc d) with
  | Some sd =>
      assign "storeDetails" (negb (bool_decide (active sd = v)))
        (with_storeDetails (Some (with_active v sd))) d
  | None => d
  end.

(** *** The hooks of [userSchema] *)

(** The [switch (this.role)] of the pre-save hook. *)
Definition rolePermissions (r : string) : Permissions :=
  if bool_decide (r = "vendor") then
    mkPermissions false true true false false true false
  else if bool_decide (r = "admin") then
    mkPermissions true true true true false true false
  else if bool_decide (r = "superadmin") then
    mkPermissions true true true true true true true
  else
    mkPermissions false false false false false false false.

(** [userSchema.methods.validateStoreDetails]: the error it throws, if any. *)
Definition validateStoreDetails (u : User) : option Exn :=
  if bool_decide (role u = "vendor") then
    match storeDetails u with
    | None => Some (Error "Store details are required for vendor accounts")
    | Some sd =>
        if negb (nonEmpty (trim (storeName sd))) then
          Some (Error "storeName is required for store details")
        else if negb (nonEmpty (trim (description sd))) then
          Some (Error "description is required for store details")
        else if negb (nonEmpty (trim (address sd))) then
          Some (Error "address is required for store details")
        else if negb (nonEmpty (trim (phone sd))) then
          Some (Error "phone is required for store details")
        else None
    end
  else None.

(** [userSchema.pre('validate')]. *)
Definition preValidate (d : Doc) : option Exn :=
  if bool_decide (role (doc d) = "vendor")
     && (isNew d || isModified "role" d || isModified "storeDetails" d)
  then validateStoreDetails (doc d)
  else None.

(** The validators the schema declares: [required], [minlength], [enum]. *)
Definition storeDetailsValid (sd : StoreDetails) : bool :=
  nonEmpty (storeName sd) && nonEmpty (description sd)
  && nonEmpty (address sd) && nonEmpty (phone sd).

(** The validators run over the document that is saved. A lemma that needs
    a [save] to go through assumes the stored account passes them, which
    covers a Mongoose that only validates the paths that were assigned. *)
Definition schemaValid (u : User) : bool :=
  nonEmpty (name u) && nonEmpty (email u)
  && (8 <=? String.length (password u))
  && inEnum (role u) roleEnum
  && match storeDetails u with
     | Some sd => storeDetailsValid sd
     | None => negb (bool_decide (role u = "vendor"))
     end
  && inEnum (status u) statusEnum
  && forallb (fun e => inEnum (entry_status e) statusEnum) (statusHistory u).

(** [userSchema.pre('save')]. The three early [return next()] are the
    [Returned d] that leave the rest of the hook undone. *)
Definition preSave `{Platform} (c : Ctx) (d : Doc) : Outcome Doc :=
  if skipMiddleware d then Returned d
  else
    let hashed :=
      if isModified "password" d then
        if negb (nonEmpty (password (doc d))) then inl d
        else if startsWith (password (doc d)) "$2" then inl d
        else inr (set_password (bcrypt_hash (password (doc d)) (salt c)) d)
      else inr d in
    match hashed with
    | inl d => Returned d
    | inr d =>
        let derived :=
          if isModified "role" d
             || (bool_decide (role (doc d) = "vendor") && isNew d)
          then
            if bool_decide (role (doc d) = "vendor")
               && match storeDetails (doc d) with
                  | Some sd => negb (nonEmpty (storeName sd))
                  | None => true
                  end
            then Thrown (Error "Store details are required for vendor accounts")
            else Returned (set_permissions (rolePermissions (role (doc d))) d)
          else Returned d in
        match derived with
        | Thrown e => Thrown e
        | Returned d =>
            if isModified "status" d then
              Returned (unshift_statusHistory
                          (mkStatusEntry (status (doc d)) None (now c) None) d)
            else Returned d
        end
    end.

(** *** Queries and writes *)

Definition findUser (p : User -> bool) (l : list User) : option User :=
  List.find p l.

Definition byId (i : Id) (u : User) : bool := bool_decide (_id u = i).
Definition byEmail (e : string) (u : User) : bool := bool_decide (email u = e).

(** [User.findById(id)]. *)
Definition User_findById (i : Id) : M (option User) :=
  fun w => (Returned (findUser (byId i) (users w)), w).

(** [User.findOne(filter)]. *)
Definition User_findOne (p : User -> bool) : M (option User) :=
  fun w => (Returned (findUser p (users w)), w).

Fixpoint replaceById (u : User) (l : list User) : option (list User) :=
  match l with
  | [] => None
  | x :: l' =>
      if byId (_id u) x then Some (u :: l') else cons x <$> replaceById u l'
  end.

Fixpoint removeById (i : Id) (l : list User) : list User :=
  match l with
  | [] => []
  | x :: l' => if byId i x then l' else x :: removeById i l'
  end.

Fixpoint pushHistoryById (i : Id) (e : StatusEntry) (l : list User)
  : list User :=
  match l with
  | [] => []
  | x :: l' =>
      if byId i x then with_statusHistory (statusHistory x ++ [e]) x :: l'
      else x :: pushHistoryById i e l'
  end.

(** The write of [save]: an insert for a new document (refused by the
    unique index on [email] with error code 11000), an update otherwise. *)
Definition persist (d : Doc) : M Doc := fun w =>
  let u := doc d in
  if isNew d then
    if existsb (byEmail (email u)) (users w) then
      (Thrown (MongoServerError 11000%Z), w)
    else
      (Returned (loaded u),
       mkWorld (users w ++ [u]) (logs w) (nextId w)
         (journal w ++ [OpUserSave (_id u)]))
  else
    match replaceById u (users w) with
    | Some l =>
        (Returned (loaded u),
         mkWorld l (logs w) (nextId w) (journal w ++ [OpUserSave (_id u)]))
    | None => (Thrown DocumentNotFoundError, w)
    end.

(** [document.save()]: the pre-validate hook, the schema's validators,
    the pre-save hook, then the write. *)
Definition save `{Platform} (c : Ctx) (d : Doc) : M Doc :=
  match preValidate d with
  | Some e => throw e
  | None =>
      if negb (schemaValid (doc d)) then
        throw (ValidationError "User validation failed")
      else
        match preSave c d with
        | Thrown e => throw e
        | Returned d' => persist d'
        end
  end.

(** [User.findByIdAndDelete(id)]. *)
Definition User_findByIdAndDelete (i : Id) : M unit := fun w =>
  (Returned tt,
   mkWorld (removeById i (users w)) (logs w) (nextId w)
     (journal w ++ [OpUserDelete i])).

(** [User.findByIdAndUpdate(id, { $push: { statusHistory: e } })]; update
    queries run no validators. *)
Definition User_pushStatusHistory (i : Id) (e : StatusEntry) : M unit :=
  fun w =>
    (Returned tt,
     mkWorld (pushHistoryById i e (users w)) (logs w) (nextId w)
       (journal w ++ [OpUserPush i])).

Definition logLevels : list string := ["info"; "warning"; "error"].

(** [SystemLog.create(entry)]. *)
Definition SystemLog_create (e : SystemLog) : M unit := fun w =>
  if inEnum (log_level e) logLevels && nonEmpty (log_message e) then
    (Returned tt,
     mkWorld (users w) (logs w ++ [e]) (nextId w)
       (journal w ++ [OpLogCreate e]))
  else (Thrown (ValidationError "SystemLog validation failed"), w).

(** ** Tokens ([jsonwebtoken]) *)

(** A decoded token. [iat] and [exp] are in seconds. *)
Record Jwt := mkJwt {
  payload : JwtPayload;
  iat : Z;
  exp : Z;
  signature : string
}.

(** What a client can send as a token: a string that does not decode to
    a JWT, or a JWT (with whatever signature it carries). *)
Inductive Token :=
| Opaque (s : string)
| Encoded (t : Jwt).

Definition payloadUserId (p : JwtPayload) : Id :=
  match p with
  | AccessPayload i _ _ => i
  | RefreshPayload i _ => i
  end.

Definition payloadJson (p : JwtPayload) : Json :=
  match p with
  | AccessPayload i e r =>
      JObj [("userId", JNum (Z.of_nat i)); ("email", JStr e); ("role", JStr r)]
  | RefreshPayload i v =>
      JObj [("userId", JNum (Z.of_nat i)); ("tokenVersion", JNum v)]
  end.

(** The token as it appears in a response body. *)
Definition tokenJson (t : Token) : Json :=
  match t with
  | Opaque s => JStr s
  | Encoded j =>
      JObj [("payload", payloadJson (payload j)); ("iat", JNum (iat j));
            ("exp", JNum (exp j)); ("signature", JStr (signature j))]
  end.

Section Tokens.
Context `{Platform}.

(** [jwt.sign(payload, process.env.JWT_SECRET, { expiresIn })], with
    [expiresIn] in seconds. *)
Definition jwt_sign (p : JwtPayload) (expiresIn : Z) (c : Ctx) : Token :=
  let t := (now c / 1000)%Z in
  Encoded (mkJwt p t (t + expiresIn)
             (hmac JWT_SECRET p t (t + expiresIn))).

(** [jwt.verify(token, process.env.JWT_SECRET)]: the signature first,
    then the expiry ([clockTimestamp >= payload.exp]). *)
Definition jwt_verify (t : Token) (c : Ctx) : Outcome Jwt :=
  match t with
  | Opaque _ => Thrown JsonWebTokenError
  | Encoded j =>
      if negb (bool_decide
                 (signature j = hmac JWT_SECRET (payload j) (iat j) (exp j)))
      then Thrown JsonWebTokenError
      else if (exp j <=? now c / 1000)%Z then Thrown TokenExpiredError
      else Returned j
  end.

(** [generateTokens] of [routes/auth.js]: ['1h'] and ['7d']. *)
Definition generateTokens (userId : Id) (email role : string) (c : Ctx)
  : Token * Token :=
  (jwt_sign (AccessPayload userId email role) 3600 c,
   jwt_sign (RefreshPayload userId (now c)) 604800 c).

End Tokens.

(** ** Middleware *)

(** [req.user]. [middleware/auth.js] fills in [id], [email] and [role];
    the permission check of the role middleware also reads
    [req.user.permissions]. *)
Record ReqUser := mkReqUser {
  user_id : Id;
  user_email : string;
  user_role : string;
  user_permissions : option Permissions
}.

(** [req.user._id]: the object [auth] builds has no such property. *)
Definition user__id (u : ReqUser) : option Id := None.

(** A middleware either calls [next()] or answers the request. *)
Inductive Gate (A : Type) :=
| Next (a : A)
| Respond (r : Response).
Arguments Next {A} a.
Arguments Respond {A} r.

Definition authFailure (m : string) (needsRefresh : bool) : Response :=
  mkResponse 401
    (JObj [("message", JStr m); ("needsRefresh", JBool needsRefresh)]).

Definition isEmptyToken (t : Token) : bool :=
  match t with
  | Opaque s => negb (nonEmpty s)
  | Encoded _ => false
  end.

Section Middleware.
Context `{Platform}.

(** [auth] of [middleware/auth.js]; [header] is the [Authorization]
    header with its [Bearer ] prefix removed. *)
Definition auth (c : Ctx) (header : option Token) : M (Gate ReqUser) :=
  match header with
  | None => mret (Respond (authFailure "No token, authorization denied" false))
  | Some token =>
      if isEmptyToken token then
        mret (Respond (authFailure "No token, authorization denied" false))
      else
        match jwt_verify token c with
        | Returned decoded =>
            user ← User_findById (payloadUserId (payload decoded));
            match user with
            | None =>
                mret (Respond
                        (authFailure "Token is not valid - user not found"
                           false))
            | Some user =>
                mret (Next (mkReqUser (_id user) (email user) (role user)
                              None))
            end
        | Thrown TokenExpiredError =>
            mret (Respond (authFailure "Token has expired" true))
        | Thrown _ =>
            mret (Respond (authFailure "Token is not valid" false))
        end
  end.

(** [requireAdmin] of [middleware/auth.js], which the admin router uses. *)
Definition requireAdmin (u : ReqUser) : M (Gate ReqUser) :=
  user ← User_findById (user_id u);
  match user with
  | None => mret (Respond (mkResponse 401 (message "User not found")))
  | Some user =>
      if negb (inEnum (role user) ["admin"; "superadmin"]) then
        mret (Respond
                (mkResponse 403
                   (message "Access denied. Admin privileges required.")))
      else mret (Next u)
  end.

End Middleware.

(** The role middleware (the module that exports [requirePermission]).
    These are synchronous and read [req.user] only. *)
Definition requireSuperAdmin (user : option ReqUser) : Gate ReqUser :=
  match user with
  | None => Respond (mkResponse 401 (message "Authentication required"))
  | Some u =>
      if bool_decide (user_role u = "superadmin") then Next u
      else Respond (mkResponse 403 (message "Superadmin access required"))
  end.

Definition requirePermission (permission : Permission)
    (user : option ReqUser) : Gate ReqUser :=
  match user with
  | None => Respond (mkResponse 401 (message "Authentication required"))
  | Some u =>
      if bool_decide (user_role u = "superadmin")
         || match user_permissions u with
            | Some ps => getPermission ps permission
            | None => false
            end
      then Next u
      else
        Respond
          (mkResponse 403
             (JObj [("message",
                     JStr ("Required permission: "
                           +:+ permissionName permission));
                    ("currentRole", JStr (user_role u));
                    ("missingPermission",
                     JStr (permissionName permission))]))
  end.

(** ** JSON views of an account *)

Definition storeDetailsJson (sd : StoreDetails) : Json :=
  JObj [("storeName", JStr (storeName sd));
        ("description", JStr (description sd));
        ("address", JStr (address sd));
        ("phone", JStr (phone sd));
        ("logo", JStr (logo sd));
        ("active", JBool (active sd))].

Definition permissionsJson (ps : Permissions) : Json :=
  JObj [("manageUsers", JBool (manageUsers ps));
        ("manageProducts", JBool (manageProducts ps));
        ("manageOrders", JBool (manageOrders ps));
        ("manageSettings", JBool (manageSettings ps));
        ("promoteUsers", JBool (promoteUsers ps));
        ("viewAnalytics", JBool (viewAnalytics ps));
        ("managePermissions", JBool (managePermissions ps))].

Definition statusEntryJson (e : StatusEntry) : Json :=
  JObj ([("status", JStr (entry_status e))]
        ++ optField "reason" JStr (entry_reason e)
        ++ [("timestamp", JNum (entry_timestamp e))]
        ++ optField "updatedBy" (fun i => JNum (Z.of_nat i))
             (entry_updatedBy e)).

(** The [user] object of the registration and login responses. *)
Definition userView (u : User) : Json :=
  JObj ([("id", JNum (Z.of_nat (_id u)));
         ("name", JStr (name u));
         ("email", JStr (email u));
         ("role", JStr (role u));
         ("status", JStr (status u))]
        ++ optField "storeDetails" storeDetailsJson (storeDetails u)).

(** The [user] object of the promotion and permission responses. *)
Definition userPermissionsView (u : User) : Json :=
  JObj [("id", JNum (Z.of_nat (_id u)));
        ("name", JStr (name u));
        ("email", JStr (email u));
        ("role", JStr (role u));
        ("permissions", permissionsJson (permissions u))].

(** [updatedUser.toObject()] with [password] deleted: the paths of the
    schema. *)
Definition userObject (u : User) : Json :=
  JObj ([("_id", JNum (Z.of_nat (_id u)));
         ("name", JStr (name u));
         ("email", JStr (email u));
         ("role", JStr (role u))]
        ++ optField "storeDetails" storeDetailsJson (storeDetails u)
        ++ [("permissions", permissionsJson (permissions u));
            ("status", JStr (status u));
            ("statusHistory", JArr (map statusEntryJson (statusHistory u)));
            ("lastLogin", JNum (lastLogin u));
            ("createdAt", JNum (createdAt u))]).

Definition tokensJson (ts : Token * Token) : Json :=
  JObj [("accessToken", tokenJson ts.1); ("refreshToken", tokenJson ts.2)].

(** ** The authentication routes ([routes/auth.js]) *)

Record StoreInput := mkStoreInput {
  in_storeName : string;
  in_description : string;
  in_address : string;
  in_phone : string;
  in_logo : option string
}.

Record RegisterBody := mkRegisterBody {
  reg_name : string;
  reg_email : string;
  reg_password : string;
  reg_role : string;
  reg_storeDetails : option StoreInput
}.

Record LoginBody := mkLoginBody {
  login_email : string;
  login_password : string;
  login_role : option string
}.

(** One issue of a [ZodError]: the path and the message. *)
Definition issue (ok : bool) (path msg : string) : list (string * string) :=
  if ok then [] else [(path, msg)].

(** [error.errors.map(e => ({ field: e.path.join('.'), message: e.message }))]. *)
Definition issuesJson (l : list (string * string)) : Json :=
  JArr (map (fun i => JObj [("field", JStr i.1); ("message", JStr i.2)]) l).

Definition rawIssuesJson (l : list (string * string)) : Json :=
  JArr (map (fun i => JObj [("path", JStr i.1); ("message", JStr i.2)]) l).

Section AuthRoutes.
Context `{Platform}.

Definition storeDetailsSchema (sd : StoreInput) : list (string * string) :=
  issue (1 <=? String.length (in_storeName sd))
    "storeDetails.storeName" "Store name is required"
  ++ issue (1 <=? String.length (in_description sd))
    "storeDetails.description" "Store description is required"
  ++ issue (1 <=? String.length (in_address sd))
    "storeDetails.address" "Store address is required"
  ++ issue (1 <=? String.length (in_phone sd))
    "storeDetails.phone" "Store phone is required".

(** [registerSchema.parse]. The refinement is not run when the role is
    outside the enumeration (zod stops at an invalid enum value). *)
Definition registerSchema (b : RegisterBody) : Outcome RegisterBody :=
  let roleOk := inEnum (reg_role b) ["user"; "vendor"] in
  let fields :=
    issue (2 <=? String.length (reg_name b))
      "name" "Name must be at least 2 characters"
    ++ issue (isEmail (reg_email b)) "email" "Invalid email address"
    ++ issue (6 <=? String.length (reg_password b))
      "password" "Password must be at least 6 characters"
    ++ issue roleOk "role" "Invalid enum value"
    ++ match reg_storeDetails b with
       | Some sd => storeDetailsSchema sd
       | None => []
       end in
  let refinement :=
    issue (negb (roleOk && bool_decide (reg_role b = "vendor")
                 && bool_decide (reg_storeDetails b = None :> option _)))
      "storeDetails" "Store details are required for vendor registration" in
  match fields ++ refinement with
  | [] => Returned b
  | l => Thrown (ZodError l)
  end.

(** [loginSchema.parse]. *)
Definition loginSchema (b : LoginBody) : Outcome LoginBody :=
  let issues :=
    issue (isEmail (login_email b)) "email" "Invalid email"
    ++ issue match login_role b with
             | Some r => inEnum r roleEnum
             | None => true
             end "role" "Invalid enum value" in
  match issues with
  | [] => Returned b
  | l => Thrown (ZodError l)
  end.

(** The [userData] object of [POST /register] as [new User(userData)]
    holds it: the schema's setters trim the name and the e-mail, and its
    defaults give the permissions, the history and [createdAt]. *)
Definition newUser (i : Id) (b : RegisterBody) (c : Ctx) : Doc :=
  let hashedPassword := bcrypt_hash (reg_password b) (salt c) in
  let store :=
    if bool_decide (reg_role b = "vendor") then
      match reg_storeDetails b with
      | Some sd =>
          Some (mkStoreDetails (trim (in_storeName sd))
                  (trim (in_description sd)) (trim (in_address sd))
                  (trim (in_phone sd)) (trim (default "" (in_logo sd)))
                  false)
      | None => None
      end
    else None in
  mkDoc
    (mkUser i (trim (reg_name b)) (trim (toLowerCase (reg_email b)))
       hashedPassword (reg_role b) store defaultPermissions
       (if bool_decide (reg_role b = "vendor") then "pending" else "active")
       [] (now c) (now c))
    true
    ["name"; "email"; "password"; "role"; "status"; "lastLogin"]
    false.

(** The [catch (error)] block of [POST /register]. The [error] property
    of the last answer is only filled in development mode; it is left out. *)
Definition registerCatch (error : Exn) : Response :=
  match error with
  | ZodError issues =>
      mkResponse 400
        (JObj [("message", JStr "Validation failed");
               ("errors", issuesJson issues)])
  | MongoServerError 11000 => mkResponse 409 (message "Email already exists")
  | _ => mkResponse 500 (message "Registration failed. Please try again.")
  end.

(** The [catch (error)] block of [POST /login]; it sends zod's issue
    objects as they are (here: their path and message). *)
Definition loginCatch (error : Exn) : Response :=
  match error with
  | ZodError issues =>
      mkResponse 400
        (JObj [("message", JStr "Validation failed");
               ("errors", rawIssuesJson issues)])
  | _ => mkResponse 500 (message "Error logging in user")
  end.

(** [new User(...)] draws a fresh [_id]. *)
Definition freshId : M Id := fun w =>
  (Returned (nextId w),
   mkWorld (users w) (logs w) (S (nextId w)) (journal w)).

Definition skipping (d : Doc) : Doc :=
  mkDoc (doc d) (isNew d) (modifiedPaths d) true.

(** [POST /register]. *)
Definition register (c : Ctx) (b : RegisterBody) : M Response :=
  tryCatch
    (validatedData ← liftOutcome (registerSchema b);
     existingUser ←
       User_findOne (byEmail (toLowerCase (reg_email validatedData)));
     match existingUser with
     | Some _ => mret (mkResponse 409 (message "Email already exists"))
     | None =>
         i ← freshId;
         let user := skipping (newUser i validatedData c) in
         saved ← save c user;
         let user := doc saved in
         let tokens := generateTokens (_id user) (email user) (role user) c in
         _ ← tryCatch
               (SystemLog_create
                  (mkSystemLog "info"
                     ("New " +:+ role user +:+ " registered: " +:+ email user)
                     (now c) (Some (_id user)) (Some "register") None))
               (fun _ => mret tt);
         mret (mkResponse 201
                 (JObj [("message", JStr "Registration successful");
                        ("user", userView user);
                        ("tokens", tokensJson tokens)]))
     end)
    (fun error => mret (registerCatch error)).

(** The role check of [POST /login]: the response it sends, if any. *)
Definition roleMismatch (requested : option string) (actual : string)
  : option Response :=
  match requested with
  | Some r =>
      if nonEmpty r then
        if bool_decide (r = "admin")
           && negb (inEnum actual ["admin"; "superadmin"])
        then Some (mkResponse 403
                     (message "Access denied. Admin credentials required."))
        else if negb (bool_decide (r = "admin"))
                && negb (bool_decide (actual = r))
        then Some (mkResponse 403
                     (message ("Invalid credentials for " +:+ r +:+ " login")))
        else None
      else None
  | None => None
  end.

(** [POST /login]. *)
Definition login (c : Ctx) (b : LoginBody) : M Response :=
  tryCatch
    (validatedData ← liftOutcome (loginSchema b);
     let email' := login_email validatedData in
     let password' := login_password validatedData in
     let role' := login_role validatedData in
     user ← User_findOne (byEmail (toLowerCase email'));
     match user with
     | None =>
         mret (mkResponse 400 (message "Account not found with this email"))
     | Some user =>
         match roleMismatch role' (role user) with
         | Some r => mret r
         | None =>
             if negb (bcrypt_compare password' (password user)) then
               _ ← SystemLog_create
                     (mkSystemLog "warning" "Failed login attempt" (now c)
                        None (Some "LOGIN_FAILED")
                        (Some (JObj ([("email", JStr email')]
                                     ++ optField "role" JStr role'
                                     ++ [("reason",
                                          JStr "password_mismatch")]))));
               mret (mkResponse 400 (message "Invalid password"))
             else if bool_decide (role user = "vendor")
                     && negb (bool_decide (status user = "active")) then
               mret (mkResponse 403
                       (JObj [("message",
                               JStr "Your vendor account is pending approval");
                              ("status", JStr (status user))]))
             else if bool_decide (role user = "vendor")
                     && negb match storeDetails user with
                             | Some sd => active sd
                             | None => false
                             end then
               mret (mkResponse 403
                       (JObj [("message",
                               JStr "Your store is not yet activated");
                              ("status", JStr "store_inactive")]))
             else
               let tokens :=
                 generateTokens (_id user) (email user) (role user) c in
               saved ← save c (set_lastLogin (now c) (loaded user));
               let user := doc saved in
               _ ← SystemLog_create
                     (mkSystemLog "info" "User logged in successfully"
                        (now c) (Some (_id user)) (Some "LOGIN_SUCCESS")
                        None);
               mret (mkResponse 200
                       (JObj [("user", userView user);
                              ("tokens", tokensJson tokens)]))
         end
     end)
    (fun error => mret (loginCatch error)).

(** [DELETE /users/:userId], behind [auth]. *)
Definition deleteUser (c : Ctx) (actor : ReqUser) (userId : Id)
  : M Response :=
  tryCatch
    (if negb (bool_decide (user_role actor = "superadmin")) then
       mret (mkResponse 403 (message "Only superadmins can delete users"))
     else
       userToDelete ← User_findById userId;
       match userToDelete with
       | None => mret (mkResponse 404 (message "User not found"))
       | Some userToDelete =>
           if bool_decide (role userToDelete = "superadmin") then
             mret (mkResponse 403
                     (message "Superadmin users cannot be deleted"))
           else
             _ ← SystemLog_create
                   (mkSystemLog "warning" "User deleted by superadmin"
                      (now c) (Some (user_id actor)) (Some "USER_DELETED")
                      (Some (JObj [("deletedUserId",
                                    JNum (Z.of_nat (_id userToDelete)));
                                   ("deletedUserEmail",
                                    JStr (email userToDelete))])));
             _ ← User_findByIdAndDelete userId;
             mret (mkResponse 200 (message "User deleted successfully"))
       end)
    (fun _ => mret (mkResponse 500 (message "Error deleting user"))).

(** [POST /reset-vendor-password]: no middleware in front of it. *)
Definition resetVendorPassword (c : Ctx) (email' : option string)
  : M Response :=
  tryCatch
    (match email' with
     | None => throw (TypeError "Cannot read properties of undefined")
     | Some email' =>
         user ← User_findOne
                  (fun u => byEmail (toLowerCase email') u
                            && bool_decide (role u = "vendor"));
         match user with
         | None => mret (mkResponse 404 (message "Vendor account not found"))
         | Some user =>
             let newPassword := "Vendor@123" in
             let hashedPassword := bcrypt_hash newPassword (salt c) in
             saved ← save c (set_password hashedPassword (loaded user));
             let user := doc saved in
             _ ← SystemLog_create
                   (mkSystemLog "info" "Vendor password reset" (now c)
                      (Some (_id user)) (Some "PASSWORD_RESET") None);
             mret (mkResponse 200
                     (JObj [("message",
                             JStr "Password has been reset successfully");
                            ("email", JStr (email user));
                            ("newPassword", JStr newPassword)]))
         end
     end)
    (fun _ => mret (mkResponse 500 (message "Error resetting password"))).

End AuthRoutes.

(** ** The admin routes ([routes/admin.js]) *)

(** [const { status, role, reason } = req.body], for a body in which each
    of the three is a JSON string or absent: the value the route tests with
    [===] is then the value Mongoose stores. *)
Record UpdateBody := mkUpdateBody {
  upd_status : option string;
  upd_role : option string;
  upd_reason : option string
}.

Record PromoteBody := mkPromoteBody {
  pro_role : option string;
  pro_reason : option string
}.

(** [req.body.permissions]: the permissions the request names. *)
Record PermissionsPatch := mkPermissionsPatch {
  patch_manageUsers : option bool;
  patch_manageProducts : option bool;
  patch_manageOrders : option bool;
  patch_manageSettings : option bool;
  patch_promoteUsers : option bool;
  patch_viewAnalytics : option bool;
  patch_managePermissions : option bool
}.

(** [{ ...user.permissions, ...req.body.permissions }]. *)
Definition mergePermissions (ps : Permissions) (patch : option PermissionsPatch)
  : Permissions :=
  match patch with
  | None => ps
  | Some q =>
      mkPermissions
        (default (manageUsers ps) (patch_manageUsers q))
        (default (manageProducts ps) (patch_manageProducts q))
        (default (manageOrders ps) (patch_manageOrders q))
        (default (manageSettings ps) (patch_manageSettings q))
        (default (promoteUsers ps) (patch_promoteUsers q))
        (default (viewAnalytics ps) (patch_viewAnalytics q))
        (default (managePermissions ps) (patch_managePermissions q))
  end.

Section AdminRoutes.
Context `{Platform}.

(** The [if (status) { ... }] block of [PUT /users/:userId]. *)
Definition applyStatus (c : Ctx) (actor : ReqUser) (b : UpdateBody)
    (userToUpdate : Doc) : Doc :=
  match upd_status b with
  | Some status' =>
      if nonEmpty status' then
        let d := set_status status' userToUpdate in
        let d :=
          if bool_decide (status' = "active")
             && bool_decide (role (doc d) = "vendor")
          then
            let d :=
              match storeDetails (doc d) with
              | None => set_storeDetails emptyStoreDetails d
              | Some _ => d
              end in
            set_storeActive true d
          else d in
        unshift_statusHistory
          (mkStatusEntry status' (upd_reason b) (now c) (user__id actor)) d
      else userToUpdate
  | None => userToUpdate
  end.

(** The [if (role) { ... }] block of [PUT /users/:userId]. *)
Definition applyRole (b : UpdateBody) (userToUpdate : Doc) : Doc :=
  match upd_role b with
  | Some role' => if nonEmpty role' then set_role role' userToUpdate
                  else userToUpdate
  | None => userToUpdate
  end.

Definition orUndefined (o : option string) : option string :=
  match o with
  | Some s => if nonEmpty s then Some s else None
  | None => None
  end.

(** [PUT /users/:userId]. *)
Definition updateUser (c : Ctx) (actor : ReqUser) (userId : Id)
    (b : UpdateBody) : M Response :=
  tryCatch
    (user ← User_findById userId;
     match user with
     | None => mret (mkResponse 404 (message "User not found"))
     | Some user =>
         if bool_decide (role user = "superadmin")
            && negb (bool_decide (user_role actor = "superadmin")) then
           mret (mkResponse 403 (message "Cannot modify superadmin users"))
         else if bool_decide (upd_role b = Some "superadmin")
                 && negb (bool_decide (user_role actor = "superadmin")) then
           mret (mkResponse 403
                   (message "Only superadmins can promote to superadmin"))
         else
           userToUpdate ← User_findById userId;
           match userToUpdate with
           | None => mret (mkResponse 404 (message "User not found"))
           | Some userToUpdate =>
               let userToUpdate :=
                 applyRole b (applyStatus c actor b (loaded userToUpdate)) in
               saved ← save c userToUpdate;
               let updatedUser := doc saved in
               _ ← SystemLog_create
                     (mkSystemLog "info"
                        ("User " +:+ email updatedUser
                         +:+ " updated by admin")
                        (now c) (user__id actor) (Some "USER_UPDATE")
                        (Some
                           (JObj
                              [("updatedUser",
                                JNum (Z.of_nat (_id updatedUser)));
                               ("changes",
                                JObj (optField "status" JStr
                                        (orUndefined (upd_status b))
                                      ++ optField "role" JStr
                                           (orUndefined (upd_role b))
                                      ++ optField "reason" JStr
                                           (upd_reason b)))])));
               mret (mkResponse 200 (userObject updatedUser))
           end
     end)
    (fun _ => mret (mkResponse 500 (message "Error updating user"))).

(** [PUT /promote/:userId]. *)
Definition promoteUser (c : Ctx) (actor : ReqUser) (userId : Id)
    (b : PromoteBody) : M Response :=
  tryCatch
    (user ← User_findById userId;
     match user with
     | None => mret (mkResponse 404 (message "User not found"))
     | Some user =>
         match pro_role b with
         | Some role' =>
             if negb (inEnum role' ["admin"; "superadmin"]) then
               mret (mkResponse 400 (message "Invalid role specified"))
             else
               saved ← save c (set_role role' (loaded user));
               let user := doc saved in
               _ ← User_pushStatusHistory (_id user)
                     (mkStatusEntry ("Role changed to " +:+ role')
                        (Some (match orUndefined (pro_reason b) with
                               | Some r => r
                               | None => "Promoted to " +:+ role'
                               end))
                        (now c) (user__id actor));
               mret (mkResponse 200
                       (JObj [("message",
                               JStr ("User successfully promoted to "
                                     +:+ role'));
                              ("user", userPermissionsView user)]))
         | None => mret (mkResponse 400 (message "Invalid role specified"))
         end
     end)
    (fun _ => mret (mkResponse 500 (message "Error promoting user"))).

(** [PUT /users/:userId/permissions]. *)
Definition updatePermissions (c : Ctx) (actor : ReqUser) (userId : Id)
    (patch : option PermissionsPatch) : M Response :=
  tryCatch
    (user ← User_findById userId;
     match user with
     | None => mret (mkResponse 404 (message "User not found"))
     | Some user =>
         saved ← save c
                   (set_permissions
                      (mergePermissions (permissions user) patch)
                      (loaded user));
         let user := doc saved in
         mret (mkResponse 200
                 (JObj [("message",
                         JStr "User permissions updated successfully");
                        ("user", userPermissionsView user)]))
     end)
    (fun _ =>
       mret (mkResponse 500 (message "Error updating user permissions"))).

End AdminRoutes.

(** ** The routers *)

(** The requests of the routes modelled here. *)
Inductive Route :=
| PostRegister (b : RegisterBody)
| PostLogin (b : LoginBody)
| DeleteUser (userId : Id)
| PostResetVendorPassword (email : option string)
| PutAdminUser (userId : Id) (b : UpdateBody)
| PutAdminPromote (userId : Id) (b : PromoteBody)
| PutAdminPermissions (userId : Id) (patch : option PermissionsPatch).

Section Routers.
Context `{Platform}.

(** A handler behind a middleware. *)
Definition guarded (g : M (Gate ReqUser)) (h : ReqUser -> M Response)
  : M Response :=
  r ← g;
  match r with
  | Next u => h u
  | Respond resp => mret resp
  end.

(** [router.use(auth); router.use(requireAdmin)] of the admin router. *)
Definition adminOnly (c : Ctx) (header : option Token)
    (h : ReqUser -> M Response) : M Response :=
  guarded (auth c header) (fun u => guarded (requireAdmin u) h).

(** The application: the [Authorization] header and the route. *)
Definition serve (c : Ctx) (header : option Token) (r : Route)
  : M Response :=
  match r with
  | PostRegister b => register c b
  | PostLogin b => login c b
  | DeleteUser userId =>
      guarded (auth c header) (fun u => deleteUser c u userId)
  | PostResetVendorPassword e => resetVendorPassword c e
  | PutAdminUser userId b =>
      adminOnly c header (fun u => updateUser c u userId b)
  | PutAdminPromote userId b =>
      adminOnly c header (fun u => promoteUser c u userId b)
  | PutAdminPermissions userId patch =>
      adminOnly c header (fun u => updatePermissions c u userId patch)
  end.

End Routers.

(** ** A concrete platform and database, for the examples *)

(** Stand-ins for the libraries: an e-mail is a string with an [@], a
    hash is the password behind a fixed [$2a$10$] header, a signature is
    determined by the secret. *)
Definition demo_isEmail (s : string) : bool :=
  match String.index 0 "@" s with Some _ => true | None => false end.
Definition demo_hash (pw salt : string) : string := "$2a$10$demo$" +:+ pw.
Definition demo_compare (pw h : string) : bool :=
  bool_decide (h = "$2a$10$demo$" +:+ pw).
Definition demo_hmac (secret : string) (p : JwtPayload) (i e : Z) : string :=
  "HS256:" +:+ secret.

Definition demo : Platform :=
  {| isEmail := demo_isEmail;
     bcrypt_hash := demo_hash;
     bcrypt_compare := demo_compare;
     hmac := demo_hmac;
     JWT_SECRET := "secret" |}.

Definition acmeStore : StoreDetails :=
  mkStoreDetails "Acme" "Pharmacy" "1 Main St" "555-0100" "" false.

(** Four accounts, one of each role; the vendor is approved. *)
Definition root : User :=
  mkUser 1 "Root" "root@x.com" (demo_hash "Root@2024" "") "superadmin" None
    (rolePermissions "superadmin") "active" [] 0 0.
Definition alice : User :=
  mkUser 2 "Alice" "alice@x.com" (demo_hash "alice-pw" "") "admin" None
    (rolePermissions "admin") "active" [] 0 0.
Definition carol : User :=
  mkUser 3 "Carol" "carol@x.com" (demo_hash "carol-pw" "") "user" None
    (rolePermissions "user") "active" [] 0 0.
Definition acme : User :=
  mkUser 4 "Acme Pharmacy" "acme@x.com" (demo_hash "secret1" "") "vendor"
    (Some (with_active true acmeStore)) (rolePermissions "vendor") "active"
    [] 0 0.

Definition world0 : World := mkWorld [root; alice; carol; acme] [] 5 [].

Definition ctx0 : Ctx := mkCtx 1700000000000 "salt".

(** The access token [generateTokens] issues to an account. *)
Definition accessTokenOf `{Platform} (u : User) (c : Ctx) : Token :=
  (generateTokens (_id u) (email u) (role u) c).1.

(** One hour and one second after [ctx0]. *)
Definition ctxLate : Ctx := mkCtx (now ctx0 + 3601 * 1000) "salt".

(** The audit entry [DELETE /users/:userId] writes before it deletes. *)
Definition deletionEntry (c : Ctx) (actor : ReqUser) (target : User)
  : SystemLog :=
  mkSystemLog "warning" "User deleted by superadmin" (now c)
    (Some (user_id actor)) (Some "USER_DELETED")
    (Some (JObj [("deletedUserId", JNum (Z.of_nat (_id target)));
                 ("deletedUserEmail", JStr (email target))])).

Definition rootUser : ReqUser := mkReqUser 1 "root@x.com" "superadmin" None.
Definition aliceUser : ReqUser := mkReqUser 2 "alice@x.com" "admin" None.

(** The audit entry of a login with a wrong password. *)
Definition failedLoginEntry (c : Ctx) (b : LoginBody) : SystemLog :=
  mkSystemLog "warning" "Failed login attempt" (now c) None
    (Some "LOGIN_FAILED")
    (Some (JObj ([("email", JStr (login_email b))]
                 ++ optField "role" JStr (login_role b)
                 ++ [("reason", JStr "password_mismatch")]))).

(** [SystemLog.create] having succeeded on [e]. *)
Definition logged (e : SystemLog) (w : World) : World :=
  mkWorld (users w) (logs w ++ [e]) (nextId w) (journal w ++ [OpLogCreate e]).

(** The audit entry of a successful login. *)
Definition loginEntry (c : Ctx) (u : User) : SystemLog :=
  mkSystemLog "info" "User logged in successfully" (now c) (Some (_id u))
    (Some "LOGIN_SUCCESS") None.

(** [user.storeDetails?.active], as a condition. *)
Definition storeActive (u : User) : bool :=
  match storeDetails u with Some sd => active sd | None => false end.

Definition pendingApproval (u : User) : Response :=
  mkResponse 403
    (JObj [("message", JStr "Your vendor account is pending approval");
           ("status", JStr (status u))]).

Definition storeInactive : Response :=
  mkResponse 403
    (JObj [("message", JStr "Your store is not yet activated");
           ("status", JStr "store_inactive")]).

(** The account [POST /register] stores for a body. *)
Definition registered `{Platform} (b : RegisterBody) (c : Ctx) (w : World)
  : User :=
  doc (newUser (nextId w) b c).

(** The audit entry of a registration. *)
Definition registrationEntry (u : User) (c : Ctx) : SystemLog :=
  mkSystemLog "info" ("New " +:+ role u +:+ " registered: " +:+ email u)
    (now c) (Some (_id u)) (Some "register") None.

(** The end-to-end example of the specification: the vendor "Acme
    Pharmacy" registers, an admin activates the account, the vendor logs in. *)
Definition acmeBody : RegisterBody :=
  mkRegisterBody "Acme Pharmacy" "Acme@Example.com" "secret1" "vendor"
    (Some (mkStoreInput "Acme" "Pharmacy" "1 Main St" "555-0100" None)).

Definition acmeLogin : LoginBody :=
  mkLoginBody "acme@example.com" "secret1" (Some "vendor").

(** The account the registration stores. *)
Definition acmePending : User :=
  mkUser 5 "Acme Pharmacy" "acme@example.com" (demo_hash "secret1" "salt")
    "vendor" (Some acmeStore) defaultPermissions "pending" []
    (now ctx0) (now ctx0).

Definition worldRegistered : World :=
  (register (H := demo) ctx0 acmeBody world0).2.

(** The filter of [POST /reset-vendor-password]. *)
Definition vendorByEmail (e : string) (u : User) : bool :=
  byEmail (toLowerCase e) u && bool_decide (role u = "vendor").

(** The answer of a password reset: it carries the new password. *)
Definition resetResponse (u : User) : Response :=
  mkResponse 200
    (JObj [("message", JStr "Password has been reset successfully");
           ("email", JStr (email u));
           ("newPassword", JStr "Vendor@123")]).

(** The document [PUT /users/:userId] saves. *)
Definition updated `{Platform} (c : Ctx) (actor : ReqUser) (b : UpdateBody)
    (u : User) : Doc :=
  applyRole b (applyStatus c actor b (loaded u)).

(** The audit entry of an admin update. *)
Definition updateEntry (c : Ctx) (actor : ReqUser) (b : UpdateBody)
    (u : User) : SystemLog :=
  mkSystemLog "info" ("User " +:+ email u +:+ " updated by admin") (now c)
    (user__id actor) (Some "USER_UPDATE")
    (Some
       (JObj
          [("updatedUser", JNum (Z.of_nat (_id u)));
           ("changes",
            JObj (optField "status" JStr (orUndefined (upd_status b))
                  ++ optField "role" JStr (orUndefined (upd_role b))
                  ++ optField "reason" JStr (upd_reason b)))])).

(** The admin approves the vendor of the end-to-end example. *)
Definition activateBody : UpdateBody :=
  mkUpdateBody (Some "active") None (Some "approved").

(** The vendor's account after the approval: two history entries (the
    pre-save hook's on top of the route's), and the permissions the
    registration left. *)
Definition acmeActive : User :=
  mkUser 5 "Acme Pharmacy" "acme@example.com" (demo_hash "secret1" "salt")
    "vendor" (Some (with_active true acmeStore)) defaultPermissions "active"
    [mkStatusEntry "active" None (now ctx0) None;
     mkStatusEntry "active" (Some "approved") (now ctx0) None]
    (now ctx0) (now ctx0).

Definition worldActivated : World :=
  (updateUser (H := demo) ctx0 aliceUser 5 activateBody worldRegistered).2.

(** The admin suspends a customer. *)
Definition suspendBody : UpdateBody :=
  mkUpdateBody (Some "suspended") None (Some "abuse").

(** The history entry [PUT /promote/:userId] pushes. *)
Definition promotionEntry (c : Ctx) (actor : ReqUser) (b : PromoteBody)
    (role' : string) : StatusEntry :=
  mkStatusEntry ("Role changed to " +:+ role')
    (Some (match orUndefined (pro_reason b) with
           | Some r => r
           | None => "Promoted to " +:+ role'
           end))
    (now c) (user__id actor).

(** The role an admin update leaves: the requested one, if any. *)
Definition requestedRole (b : UpdateBody) (u : User) : string :=
  match orUndefined (upd_role b) with
  | Some r => r
  | None => role u
  end.

(** The superadmin promotes the customer to admin. *)
Definition promoteAdmin : PromoteBody := mkPromoteBody (Some "admin") None.

Definition carolAdmin : User :=
  mkUser 3 "Carol" "carol@x.com" (demo_hash "carol-pw" "") "admin" None
    (rolePermissions "admin") "active"
    [mkStatusEntry "Role changed to admin" (Some "Promoted to admin")
       (now ctx0) None]
    0 0.

Definition promotedResponse : Response :=
  mkResponse 200
    (JObj [("message", JStr "User successfully promoted to admin");
           ("user", userPermissionsView carolAdmin)]).

Definition worldPromoted : World :=
  mkWorld [root; alice; carolAdmin; acme] [] 5 [OpUserSave 3; OpUserPush 3].

(** An admin (not a superadmin) grants a customer [manageUsers]. *)
Definition grantManageUsers : PermissionsPatch :=
  mkPermissionsPatch (Some true) None None None None None None.

(** An admin (not a superadmin) promotes a customer to superadmin. *)
Definition promoteSuperadmin : PromoteBody :=
  mkPromoteBody (Some "superadmin") None.

(** ** The other routes of [routes/auth.js] *)

Section MoreAuthRoutes.
Context `{Platform}.

(** [POST /refresh-token]. *)
Definition refreshTokenRoute (c : Ctx) (refreshToken : option Token)
  : M Response :=
  tryCatch
    (match refreshToken with
     | None => mret (mkResponse 400 (message "Refresh token required"))
     | Some token =>
         if isEmptyToken token then
           mret (mkResponse 400 (message "Refresh token required"))
         else
           decoded ← liftOutcome (jwt_verify token c);
           user ← User_findById (payloadUserId (payload decoded));
           match user with
           | None => mret (mkResponse 401 (message "User not found"))
           | Some user =>
               let tokens :=
                 generateTokens (_id user) (email user) (role user) c in
               mret (mkResponse 200 (JObj [("tokens", tokensJson tokens)]))
           end
     end)
    (fun _ => mret (mkResponse 401 (message "Invalid refresh token"))).

(** [GET /profile], behind [auth]. *)
Definition getProfile (actor : ReqUser) : M Response :=
  tryCatch
    (user ← User_findById (user_id actor);
     match user with
     | None => mret (mkResponse 404 (message "User not found"))
     | Some user =>
         mret (mkResponse 200
                 (JObj ([("id", JNum (Z.of_nat (_id user)));
                         ("name", JStr (name user));
                         ("email", JStr (email user));
                         ("role", JStr (role user));
                         ("status", JStr (status user));
                         ("createdAt", JNum (createdAt user));
                         ("lastLogin", JNum (lastLogin user))]
                        ++ (if bool_decide (role user = "vendor") then
                              optField "storeDetails" storeDetailsJson
                                (storeDetails user)
                            else []))))
     end)
    (fun _ =>
       mret (mkResponse 500 (message "Server error while fetching profile"))).

(** [userSchema.methods.comparePassword]: [false] when either side is
    missing. *)
Definition comparePassword (u : User) (candidatePassword : string) : bool :=
  if negb (nonEmpty (password u)) || negb (nonEmpty candidatePassword)
  then false
  else bcrypt_compare candidatePassword (password u).

End MoreAuthRoutes.

Record ProfileBody := mkProfileBody {
  prof_name : option string;
  prof_email : option string;
  prof_currentPassword : option string;
  prof_newPassword : option string;
  prof_status : option string;
  prof_statusReason : option string
}.

Definition with_name (v : string) (u : User) : User :=
  mkUser (_id u) v (email u) (password u) (role u) (storeDetails u)
    (permissions u) (status u) (statusHistory u) (lastLogin u) (createdAt u).
Definition with_email (v : string) (u : User) : User :=
  mkUser (_id u) (name u) v (password u) (role u) (storeDetails u)
    (permissions u) (status u) (statusHistory u) (lastLogin u) (createdAt u).

(** [this.name = v] and [this.email = v], through the schema's setters
    ([trim], [lowercase]). *)
Definition set_name (v : string) (d : Doc) : Doc :=
  assign "name" (negb (bool_decide (name (doc d) = trim v)))
    (with_name (trim v)) d.
Definition set_email (v : string) (d : Doc) : Doc :=
  assign "email" (negb (bool_decide (email (doc d) = trim (toLowerCase v))))
    (with_email (trim (toLowerCase v))) d.

(** The write of [save] for a route that assigns [email] on a stored
    document: the unique index on [email] refuses the update when another
    account holds the address. *)
Definition persistIndexed (d : Doc) : M Doc := fun w =>
  if negb (isNew d)
     && existsb (fun x => byEmail (email (doc d)) x
                          && negb (byId (_id (doc d)) x)) (users w)
  then (Thrown (MongoServerError 11000%Z), w)
  else persist d w.

(** The first issue of a [ZodError], as [error.errors[0].message]. *)
Definition firstIssue (l : list (string * string)) : string :=
  match l with
  | i :: _ => i.2
  | [] => ""
  end.

Section ProfileRoute.
Context `{Platform}.

(** [document.save()] with the write above. *)
Definition saveIndexed (c : Ctx) (d : Doc) : M Doc :=
  match preValidate d with
  | Some e => throw e
  | None =>
      if negb (schemaValid (doc d)) then
        throw (ValidationError "User validation failed")
      else
        match preSave c d with
        | Thrown e => throw e
        | Returned d' => persistIndexed d'
        end
  end.

(** [updateProfileSchema.parse]; the messages are zod's own. *)
Definition updateProfileSchema (b : ProfileBody) : Outcome ProfileBody :=
  let issues :=
    issue match prof_name b with
          | Some s => 2 <=? String.length s
          | None => true
          end "name" "String must contain at least 2 character(s)"
    ++ issue match prof_email b with
             | Some s => isEmail s
             | None => true
             end "email" "Invalid email"
    ++ issue match prof_newPassword b with
             | Some s => 6 <=? String.length s
             | None => true
             end "newPassword" "String must contain at least 6 character(s)"
    ++ issue match prof_status b with
             | Some s => inEnum s ["active"; "inactive"]
             | None => true
             end "status" "Invalid enum value" in
  match issues with
  | [] => Returned b
  | l => Thrown (ZodError l)
  end.

(** The [if (validatedData.status && ...)] block of [PUT /profile];
    [userId] is [req.user.id]. *)
Definition applyProfileStatus (c : Ctx) (actor : ReqUser) (userId : Id)
    (b : ProfileBody) (user : Doc) : Doc :=
  match prof_status b with
  | Some status' =>
      if nonEmpty status' && bool_decide (user_role actor = "admin")
         && negb (bool_decide (userId = user_id actor))
      then
        let d := set_status status' user in
        match prof_statusReason b with
        | Some reason =>
            if nonEmpty reason then
              unshift_statusHistory
                (mkStatusEntry status' (Some reason) (now c) None) d
            else d
        | None => d
        end
      else user
  | None => user
  end.

Definition applyProfileInfo (b : ProfileBody) (user : Doc) : Doc :=
  let d := match prof_name b with
           | Some n => if nonEmpty n then set_name n user else user
           | None => user
           end in
  match prof_email b with
  | Some e => if nonEmpty e then set_email e d else d
  | None => d
  end.

Definition profileJson (u : User) : Json :=
  JObj ([("id", JNum (Z.of_nat (_id u)));
         ("name", JStr (name u));
         ("email", JStr (email u));
         ("role", JStr (role u));
         ("status", JStr (status u));
         ("statusHistory", JArr (map statusEntryJson (statusHistory u)));
         ("createdAt", JNum (createdAt u));
         ("lastLogin", JNum (lastLogin u))]
        ++ optField "storeDetails" storeDetailsJson (storeDetails u)).

(** The [catch (error)] block of [PUT /profile]. *)
Definition profileCatch (error : Exn) : Response :=
  match error with
  | ZodError issues => mkResponse 400 (message (firstIssue issues))
  | _ => mkResponse 500 (message "Server error during profile update")
  end.

(** [PUT /profile], behind [auth]. *)
Definition updateProfile (c : Ctx) (actor : ReqUser) (b : ProfileBody)
  : M Response :=
  tryCatch
    (validatedData ← liftOutcome (updateProfileSchema b);
     let userId := user_id actor in
     user ← User_findById userId;
     match user with
     | None => mret (mkResponse 404 (message "User not found"))
     | Some user =>
         let user :=
           applyProfileInfo validatedData
             (applyProfileStatus c actor userId validatedData (loaded user)) in
         if truthy (prof_currentPassword validatedData)
            && truthy (prof_newPassword validatedData) then
           if negb (comparePassword (doc user)
                      (default "" (prof_currentPassword validatedData))) then
             mret (mkResponse 400 (message "Current password is incorrect"))
           else
             saved ← saveIndexed c
                       (set_password
                          (bcrypt_hash
                             (default "" (prof_newPassword validatedData))
                             (salt c)) user);
             mret (mkResponse 200 (profileJson (doc saved)))
         else
           saved ← saveIndexed c user;
           mret (mkResponse 200 (profileJson (doc saved)))
     end)
    (fun error => mret (profileCatch error)).

End ProfileRoute.

(** ** The other gates *)

(** The role middleware's own [requireAdmin] (synchronous, on [req.user]). *)
Module RoleMiddleware.

Definition requireAdmin (user : option ReqUser) : Gate ReqUser :=
  match user with
  | None => Respond (mkResponse 401 (message "Authentication required"))
  | Some u =>
      if bool_decide (user_role u = "admin")
         || bool_decide (user_role u = "superadmin")
      then Next u
      else Respond (mkResponse 403 (message "Admin access required"))
  end.

End RoleMiddleware.

(** [requireVendor] of the vendor router ([src/unnamed/part_009]),
    behind [auth]. *)
Definition requireVendor (u : ReqUser) : Gate ReqUser :=
  if negb (bool_decide (user_role u = "vendor")) then
    Respond
      (mkResponse 403 (message "Access denied. Vendor privileges required."))
  else Next u.

(** *** The guards of the React application *)

(** What [useAuth()] hands to a guard: [isAuthenticated] and [user?.role]. *)
Record AuthState := mkAuthState {
  isAuthenticated : bool;
  userRole : option string
}.

(** What a guard renders. *)
Inductive Rendered :=
| Navigate (to : string)
| Children.

(** [RoleBasedRoute] ([components/RoleBasedRoute.tsx]); [redirectTo]
    defaults to ["/"]. *)
Definition RoleBasedRoute (s : AuthState) (allowedRoles : list string)
    (redirectTo : option string) : Rendered :=
  if negb (isAuthenticated s) then Navigate "/login"
  else if negb (truthy (userRole s))
          || negb (bool_decide (default "" (userRole s) ∈ allowedRoles))
  then Navigate (default "/" redirectTo)
  else Children.

Definition adminRoles : list string := ["admin"; "superadmin"; "superuser"].

(** [ProtectedRoute] (the third module of [components/Navigation.tsx]);
    [requireAdmin] defaults to [false]. *)
Definition ProtectedRoute (s : AuthState) (requireAdmin : bool) : Rendered :=
  if negb (isAuthenticated s) then Navigate "/login"
  else if requireAdmin
          && negb (bool_decide (default "" (userRole s) ∈ adminRoles))
  then Navigate "/"
  else Children.

(** A guard inside a guard: the inner one is rendered as the children of
    the outer one. *)
Definition nested (outer inner : Rendered) : Rendered :=
  match outer with
  | Children => inner
  | Navigate to => Navigate to
  end.

(** The guarded routes of [App.tsx]: [/admin], and [/dashboard/orders]
    and [/dashboard/inventory] inside [/dashboard]. *)
Definition adminConsoleRoute (s : AuthState) : Rendered :=
  RoleBasedRoute s ["admin"; "superadmin"] (Some "/dashboard").

Definition vendorDashboardRoute (s : AuthState) : Rendered :=
  nested (ProtectedRoute s false) (RoleBasedRoute s ["vendor"; "admin"] None).

(** ** Connecting to the database ([server/index.js]) *)

Inductive Connection :=
| Connected (attempt : nat)
| Exited (exitCode : nat).

(** [Math.min(1000 * Math.pow(2, retryCount), 10000)], in milliseconds. *)
Definition waitTime (retryCount : nat) : Z :=
  Z.min (1000 * 2 ^ Z.of_nat retryCount) 10000.

(** [connectDB], by recursion on the retries that are left
    ([maxRetries - retryCount]); [connects n] tells whether
    [mongoose.connect] succeeds at the attempt numbered [n]. The result
    comes with the waits between the attempts. *)
Fixpoint connectDB_from (remaining : nat) (connects : nat -> bool)
    (retryCount : nat) : Connection * list Z :=
  if connects retryCount then (Connected retryCount, [])
  else
    match remaining with
    | S remaining' =>
        let r := connectDB_from remaining' connects (S retryCount) in
        (r.1, waitTime retryCount :: r.2)
    | O => (Exited 1, [])
    end.

Definition connectDB (connects : nat -> bool) (retryCount maxRetries : nat)
  : Connection * list Z :=
  connectDB_from (maxRetries - retryCount) connects retryCount.

(** ** The upgrade script ([src/unnamed/part_008]) *)

(** [this.statusHistory.push(entry)]. *)
Definition push_statusHistory (e : StatusEntry) (d : Doc) : Doc :=
  assign "statusHistory" true
    (fun u => with_statusHistory (statusHistory u ++ [e]) u) d.

Section UpgradeScript.
Context `{Platform}.

(** [new User({...})] of the script. *)
Definition newSuperAdmin (i : Id) (c : Ctx) : Doc :=
  mkDoc
    (mkUser i "Super Admin" "admin@pharmalink.com"
       (bcrypt_hash "Admin@2024" (salt c)) "superadmin" None
       defaultPermissions "active"
       [mkStatusEntry "active" (Some "Initial superadmin account creation")
          (now c) None]
       (now c) (now c))
    true ["name"; "email"; "password"; "role"; "status"; "statusHistory"]
    false.

(** [updateAdminToSuperAdmin]; what it prints is left out. *)
Definition updateAdminToSuperAdmin (c : Ctx) : M unit :=
  tryCatch
    (admin ← User_findOne (byEmail "admin@pharmalink.com");
     match admin with
     | Some admin =>
         let admin := set_role "superadmin" (loaded admin) in
         let admin := set_name "Super Admin" admin in
         let admin :=
           push_statusHistory
             (mkStatusEntry "active" (Some "Upgraded to superadmin role")
                (now c) None) admin in
         _ ← save c admin;
         mret tt
     | None =>
         i ← freshId;
         _ ← save c (newSuperAdmin i c);
         mret tt
     end)
    (fun _ => mret tt).

End UpgradeScript.

(** ** The user statistics of [GET /analytics] *)

Definition countUsers (p : User -> bool) (users : list User) : nat :=
  length (List.filter p users).

(** [stats.totalUsers], [stats.activeUsers] and the [userStats] object. *)
Record UserStats := mkUserStats {
  totalUsers : nat;
  activeUsers : nat;
  customers : nat;
  vendors : nat;
  admins : nat;
  superadmins : nat;
  inactiveUsers : nat;
  pendingVendors : nat
}.

Definition userStats (users : list User) : UserStats :=
  mkUserStats
    (length users)
    (countUsers (fun u => bool_decide (status u = "active")) users)
    (countUsers (fun u => bool_decide (role u = "user")) users)
    (countUsers (fun u => bool_decide (role u = "vendor")) users)
    (countUsers (fun u => bool_decide (role u = "admin")) users)
    (countUsers (fun u => bool_decide (role u = "superadmin")) users)
    (countUsers (fun u => negb (bool_decide (status u = "active"))) users)
    (countUsers (fun u => bool_decide (role u = "vendor")
                          && bool_decide (status u = "pending")) users).

(** The routes behind the admin router. *)
Definition isAdminRoute (r : Route) : bool :=
  match r with
  | PutAdminUser _ _ | PutAdminPromote _ _ | PutAdminPermissions _ _ => true
  | _ => false
  end.

(** [auth] having let a request of the account [u] through. *)
Definition reqUserOf (u : User) : ReqUser :=
  mkReqUser (_id u) (email u) (role u) None.

(** Every account but the one with [_id] [i] is the same in [w'] as in [w]. *)
Definition othersUntouched (i : Id) (w w' : World) : Prop :=
  forall j, j <> i -> findUser (byId j) (users w') = findUser (byId j) (users w).

(** A customer registers. *)
Definition danaBody : RegisterBody :=
  mkRegisterBody "Dana" "Dana@Example.com" "hunter22" "user" None.

Definition dana : User :=
  mkUser 5 "Dana" "dana@example.com" (demo_hash "hunter22" "salt") "user"
    None defaultPermissions "active" [] (now ctx0) (now ctx0).

Definition danaRegistered : Response :=
  mkResponse 201
    (JObj [("message", JStr "Registration successful");
           ("user", userView dana);
           ("tokens",
            tokensJson
              (generateTokens (H := demo) 5 "dana@example.com" "user" ctx0))]).

Definition worldDana : World :=
  mkWorld [root; alice; carol; acme; dana]
    [registrationEntry dana ctx0] 6
    [OpUserSave 5; OpLogCreate (registrationEntry dana ctx0)].

(** The customer logs in; an admin tries the vendor login. *)
Definition carolLogin : LoginBody := mkLoginBody "Carol@x.com" "carol-pw" None.

Definition aliceAsVendor : LoginBody :=
  mkLoginBody "alice@x.com" "not-her-password" (Some "vendor").

Definition carolLoggedIn : Response :=
  mkResponse 200
    (JObj [("user", userView (with_lastLogin (now ctx0) carol));
           ("tokens",
            tokensJson
              (generateTokens (H := demo) 3 "carol@x.com" "user" ctx0))]).

Definition worldCarolIn : World :=
  mkWorld [root; alice; with_lastLogin (now ctx0) carol; acme]
    [loginEntry ctx0 carol] 5
    [OpUserSave 3; OpLogCreate (loginEntry ctx0 carol)].

(** Half an hour after [ctx0]. *)
Definition ctxSoon : Ctx := mkCtx (now ctx0 + 1800 * 1000) "salt".

(** The customer changes her password. *)
Definition carolNewPassword : ProfileBody :=
  mkProfileBody None None (Some "carol-pw") (Some "correct horse") None None.

(** The administrator renames herself and asks for her own deactivation. *)
Definition aliceInactive : ProfileBody :=
  mkProfileBody (Some "Alice B") None None None (Some "inactive")
    (Some "on leave").

Definition carolChanged : User :=
  with_password (demo_hash "correct horse" "salt") carol.

Definition worldCarolChanged : World :=
  mkWorld [root; alice; carolChanged; acme] [] 5 [OpUserSave 3].

(** A database that holds the account the upgrade script looks for. *)
Definition pharmaAdmin : User :=
  mkUser 5 "Admin" "admin@pharmalink.com" (demo_hash "Admin@2024" "") "admin"
    None (rolePermissions "admin") "active" [] 0 0.

Definition worldPharma : World :=
  mkWorld [root; alice; carol; acme; pharmaAdmin] [] 6 [].

(** [req.body] of [PUT /users/:userId] as it is sent: the three
    properties the route reads, each absent or any JSON value. *)
Record UpdateRequest := mkUpdateRequest {
  req_status : option Json;
  req_role : option Json;
  req_reason : option Json
}.

(** A property that is absent or a JSON string. *)
Definition stringProperty (j : option Json) : option (option string) :=
  match j with
  | None => Some None
  | Some (JStr s) => Some (Some s)
  | Some _ => None
  end.

(** The requests [UpdateBody] stands for. *)
Definition stringBody (r : UpdateRequest) : option UpdateBody :=
  match stringProperty (req_status r), stringProperty (req_role r),
        stringProperty (req_reason r) with
  | Some status', Some role', Some reason' =>
      Some (mkUpdateBody status' role' reason')
  | _, _, _ => None
  end.

(** The admin asks for the suspension of the customer. *)
Definition suspendRequest : UpdateRequest :=
  mkUpdateRequest (Some (JStr "suspended")) None (Some (JStr "abuse")).

(** The answer of [requirePermission] to a request it stops. *)
Definition forbiddenPermission (p : Permission) (u : ReqUser) : Response :=
  mkResponse 403
    (JObj [("message", JStr ("Required permission: " +:+ permissionName p));
           ("currentRole", JStr (user_role u));
           ("missingPermission", JStr (permissionName p))]).

(** * Properties *)

Lemma demo_laws : @PlatformLaws demo.
Proof.
  split; intros pw s; cbn; unfold demo_compare, demo_hash.
  - by rewrite bool_decide_eq_true.
  - reflexivity.
  - simpl. lia.
Qed.


(** Unfolding the monad of handlers. *)
Ltac unfold_M :=
  unfold mbind, M_bind, mret, M_ret, tryCatch, throw, liftOutcome,
    guarded, User_findById, User_findOne in *.

(** ** The permission gate *)

Lemma requirePermission_superadmin p u :
  user_role u = "superadmin" -> requirePermission p (Some u) = Next u.
Proof.
  intros Hr. unfold requirePermission.
  by rewrite bool_decide_eq_true_2.
Qed.

Lemma requirePermission_other p u :
  user_role u <> "superadmin" ->
  requirePermission p (Some u) =
    if match user_permissions u with
       | Some ps => getPermission ps p
       | None => false
       end
    then Next u else Respond (forbiddenPermission p u).
Proof.
  intros Hr. unfold requirePermission.
  by rewrite bool_decide_eq_false_2.
Qed.

(** The [req.user] that [auth] of [middleware/auth.js] builds carries no
    permission table: behind that middleware the gate opens for a
    superadmin only. *)
Lemma requirePermission_without_table p i e r :
  requirePermission p (Some (mkReqUser i e r None))
  = if bool_decide (r = "superadmin") then Next (mkReqUser i e r None)
    else Respond (forbiddenPermission p (mkReqUser i e r None)).
Proof.
  unfold requirePermission. cbn. by rewrite orb_false_r.
Qed.

(** ** Tokens and the [auth] middleware *)

Section TokenProperties.
Context `{Platform}.

Lemma jwt_verify_issued p expiresIn c later :
  jwt_verify (jwt_sign p expiresIn c) later =
    if (now c / 1000 + expiresIn <=? now later / 1000)%Z
    then Thrown TokenExpiredError
    else Returned (mkJwt p (now c / 1000) (now c / 1000 + expiresIn)
                     (hmac JWT_SECRET p (now c / 1000)
                        (now c / 1000 + expiresIn))).
Proof.
  unfold jwt_verify, jwt_sign. cbn.
  by rewrite bool_decide_eq_true_2.
Qed.


(** The three ways [jwt.verify] ends. *)
Lemma jwt_verify_cases t c :
  (exists j, jwt_verify t c = Returned j)
  \/ jwt_verify t c = Thrown TokenExpiredError
  \/ jwt_verify t c = Thrown JsonWebTokenError.
Proof.
  unfold jwt_verify. destruct t as [s|j]; [by right; right|].
  destruct (negb _); [by right; right|].
  destruct (_ <=? _)%Z; [by right; left | left; eauto].
Qed.





End TokenProperties.


(** ** The primitives of the database *)

Lemma nonEmpty_String a s : nonEmpty (String a s) = true.
Proof. unfold nonEmpty. by rewrite bool_decide_eq_false_2. Qed.

Lemma SystemLog_create_ok e w :
  inEnum (log_level e) logLevels = true ->
  nonEmpty (log_message e) = true ->
  SystemLog_create e w
  = (Returned tt,
     mkWorld (users w) (logs w ++ [e]) (nextId w) (journal w ++ [OpLogCreate e])).
Proof. intros Hl Hm. unfold SystemLog_create. by rewrite Hl, Hm. Qed.

(** The entries the routes write pass the validators of [SystemLog]. *)
Ltac log_ok :=
  rewrite SystemLog_create_ok by (first [reflexivity | apply nonEmpty_String]).

(** ** Deleting an account *)






(** Deleting the account found under an [_id] leaves none under it when
    the [_id]s are distinct. *)
Lemma findUser_removeById i l :
  NoDup (map _id l) -> findUser (byId i) (removeById i l) = None.
Proof.
  induction l as [|x l IH]; [done|]. cbn. intros Hnd.
  inversion Hnd as [|? ? Hx Hnd']; subst.
  destruct (byId i x) eqn:E.
  - apply bool_decide_eq_true in E. subst i.
    destruct (findUser (byId (_id x)) l) as [y|] eqn:Hy; [|done].
    apply find_some in Hy as [Hin Hy]. apply bool_decide_eq_true in Hy.
    exfalso. apply Hx. rewrite <- Hy. apply list_elem_of_In, in_map, Hin.
  - cbn. rewrite E. by apply IH.
Qed.

(** A superadmin deletes a customer: the entry, then the deletion. *)
Example deleteUser_carol :
  deleteUser ctx0 rootUser 3 world0
  = (Returned (mkResponse 200 (message "User deleted successfully")),
     mkWorld [root; alice; acme] [deletionEntry ctx0 rootUser carol] 5
       [OpLogCreate (deletionEntry ctx0 rootUser carol); OpUserDelete 3]).
Proof. reflexivity. Qed.

(** ** Saving a loaded document *)

Lemma isModified_loaded p u : isModified p (loaded u) = false.
Proof. unfold isModified. cbn. apply bool_decide_eq_false_2, not_elem_of_nil. Qed.

Lemma isModified_assign p q b f d :
  isModified p (assign q b f d)
  = ((isNew d || b) && bool_decide (p = q)) || isModified p d.
Proof.
  unfold isModified, assign. cbn.
  destruct (isNew d || b); cbn; [|done].
  destruct (decide (p = q)) as [->|Hne].
  - rewrite (bool_decide_eq_true_2 (q = q)) by done.
    rewrite (bool_decide_eq_true_2 (q ∈ q :: _)) by apply list_elem_of_here.
    done.
  - rewrite (bool_decide_eq_false_2 (p = q)) by done. cbn.
    apply bool_decide_ext. rewrite elem_of_cons.
    split; [by intros [?|?] | by right].
Qed.

Lemma replaceById_found u' l u :
  findUser (byId (_id u')) l = Some u ->
  exists l', replaceById u' l = Some l'
             /\ findUser (byId (_id u')) l' = Some u'
             /\ length l' = length l.
Proof.
  induction l as [|x l IH]; [done|]. cbn.
  destruct (byId (_id u') x) eqn:E.
  - intros _. eexists. split; [done|]. cbn.
    unfold byId at 1. by rewrite bool_decide_eq_true_2.
  - intros Hf. destruct (IH Hf) as (l' & -> & Hf' & Hlen).
    eexists. split; [done|]. cbn. rewrite E. by rewrite Hlen.
Qed.

Lemma findUser_byId p l u : findUser p l = Some u -> findUser (byId (_id u)) l <> None.
Proof.
  intros Hf. apply find_some in Hf as [Hin _].
  intros Hn. eapply find_none in Hn; [|done].
  by apply bool_decide_eq_false in Hn.
Qed.

Section SaveProperties.
Context `{Platform}.

(** [save] on a document that passes the hooks and is in the collection. *)
Lemma save_update c d d' w l :
  preValidate d = None ->
  schemaValid (doc d) = true ->
  preSave c d = Returned d' ->
  isNew d' = false ->
  replaceById (doc d') (users w) = Some l ->
  save c d w
  = (Returned (loaded (doc d')),
     mkWorld l (logs w) (nextId w) (journal w ++ [OpUserSave (_id (doc d'))])).
Proof.
  intros Hv Hs Hp Hn Hr. unfold save. rewrite Hv, Hs, Hp. cbn.
  unfold persist. by rewrite Hn, Hr.
Qed.

End SaveProperties.

(** ** Logging in *)

Section LoginProperties.
Context `{Platform}.

Lemma login_not_found c b w :
  loginSchema b = Returned b ->
  findUser (byEmail (toLowerCase (login_email b))) (users w) = None ->
  login c b w
  = (Returned (mkResponse 400 (message "Account not found with this email")), w).
Proof.
  intros Hs Hf. unfold login. unfold_M. rewrite Hs. cbn. by rewrite Hf.
Qed.

Lemma login_wrong_password c b w u :
  loginSchema b = Returned b ->
  findUser (byEmail (toLowerCase (login_email b))) (users w) = Some u ->
  roleMismatch (login_role b) (role u) = None ->
  bcrypt_compare (login_password b) (password u) = false ->
  login c b w
  = (Returned (mkResponse 400 (message "Invalid password")),
     logged (failedLoginEntry c b) w).
Proof.
  intros Hs Hf Hr Hc. unfold login. unfold_M. rewrite Hs. cbn.
  rewrite Hf, Hr, Hc. cbn. by log_ok.
Qed.

(** C5, as the code has it. A login with an e-mail that matches no
    account and a login with the e-mail of an account (whose role check
    passes) and a wrong password are both answered with status 400, but
    not with the same body: the first says "Account not found with this
    email", the second says "Invalid password" (and appends a [warning]
    entry to the audit log). *)
Theorem login_failures_distinguishable (c : Ctx) (w : World)
    (unknown wrong : LoginBody) (u : User) :
  loginSchema unknown = Returned unknown ->
  loginSchema wrong = Returned wrong ->
  findUser (byEmail (toLowerCase (login_email unknown))) (users w) = None ->
  findUser (byEmail (toLowerCase (login_email wrong))) (users w) = Some u ->
  roleMismatch (login_role wrong) (role u) = None ->
  bcrypt_compare (login_password wrong) (password u) = false ->
  exists r1 r2,
    login c unknown w = (Returned r1, w)
    /\ login c wrong w = (Returned r2, logged (failedLoginEntry c wrong) w)
    /\ r1 = mkResponse 400 (message "Account not found with this email")
    /\ r2 = mkResponse 400 (message "Invalid password")
    /\ code r1 = code r2
    /\ body r1 <> body r2.
Proof.
  intros Hs1 Hs2 Hf1 Hf2 Hr Hc.
  exists (mkResponse 400 (message "Account not found with this email")),
         (mkResponse 400 (message "Invalid password")).
  rewrite login_not_found, (login_wrong_password c wrong w u) by done.
  by repeat split.
Qed.

End LoginProperties.

Lemma login_failures_distinguishable_witness :
  (login (H := demo) ctx0 (mkLoginBody "nobody@x.com" "guess" None) world0).1
  = Returned (mkResponse 400 (message "Account not found with this email"))
  /\ (login (H := demo) ctx0 (mkLoginBody "carol@x.com" "guess" None) world0).1
     = Returned (mkResponse 400 (message "Invalid password")).
Proof.
  destruct (login_failures_distinguishable (H := demo) ctx0 world0
              (mkLoginBody "nobody@x.com" "guess" None)
              (mkLoginBody "carol@x.com" "guess" None) carol
              eq_refl eq_refl eq_refl eq_refl eq_refl eq_refl)
    as (r1 & r2 & -> & -> & -> & -> & _).
  by split.
Defined.

(** C5 as the claim states it fails: the two responses are not identical. *)
Lemma login_failures_not_identical :
  (login (H := demo) ctx0 (mkLoginBody "nobody@x.com" "guess" None) world0).1
  <> (login (H := demo) ctx0 (mkLoginBody "carol@x.com" "guess" None) world0).1.
Proof. vm_compute. discriminate. Qed.

(** Comparisons of two literal paths, roles or statuses. *)
Ltac decide_literals :=
  repeat match goal with
    | |- context [@bool_decide (?a = ?b) ?d] =>
        let v := eval vm_compute in (@bool_decide (a = b) d) in
        match v with
        | true => change (@bool_decide (a = b) d) with true
        | false => change (@bool_decide (a = b) d) with false
        end
    end.

Ltac modified_paths :=
  unfold set_lastLogin, set_password, set_role, set_status, set_permissions,
    set_storeDetails, unshift_statusHistory;
  rewrite ?isModified_assign, ?isModified_loaded; decide_literals;
  rewrite ?andb_false_r, ?orb_false_r, ?andb_true_r; cbn [andb orb negb].

Lemma preValidate_untouched d :
  isNew d = false ->
  isModified "role" d = false ->
  isModified "storeDetails" d = false ->
  preValidate d = None.
Proof.
  intros Hn Hr Hs. unfold preValidate. rewrite Hn, Hr, Hs. cbn.
  by rewrite andb_false_r.
Qed.

Section VendorGates.
Context `{Platform}.

(** The pre-save hook on a loaded document whose password, role and
    status were not assigned. *)
Lemma preSave_untouched c d :
  skipMiddleware d = false ->
  isNew d = false ->
  isModified "password" d = false ->
  isModified "role" d = false ->
  isModified "status" d = false ->
  preSave c d = Returned d.
Proof.
  intros Hk Hn Hp Hr Hs. unfold preSave. rewrite Hk, Hp, Hr, Hn.
  rewrite andb_false_r. cbn. by rewrite Hs.
Qed.

(** Saving the login time of an account that is in the collection. *)
Lemma save_lastLogin c u p w :
  findUser p (users w) = Some u ->
  schemaValid u = true ->
  exists l,
    replaceById (with_lastLogin (now c) u) (users w) = Some l
    /\ save c (set_lastLogin (now c) (loaded u)) w
       = (Returned (loaded (with_lastLogin (now c) u)),
          mkWorld l (logs w) (nextId w) (journal w ++ [OpUserSave (_id u)])).
Proof.
  intros Hf Hv. pose proof (findUser_byId _ _ _ Hf) as Hid.
  destruct (findUser (byId (_id u)) (users w)) as [x|] eqn:Hx; [|done].
  destruct (replaceById_found (with_lastLogin (now c) u) (users w) x Hx)
    as (l & Hl & _).
  exists l. split; [done|].
  apply (save_update c _ (set_lastLogin (now c) (loaded u))); try done.
  - apply preValidate_untouched; [done|by modified_paths..].
  - apply preSave_untouched; [done|done|by modified_paths..].
Qed.

Lemma login_password_ok c b w u :
  loginSchema b = Returned b ->
  findUser (byEmail (toLowerCase (login_email b))) (users w) = Some u ->
  roleMismatch (login_role b) (role u) = None ->
  bcrypt_compare (login_password b) (password u) = true ->
  login c b w
  = if bool_decide (role u = "vendor")
       && negb (bool_decide (status u = "active"))
    then (Returned (pendingApproval u), w)
    else if bool_decide (role u = "vendor") && negb (storeActive u)
    then (Returned storeInactive, w)
    else
      match save c (set_lastLogin (now c) (loaded u)) w with
      | (Returned saved, w') =>
          (Returned
             (mkResponse 200
                (JObj [("user", userView (doc saved));
                       ("tokens",
                        tokensJson
                          (generateTokens (_id u) (email u) (role u) c))])),
           logged (loginEntry c (doc saved)) w')
      | (Thrown e, w') => (Returned (loginCatch e), w')
      end.
Proof.
  intros Hs Hf Hr Hc. unfold login. unfold_M. rewrite Hs. cbn.
  rewrite Hf, Hr, Hc. cbn [negb].
  destruct (bool_decide (role u = "vendor") && negb _); [done|].
  fold (storeActive u).
  destruct (bool_decide (role u = "vendor") && negb _); [done|].
  destruct (save c _ w) as [[saved|e] w']; [|done].
  by log_ok.
Qed.

End VendorGates.

(** ** Registration *)

#[local] Arguments save : simpl never.
#[local] Arguments newUser : simpl never.
#[local] Arguments generateTokens : simpl never.
#[local] Arguments SystemLog_create : simpl never.
#[local] Arguments userView : simpl never.
#[local] Arguments tokensJson : simpl never.
#[local] Arguments toLowerCase : simpl never.
#[local] Arguments schemaValid : simpl never.
#[local] Arguments preValidate : simpl never.

(** The account appended to a collection is the one found under a key
    no other account has. *)
Lemma findUser_app_new p l u :
  existsb p l = false -> p u = true -> findUser p (l ++ [u]) = Some u.
Proof.
  induction l as [|x l IH]; cbn.
  - by intros _ ->.
  - destruct (p x); [done|]. exact IH.
Qed.

Lemma registerCatch_code e : code (registerCatch e) <> 201.
Proof. destruct e; try done. cbn. repeat case_match; done. Qed.

Section RegistrationProperties.
Context `{Platform}.

Lemma registerSchema_cases b :
  registerSchema b = Returned b
  \/ exists l, registerSchema b = Thrown (ZodError l).
Proof.
  unfold registerSchema. destruct (_ ++ _); [by left | right; eauto].
Qed.

(** A vendor body that passes the schema has store details. *)
Lemma registerSchema_vendor b :
  registerSchema b = Returned b ->
  reg_role b = "vendor" ->
  exists sd, reg_storeDetails b = Some sd.
Proof.
  unfold registerSchema. intros Hs Hr.
  destruct (reg_storeDetails b) as [sd|] eqn:Hsd; [eauto|].
  rewrite Hr in Hs. exfalso. revert Hs.
  match goal with |- context [?l ++ issue ?c ?p ?m] =>
    replace (issue c p m) with [(p, m)] by (vm_compute; reflexivity);
    destruct l; discriminate
  end.
Qed.

(** What a [save] of a new document with [$skipMiddleware] that returns
    has done: the hooks changed nothing, and the document was inserted. *)
Lemma save_new_skipping c d w saved w' :
  isNew d = true ->
  skipMiddleware d = true ->
  save c d w = (Returned saved, w') ->
  saved = loaded (doc d)
  /\ w' = mkWorld (users w ++ [doc d]) (logs w) (nextId w)
            (journal w ++ [OpUserSave (_id (doc d))])
  /\ schemaValid (doc d) = true
  /\ existsb (byEmail (email (doc d))) (users w) = false.
Proof.
  intros Hn Hk. unfold save.
  destruct (preValidate d); [by intros [=]|].
  destruct (schemaValid (doc d)); [|by intros [=]]. cbn [negb].
  unfold preSave. rewrite Hk. unfold persist. rewrite Hn.
  destruct (existsb _ _); [by intros [=]|].
  by intros [= <- <-].
Qed.

(** A registration answered with 201 passed the schema, found the e-mail
    free, and appended the new account and its audit entry. *)
Lemma register_created c b w resp w' :
  register c b w = (Returned resp, w') ->
  code resp = 201 ->
  registerSchema b = Returned b
  /\ findUser (byEmail (toLowerCase (reg_email b))) (users w) = None
  /\ schemaValid (registered b c w) = true
  /\ existsb (byEmail (email (registered b c w))) (users w) = false
  /\ users w' = users w ++ [registered b c w]
  /\ logs w' = logs w ++ [registrationEntry (registered b c w) c]
  /\ resp = mkResponse 201
              (JObj [("message", JStr "Registration successful");
                     ("user", userView (registered b c w));
                     ("tokens",
                      tokensJson
                        (generateTokens (_id (registered b c w))
                           (email (registered b c w))
                           (role (registered b c w)) c))]).
Proof.
  unfold register. unfold_M.
  destruct (registerSchema_cases b) as [E|[l E]]; rewrite E; cbn;
    [|by intros [= <- <-]].
  destruct (findUser _ (users w)) eqn:Hf; [by intros [= <- <-]|].
  unfold freshId. cbn.
  destruct (save c _ _) as [[saved|e] w1] eqn:Hsave.
  2:{ intros [= <- <-] Hc. by apply registerCatch_code in Hc. }
  apply save_new_skipping in Hsave as (-> & -> & Hv & Hu); [|done..].
  cbn. fold (registered b c w).
  fold (registrationEntry (registered b c w) c). log_ok. cbn.
  intros [= <- <-] _. by repeat split.
Qed.

(** The account of a vendor registration: pending, with an inactive store. *)
Lemma registered_vendor c b w :
  registerSchema b = Returned b ->
  reg_role b = "vendor" ->
  role (registered b c w) = "vendor"
  /\ status (registered b c w) = "pending"
  /\ permissions (registered b c w) = defaultPermissions
  /\ exists sd, storeDetails (registered b c w) = Some sd /\ active sd = false.
Proof.
  intros Hs Hr. destruct (registerSchema_vendor b Hs Hr) as [sd Hsd].
  unfold registered, newUser. cbn. rewrite Hr, Hsd. cbn.
  repeat split; try done. eauto.
Qed.

End RegistrationProperties.

(** ** The two gates of a vendor login *)

Lemma loginCatch_code e : code (loginCatch e) <> 200.
Proof. by destruct e. Qed.

Section VendorLogin.
Context `{Platform}.

Lemma loginSchema_cases b :
  loginSchema b = Returned b
  \/ exists l, loginSchema b = Thrown (ZodError l).
Proof.
  unfold loginSchema. destruct (_ ++ _); [by left | right; eauto].
Qed.

Lemma roleMismatch_vendor actual :
  roleMismatch (Some "vendor") actual
  = if bool_decide (actual = "vendor") then None
    else Some (mkResponse 403 (message "Invalid credentials for vendor login")).
Proof.
  unfold roleMismatch. decide_literals.
  replace (nonEmpty "vendor") with true by (vm_compute; reflexivity).
  cbn. by destruct (bool_decide (actual = "vendor")).
Qed.

(** A login that names the role [vendor] and is answered with 200 went
    through both gates. *)
Lemma login_vendor_200 c b w u resp w' :
  login_role b = Some "vendor" ->
  findUser (byEmail (toLowerCase (login_email b))) (users w) = Some u ->
  login c b w = (Returned resp, w') ->
  code resp = 200 ->
  role u = "vendor" /\ status u = "active" /\ storeActive u = true
  /\ bcrypt_compare (login_password b) (password u) = true.
Proof.
  intros Hrole Hf.
  destruct (loginSchema_cases b) as [Hs|[l Hs]].
  2:{ unfold login. unfold_M. rewrite Hs. cbn. by intros [= <- <-]. }
  destruct (decide (role u = "vendor")) as [Hr|Hr].
  2:{ unfold login. unfold_M. rewrite Hs. cbn. rewrite Hf, Hrole.
      rewrite roleMismatch_vendor, bool_decide_eq_false_2 by done.
      by intros [= <- <-]. }
  destruct (bcrypt_compare (login_password b) (password u)) eqn:Hc.
  2:{ rewrite (login_wrong_password c b w u); try done.
      - by intros [= <- <-].
      - by rewrite Hrole, roleMismatch_vendor, bool_decide_eq_true_2. }
  rewrite (login_password_ok c b w u); try done.
  2:{ by rewrite Hrole, roleMismatch_vendor, bool_decide_eq_true_2. }
  rewrite (bool_decide_eq_true_2 _ Hr). cbn [andb].
  destruct (decide (status u = "active")) as [Ha|Ha].
  2:{ rewrite (bool_decide_eq_false_2 _ Ha). by intros [= <- <-]. }
  rewrite (bool_decide_eq_true_2 _ Ha). cbn [negb].
  destruct (storeActive u); [done | by intros [= <- <-]].
Qed.

(** C4. A vendor registration answered with 201 has stored an account
    with status [pending] and an inactive store. For a vendor account, a
    login that names the role [vendor] with the right password is answered
    403 "pending approval" (with the account's status) unless the status is
    [active]; when it is, 403 "store not yet activated" unless the store is
    marked active; and 200 with the tokens when both hold (the stored
    account passing the schema's validators, so that the login time can be
    saved). No login that names the role [vendor] is answered 200 for an
    account that fails either gate; in particular none is for the freshly
    registered vendor. *)
Theorem vendor_login_gates :
  (forall c b w resp w',
     register c b w = (Returned resp, w') ->
     code resp = 201 ->
     reg_role b = "vendor" ->
     exists u sd,
       users w' = users w ++ [u]
       /\ findUser (byEmail (email u)) (users w') = Some u
       /\ role u = "vendor" /\ status u = "pending"
       /\ storeDetails u = Some sd /\ active sd = false
       /\ (forall c' b' resp' w'',
             login_role b' = Some "vendor" ->
             toLowerCase (login_email b') = email u ->
             login c' b' w' = (Returned resp', w'') ->
             code resp' <> 200))
  /\ (forall c b w u,
        loginSchema b = Returned b ->
        login_role b = Some "vendor" ->
        findUser (byEmail (toLowerCase (login_email b))) (users w) = Some u ->
        role u = "vendor" ->
        bcrypt_compare (login_password b) (password u) = true ->
        (status u <> "active" ->
         login c b w = (Returned (pendingApproval u), w))
        /\ (status u = "active" -> storeActive u = false ->
            login c b w = (Returned storeInactive, w))
        /\ (status u = "active" -> storeActive u = true ->
            schemaValid u = true ->
            exists w',
              login c b w
              = (Returned
                   (mkResponse 200
                      (JObj [("user", userView (with_lastLogin (now c) u));
                             ("tokens",
                              tokensJson
                                (generateTokens (_id u) (email u) (role u)
                                   c))])),
                 w')))
  /\ (forall c b w u resp w',
        login_role b = Some "vendor" ->
        findUser (byEmail (toLowerCase (login_email b))) (users w) = Some u ->
        login c b w = (Returned resp, w') ->
        code resp = 200 ->
        role u = "vendor" /\ status u = "active" /\ storeActive u = true).
Proof.
  split; [|split].
  - intros c b w resp w' Hreg Hcode Hrole.
    apply register_created in Hreg as (Hs & _ & _ & Hnew & Hu & _); [|done].
    destruct (registered_vendor c b w Hs Hrole) as (? & Hst & _ & sd & ? & ?).
    assert (Hf : findUser (byEmail (email (registered b c w))) (users w')
                 = Some (registered b c w)).
    { rewrite Hu. apply findUser_app_new; [done|].
      unfold byEmail. by rewrite bool_decide_eq_true_2. }
    exists (registered b c w), sd. repeat split; try done.
    intros c' b' resp' w'' Hrole' He Hl Hc. rewrite <- He in Hf.
    destruct (login_vendor_200 c' b' w' _ resp' w'' Hrole' Hf Hl Hc)
      as (_ & Ha & _).
    congruence.
  - intros c b w u Hs Hrole Hf Hr Hc.
    assert (Hm : roleMismatch (login_role b) (role u) = None).
    { by rewrite Hrole, roleMismatch_vendor, bool_decide_eq_true_2. }
    rewrite (login_password_ok c b w u Hs Hf Hm Hc).
    rewrite (bool_decide_eq_true_2 _ Hr). cbn [andb].
    split; [|split].
    + intros Ha. by rewrite (bool_decide_eq_false_2 _ Ha).
    + intros Ha Hst. by rewrite (bool_decide_eq_true_2 _ Ha), Hst.
    + intros Ha Hst Hv. rewrite (bool_decide_eq_true_2 _ Ha), Hst. cbn [negb].
      destruct (save_lastLogin c u _ w Hf Hv) as (l & _ & ->). eauto.
  - intros c b w u resp w' Hrole Hf Hl Hcode.
    by destruct (login_vendor_200 c b w u resp w' Hrole Hf Hl Hcode)
      as (? & ? & ? & _).
Qed.

End VendorLogin.

Lemma vendor_login_gates_witness :
  register (H := demo) ctx0 acmeBody world0
  = (Returned (mkResponse 201
                 (JObj [("message", JStr "Registration successful");
                        ("user", userView acmePending);
                        ("tokens",
                         tokensJson
                           (generateTokens (H := demo) 5 "acme@example.com"
                              "vendor" ctx0))])),
     worldRegistered)
  /\ (exists u sd,
        users worldRegistered = users world0 ++ [u]
        /\ findUser (byEmail (email u)) (users worldRegistered) = Some u
        /\ role u = "vendor" /\ status u = "pending"
        /\ storeDetails u = Some sd /\ active sd = false)
  /\ login (H := demo) ctx0 acmeLogin worldRegistered
     = (Returned (pendingApproval acmePending), worldRegistered).
Proof.
  destruct (vendor_login_gates (H := demo)) as (Hreg & Hgate & _).
  assert (Hrun : register (H := demo) ctx0 acmeBody world0
                 = (Returned
                      (mkResponse 201
                         (JObj [("message", JStr "Registration successful");
                                ("user", userView acmePending);
                                ("tokens",
                                 tokensJson
                                   (generateTokens (H := demo) 5
                                      "acme@example.com" "vendor" ctx0))])),
                    worldRegistered)) by (vm_compute; reflexivity).
  assert (Hfind : findUser (byEmail (toLowerCase (login_email acmeLogin)))
                    (users worldRegistered) = Some acmePending)
    by (vm_compute; reflexivity).
  assert (Hpw : bcrypt_compare (Platform := demo) (login_password acmeLogin)
                  (password acmePending) = true)
    by (vm_compute; reflexivity).
  assert (Hpending : status acmePending <> "active") by discriminate.
  split; [exact Hrun|]. split.
  - destruct (Hreg ctx0 acmeBody world0 _ worldRegistered Hrun eq_refl
                eq_refl) as (u & sd & ? & ? & ? & ? & ? & ? & _).
    by exists u, sd.
  - exact (proj1 (Hgate ctx0 acmeLogin worldRegistered acmePending
                    eq_refl eq_refl Hfind eq_refl Hpw) Hpending).
Defined.

(** ** Resetting a vendor's password *)

Lemma schemaValid_with_password h u :
  schemaValid u = true ->
  8 <= String.length h ->
  schemaValid (with_password h u) = true.
Proof.
  unfold schemaValid, with_password.
  cbn [name email password role storeDetails status statusHistory].
  intros Hv Hlen.
  repeat (apply andb_prop in Hv as [Hv ?]).
  repeat (apply andb_true_intro; split); try done.
  by apply Nat.leb_le.
Qed.

Section ResetProperties.
Context `{PlatformLaws}.

(** The pre-save hook leaves a password that is already a hash alone. *)
Lemma preSave_hashed c pw u :
  preSave c (set_password (bcrypt_hash pw (salt c)) (loaded u))
  = Returned (set_password (bcrypt_hash pw (salt c)) (loaded u)).
Proof.
  set (d := set_password _ _).
  assert (Hmod : isModified "role" d = false /\ isModified "status" d = false)
    by (split; subst d; by modified_paths).
  destruct Hmod as [Hr Hs].
  unfold preSave. replace (skipMiddleware d) with false by done.
  replace (password (doc d)) with (bcrypt_hash pw (salt c)) by done.
  rewrite hash_format.
  destruct (isModified "password" d).
  - by destruct (negb _).
  - rewrite Hr. replace (isNew d) with false by done.
    rewrite andb_false_r. cbn. by rewrite Hs.
Qed.

Lemma save_password c pw u p w :
  findUser p (users w) = Some u ->
  schemaValid u = true ->
  exists l,
    replaceById (with_password (bcrypt_hash pw (salt c)) u) (users w) = Some l
    /\ findUser (byId (_id u)) l
       = Some (with_password (bcrypt_hash pw (salt c)) u)
    /\ save c (set_password (bcrypt_hash pw (salt c)) (loaded u)) w
       = (Returned (loaded (with_password (bcrypt_hash pw (salt c)) u)),
          mkWorld l (logs w) (nextId w) (journal w ++ [OpUserSave (_id u)])).
Proof.
  intros Hf Hv. pose proof (findUser_byId _ _ _ Hf) as Hid.
  destruct (findUser (byId (_id u)) (users w)) as [x|] eqn:Hx; [|done].
  destruct (replaceById_found (with_password (bcrypt_hash pw (salt c)) u)
              (users w) x Hx) as (l & Hl & Hl' & _).
  exists l. split; [done|]. split; [done|].
  apply (save_update c _ (set_password _ (loaded u))); try done.
  - apply preValidate_untouched; [done|by modified_paths..].
  - apply schemaValid_with_password; [done | apply hash_length].
  - apply preSave_hashed.
Qed.

(** C10. For every e-mail under which [POST /reset-vendor-password]
    finds a vendor account, the request, whatever [Authorization] header
    it carries or lacks, is answered 200 with the fixed password
    "Vendor@123" in the body, and has replaced the stored credential of
    that account by the hash of that password: [bcrypt.compare] accepts
    "Vendor@123" for it afterwards. (The stored account is one that passes
    the schema's validators.) *)
Theorem reset_vendor_password_open (c : Ctx) (header : option Token)
    (e : string) (w : World) (u : User) :
  findUser (vendorByEmail e) (users w) = Some u ->
  schemaValid u = true ->
  exists w' u',
    serve c header (PostResetVendorPassword (Some e)) w
    = (Returned (resetResponse u), w')
    /\ findUser (byId (_id u)) (users w') = Some u'
    /\ u' = with_password (bcrypt_hash "Vendor@123" (salt c)) u
    /\ bcrypt_compare "Vendor@123" (password u') = true.
Proof.
  intros Hf Hv.
  destruct (save_password c "Vendor@123" u _ w Hf Hv) as (l & _ & Hl & Hsave).
  eexists _, _. split; [|split; [|split; [reflexivity|]]].
  - cbn [serve]. unfold resetVendorPassword. unfold_M.
    fold (vendorByEmail e). rewrite Hf. cbn. rewrite Hsave. log_ok.
    reflexivity.
  - exact Hl.
  - apply compare_hash.
Qed.

End ResetProperties.

Lemma reset_vendor_password_open_witness :
  findUser (vendorByEmail "ACME@x.com") (users world0) = Some acme
  /\ exists w' u',
       serve (H := demo) ctx0 None
         (PostResetVendorPassword (Some "ACME@x.com")) world0
       = (Returned (resetResponse acme), w')
       /\ findUser (byId 4) (users w') = Some u'
       /\ u' = with_password (demo_hash "Vendor@123" "salt") acme
       /\ demo_compare "Vendor@123" (password u') = true.
Proof.
  split; [reflexivity|].
  exact (reset_vendor_password_open (H := demo) (H0 := demo_laws) ctx0 None
           "ACME@x.com" world0 acme eq_refl eq_refl).
Defined.

(** ** What a [save] that returns has done *)

#[local] Arguments persist : simpl never.
#[local] Arguments preSave : simpl never.
#[local] Arguments userObject : simpl never.
#[local] Arguments userPermissionsView : simpl never.

Lemma findUser_byId_id i l u : findUser (byId i) l = Some u -> _id u = i.
Proof. intros Hf. apply find_some in Hf as [_ Hf]. by apply bool_decide_eq_true in Hf. Qed.

Lemma persist_loaded d w saved w' :
  isNew d = false ->
  persist d w = (Returned saved, w') ->
  exists l,
    replaceById (doc d) (users w) = Some l
    /\ saved = loaded (doc d)
    /\ w' = mkWorld l (logs w) (nextId w)
              (journal w ++ [OpUserSave (_id (doc d))]).
Proof.
  intros Hn. unfold persist. rewrite Hn.
  destruct (replaceById _ _) as [l|]; [|by intros [=]].
  intros [= <- <-]. eauto.
Qed.

Lemma findUser_replaceById u' l l' :
  replaceById u' l = Some l' -> findUser (byId (_id u')) l' = Some u'.
Proof.
  revert l'. induction l as [|x l IH]; [done|]. cbn. intros l'.
  destruct (byId (_id u') x) eqn:E.
  - intros [= <-]. cbn. unfold byId at 1. by rewrite bool_decide_eq_true_2.
  - destruct (replaceById u' l) as [l0|]; [|done]. cbn. intros [= <-].
    cbn. rewrite E. by apply IH.
Qed.

Section SaveReturned.
Context `{Platform}.

Lemma save_returned c d w saved w' :
  save c d w = (Returned saved, w') ->
  exists d',
    preValidate d = None
    /\ schemaValid (doc d) = true
    /\ preSave c d = Returned d'
    /\ persist d' w = (Returned saved, w').
Proof.
  unfold save. destruct (preValidate d); [by intros [=]|].
  destruct (schemaValid (doc d)); [|by intros [=]]. cbn [negb].
  destruct (preSave c d) as [d'|e]; [|by intros [=]].
  intros Hp. eauto.
Qed.

(** The pre-save hook touches the password, the permissions and the
    status history, and nothing else. *)
Lemma preSave_preserves c d d' :
  preSave c d = Returned d' ->
  _id (doc d') = _id (doc d)
  /\ role (doc d') = role (doc d)
  /\ status (doc d') = status (doc d)
  /\ storeDetails (doc d') = storeDetails (doc d)
  /\ email (doc d') = email (doc d)
  /\ isNew d' = isNew d.
Proof.
  unfold preSave. repeat case_match; intros [= <-]; simplify_eq; done.
Qed.

(** The permissions after the pre-save hook, on a loaded document whose
    password was not assigned: derived from the role when the role was
    changed, left alone otherwise. *)
Lemma preSave_permissions c d d' :
  skipMiddleware d = false ->
  isNew d = false ->
  isModified "password" d = false ->
  preSave c d = Returned d' ->
  permissions (doc d')
  = if isModified "role" d then rolePermissions (role (doc d))
    else permissions (doc d).
Proof.
  intros Hk Hn Hp. unfold preSave. rewrite Hk, Hp, Hn, andb_false_r, orb_false_r.
  repeat case_match; intros [= <-]; simplify_eq; done.
Qed.

(** The status history after the pre-save hook, under the same
    conditions: one more entry when the status was changed. *)
Lemma preSave_statusHistory c d d' :
  skipMiddleware d = false ->
  isNew d = false ->
  isModified "password" d = false ->
  preSave c d = Returned d' ->
  statusHistory (doc d')
  = if isModified "status" d
    then mkStatusEntry (status (doc d)) None (now c) None
         :: statusHistory (doc d)
    else statusHistory (doc d).
Proof.
  intros Hk Hn Hp. unfold preSave. rewrite Hk, Hp, Hn, andb_false_r, orb_false_r.
  destruct (isModified "role" d) eqn:Hr.
  - destruct (_ && _); [by intros [=]|].
    replace (isModified "status" (set_permissions _ d))
      with (isModified "status" d) by (by modified_paths).
    destruct (isModified "status" d); by intros [= <-].
  - destruct (isModified "status" d); by intros [= <-].
Qed.

End SaveReturned.

(** ** The admin update *)

Section UpdateProperties.
Context `{Platform}.

Lemma updated_flags c actor b u :
  skipMiddleware (updated c actor b u) = false
  /\ isNew (updated c actor b u) = false
  /\ isModified "password" (updated c actor b u) = false
  /\ _id (doc (updated c actor b u)) = _id u.
Proof.
  unfold updated, applyRole, applyStatus, set_storeActive.
  repeat case_match; repeat split; try done; by modified_paths.
Qed.

(** An update answered with 200 went past both guards, saved the
    document the route built, as the pre-save hook left it, and appended
    one audit entry. *)
Lemma updateUser_200 c actor userId b w resp w' :
  updateUser c actor userId b w = (Returned resp, w') ->
  code resp = 200 ->
  exists u d',
    findUser (byId userId) (users w) = Some u
    /\ (role u = "superadmin" -> user_role actor = "superadmin")
    /\ (upd_role b = Some "superadmin" -> user_role actor = "superadmin")
    /\ schemaValid (doc (updated c actor b u)) = true
    /\ preSave c (updated c actor b u) = Returned d'
    /\ findUser (byId userId) (users w') = Some (doc d')
    /\ logs w' = logs w ++ [updateEntry c actor b (doc d')]
    /\ resp = mkResponse 200 (userObject (doc d')).
Proof.
  unfold updateUser. unfold_M.
  destruct (findUser (byId userId) (users w)) as [u|] eqn:Hf;
    [|by intros [= <- <-]].
  destruct (bool_decide (role u = "superadmin")
            && negb (bool_decide (user_role actor = "superadmin"))) eqn:G1;
    [by intros [= <- <-]|].
  destruct (bool_decide (upd_role b = Some "superadmin")
            && negb (bool_decide (user_role actor = "superadmin"))) eqn:G2;
    [by intros [= <- <-]|].
  cbn. rewrite Hf. fold (updated c actor b u).
  destruct (save c _ w) as [[saved|e] w1] eqn:Hsave; [|by intros [= <- <-]].
  apply save_returned in Hsave as (d' & _ & Hv & Hpre & Hper).
  destruct (updated_flags c actor b u) as (_ & Hn & _ & Hid).
  destruct (preSave_preserves _ _ _ Hpre) as (Hid' & _ & _ & _ & _ & Hn').
  apply persist_loaded in Hper as (l & Hl & -> & ->); [|congruence].
  cbn. fold (updateEntry c actor b (doc d')). log_ok.
  intros [= <- <-] _. exists u, d'.
  repeat split; try done.
  - intros Hr. apply andb_false_iff in G1 as [G1|G1].
    + by apply bool_decide_eq_false in G1.
    + apply negb_false_iff in G1. by apply bool_decide_eq_true in G1.
  - intros Hr. apply andb_false_iff in G2 as [G2|G2].
    + by apply bool_decide_eq_false in G2.
    + apply negb_false_iff in G2. by apply bool_decide_eq_true in G2.
  - cbn. apply findUser_replaceById in Hl.
    by rewrite Hid', Hid, (findUser_byId_id _ _ _ Hf) in Hl.
Qed.

(** The store details the route leaves when it activates a vendor. *)
Lemma updated_activation c actor b u :
  role u = "vendor" ->
  upd_status b = Some "active" ->
  status (doc (updated c actor b u)) = "active"
  /\ exists sd,
       storeDetails (doc (updated c actor b u)) = Some sd /\ active sd = true.
Proof.
  intros Hr Hs. unfold updated, applyStatus. rewrite Hs.
  replace (nonEmpty "active") with true by (vm_compute; reflexivity).
  decide_literals. cbn [andb].
  replace (role (doc (set_status "active" (loaded u)))) with (role u) by done.
  rewrite (bool_decide_eq_true_2 _ Hr).
  replace (storeDetails (doc (set_status "active" (loaded u))))
    with (storeDetails u) by done.
  unfold applyRole, set_storeActive.
  destruct (storeDetails u) as [sd|] eqn:Hsd; cbn; rewrite ?Hsd;
    repeat case_match; cbn; eauto.
Qed.

(** C7. An admin update that asks for the status [active] on an account
    whose role is [vendor], and is carried out (answered 200), leaves the
    account with status [active] and with its store marked active. *)
Theorem updateUser_activates_store (c : Ctx) (actor : ReqUser) (userId : Id)
    (b : UpdateBody) (w w' : World) (u : User) (resp : Response) :
  findUser (byId userId) (users w) = Some u ->
  role u = "vendor" ->
  upd_status b = Some "active" ->
  updateUser c actor userId b w = (Returned resp, w') ->
  code resp = 200 ->
  exists u' sd,
    findUser (byId userId) (users w') = Some u'
    /\ status u' = "active"
    /\ storeDetails u' = Some sd
    /\ active sd = true.
Proof.
  intros Hf Hr Hs Hup Hcode.
  apply updateUser_200 in Hup
    as (u0 & d' & Hf0 & _ & _ & _ & Hpre & Hf' & _); [|done].
  assert (u0 = u) as -> by congruence.
  destruct (preSave_preserves _ _ _ Hpre) as (_ & _ & Hst & Hsd & _).
  destruct (updated_activation c actor b u Hr Hs) as (Ha & sd & Hsd' & Hact).
  exists (doc d'), sd. repeat split; [done|congruence|congruence|done].
Qed.

End UpdateProperties.

Lemma updateUser_activates_store_witness :
  updateUser (H := demo) ctx0 aliceUser 5 activateBody worldRegistered
  = (Returned (mkResponse 200 (userObject acmeActive)), worldActivated)
  /\ exists u' sd,
       findUser (byId 5) (users worldActivated) = Some u'
       /\ status u' = "active"
       /\ storeDetails u' = Some sd
       /\ active sd = true.
Proof.
  assert (Hrun : updateUser (H := demo) ctx0 aliceUser 5 activateBody
                   worldRegistered
                 = (Returned (mkResponse 200 (userObject acmeActive)),
                    worldActivated)) by (vm_compute; reflexivity).
  assert (Hfind : findUser (byId 5) (users worldRegistered) = Some acmePending)
    by (vm_compute; reflexivity).
  split; [exact Hrun|].
  exact (updateUser_activates_store (H := demo) ctx0 aliceUser 5 activateBody
           worldRegistered worldActivated acmePending
           (mkResponse 200 (userObject acmeActive))
           Hfind eq_refl eq_refl Hrun eq_refl).
Defined.

(** The end-to-end example: once approved, the vendor logs in. *)
Example acme_logs_in :
  code <$> match (login (H := demo) ctx0 acmeLogin worldActivated).1 with
           | Returned r => Some r
           | Thrown _ => None
           end
  = Some 200.
Proof. vm_compute. reflexivity. Qed.

(** ** Roles and permissions *)

Lemma findUser_pushHistoryById i e l x :
  findUser (byId i) l = Some x ->
  findUser (byId i) (pushHistoryById i e l)
  = Some (with_statusHistory (statusHistory x ++ [e]) x).
Proof.
  induction l as [|y l IH]; [done|]. cbn. unfold byId in *.
  destruct (bool_decide (_id y = i)) eqn:E.
  - intros [= ->]. cbn. by rewrite E.
  - intros Hf. cbn. rewrite E. by apply IH.
Qed.

Lemma roleMismatch_code requested actual r :
  roleMismatch requested actual = Some r -> code r = 403.
Proof.
  unfold roleMismatch. repeat case_match; by intros [= <-].
Qed.

Section RoleProperties.
Context `{Platform}.

(** The role and the permissions of the document an admin update saves,
    before the hooks. *)
Lemma updated_role c actor b u :
  role (doc (updated c actor b u)) = requestedRole b u
  /\ permissions (doc (updated c actor b u)) = permissions u
  /\ isModified "role" (updated c actor b u)
     = negb (bool_decide (role u = requestedRole b u)).
Proof.
  unfold updated, requestedRole, orUndefined, applyRole.
  assert (Hst : role (doc (applyStatus c actor b (loaded u))) = role u
                /\ permissions (doc (applyStatus c actor b (loaded u)))
                   = permissions u
                /\ isModified "role" (applyStatus c actor b (loaded u)) = false
                /\ isNew (applyStatus c actor b (loaded u)) = false).
  { unfold applyStatus, set_storeActive.
    repeat case_match; repeat split; try done; by modified_paths. }
  destruct Hst as (Hr & Hp & Hm & Hn).
  destruct (upd_role b) as [r|]; [destruct (nonEmpty r)|].
  - split; [done|]. split; [done|].
    unfold set_role. rewrite isModified_assign, Hm, Hn, Hr.
    rewrite (bool_decide_eq_true_2 ("role" = "role")) by done. cbn.
    by rewrite andb_true_r, orb_false_r.
  - rewrite Hr, Hp, Hm. by rewrite bool_decide_eq_true_2.
  - rewrite Hr, Hp, Hm. by rewrite bool_decide_eq_true_2.
Qed.

(** An admin update that is carried out leaves the requested role, with
    the permissions derived from it when it differs from the old role. *)
Lemma updateUser_permissions c actor userId b w resp w' u :
  findUser (byId userId) (users w) = Some u ->
  updateUser c actor userId b w = (Returned resp, w') ->
  code resp = 200 ->
  exists u',
    findUser (byId userId) (users w') = Some u'
    /\ role u' = requestedRole b u
    /\ permissions u'
       = if bool_decide (role u = requestedRole b u) then permissions u
         else rolePermissions (requestedRole b u).
Proof.
  intros Hf Hup Hcode.
  apply updateUser_200 in Hup
    as (u0 & d' & Hf0 & _ & _ & _ & Hpre & Hf' & _); [|done].
  assert (u0 = u) as -> by congruence.
  destruct (updated_flags c actor b u) as (Hk & Hn & Hp & _).
  destruct (updated_role c actor b u) as (Hr & Hperm & Hm).
  pose proof (preSave_permissions _ _ _ Hk Hn Hp Hpre) as Hps.
  destruct (preSave_preserves _ _ _ Hpre) as (_ & Hr' & _).
  exists (doc d'). split; [done|]. split; [congruence|].
  rewrite Hps, Hm, Hr, Hperm. by destruct (bool_decide _).
Qed.

(** A promotion that is carried out. *)
Lemma promoteUser_200 c actor userId b w resp w' u :
  findUser (byId userId) (users w) = Some u ->
  promoteUser c actor userId b w = (Returned resp, w') ->
  code resp = 200 ->
  exists role' u',
    pro_role b = Some role'
    /\ (role' = "admin" \/ role' = "superadmin")
    /\ findUser (byId userId) (users w') = Some u'
    /\ role u' = role'
    /\ permissions u'
       = (if bool_decide (role u = role') then permissions u
          else rolePermissions role')
    /\ resp = mkResponse 200
                (JObj [("message",
                        JStr ("User successfully promoted to " +:+ role'));
                       ("user", userPermissionsView u')]).
Proof.
  intros Hf. unfold promoteUser. unfold_M. rewrite Hf.
  destruct (pro_role b) as [role'|]; [|by intros [= <- <-]].
  destruct (inEnum role' ["admin"; "superadmin"]) eqn:He;
    [|by intros [= <- <-]].
  cbn [negb].
  destruct (save c _ w) as [[saved|e] w1] eqn:Hsave; [|by intros [= <- <-]].
  apply save_returned in Hsave as (d' & _ & _ & Hpre & Hper).
  set (d := set_role role' (loaded u)) in *.
  assert (Hflags : skipMiddleware d = false /\ isNew d = false
                   /\ isModified "password" d = false
                   /\ isModified "role" d = negb (bool_decide (role u = role'))).
  { subst d. repeat split; try done; by modified_paths. }
  destruct Hflags as (Hk & Hn & Hp & Hm).
  pose proof (preSave_permissions _ _ _ Hk Hn Hp Hpre) as Hps.
  pose proof (preSave_statusHistory _ _ _ Hk Hn Hp Hpre) as Hhist.
  replace (isModified "status" d) with false in Hhist
    by (subst d; by modified_paths).
  destruct (preSave_preserves _ _ _ Hpre) as (Hid & Hr & _ & _ & _ & Hn').
  apply persist_loaded in Hper as (l & Hl & -> & ->); [|congruence].
  apply findUser_replaceById in Hl.
  unfold User_pushStatusHistory. cbn.
  intros [= <- <-] _. exists role', (with_statusHistory
    (statusHistory (doc d') ++ [promotionEntry c actor b role']) (doc d')).
  split; [done|]. split.
  { apply bool_decide_eq_true in He.
    apply elem_of_cons in He as [->|He]; [by left|].
    apply list_elem_of_singleton in He as ->. by right. }
  split.
  { replace (_id (doc d)) with (_id u) in Hid by done.
    rewrite Hid in Hl. cbn. rewrite Hid.
    rewrite (findUser_byId_id _ _ _ Hf) in *.
    by apply findUser_pushHistoryById. }
  split; [cbn; by rewrite Hr|]. split.
  { cbn. rewrite Hps, Hm. replace (role (doc d)) with role' by done.
    replace (permissions (doc d)) with (permissions u) by done.
    by destruct (bool_decide _). }
  reflexivity.
Qed.

(** A permission update that is carried out stores the merged table,
    whoever the actor is, and writes no audit entry. *)
Lemma updatePermissions_200 c actor userId patch w resp w' u :
  findUser (byId userId) (users w) = Some u ->
  updatePermissions c actor userId patch w = (Returned resp, w') ->
  code resp = 200 ->
  findUser (byId userId) (users w')
  = Some (with_permissions (mergePermissions (permissions u) patch) u)
  /\ logs w' = logs w
  /\ journal w' = journal w ++ [OpUserSave userId].
Proof.
  intros Hf. unfold updatePermissions. unfold_M. rewrite Hf.
  destruct (save c _ w) as [[saved|e] w1] eqn:Hsave; [|by intros [= <- <-]].
  apply save_returned in Hsave as (d' & _ & _ & Hpre & Hper).
  rewrite preSave_untouched in Hpre; [|done|done|by modified_paths..].
  injection Hpre as <-.
  apply persist_loaded in Hper as (l & Hl & -> & ->); [|done].
  apply findUser_replaceById in Hl. cbn in Hl.
  rewrite (findUser_byId_id _ _ _ Hf) in Hl.
  intros [= <- <-] _. cbn. by rewrite (findUser_byId_id _ _ _ Hf).
Qed.

(** A login that is answered with 200 has saved the login time and
    nothing else. *)
Lemma login_200 c b w resp w' :
  login c b w = (Returned resp, w') ->
  code resp = 200 ->
  exists u,
    findUser (byEmail (toLowerCase (login_email b))) (users w) = Some u
    /\ findUser (byId (_id u)) (users w') = Some (with_lastLogin (now c) u).
Proof.
  destruct (loginSchema_cases b) as [Hs|[l Hs]].
  2:{ unfold login. unfold_M. rewrite Hs. cbn. by intros [= <- <-]. }
  destruct (findUser (byEmail (toLowerCase (login_email b))) (users w))
    as [u|] eqn:Hf.
  2:{ rewrite login_not_found by done. by intros [= <- <-]. }
  destruct (roleMismatch (login_role b) (role u)) as [r|] eqn:Hm.
  { unfold login. unfold_M. rewrite Hs. cbn. rewrite Hf, Hm.
    intros [= <- <-] Hc. apply roleMismatch_code in Hm. congruence. }
  destruct (bcrypt_compare (login_password b) (password u)) eqn:Hc.
  2:{ rewrite (login_wrong_password c b w u) by done. by intros [= <- <-]. }
  rewrite (login_password_ok c b w u) by done.
  destruct (_ && _); [by intros [= <- <-]|].
  destruct (_ && _); [by intros [= <- <-]|].
  destruct (save c _ w) as [[saved|e] w1] eqn:Hsave.
  2:{ intros [= <- <-] Hcode. by apply loginCatch_code in Hcode. }
  apply save_returned in Hsave as (d' & _ & _ & Hpre & Hper).
  rewrite preSave_untouched in Hpre; [|done|done|by modified_paths..].
  injection Hpre as <-.
  apply persist_loaded in Hper as (l & Hl & -> & ->); [|done].
  apply findUser_replaceById in Hl.
  intros [= <- <-] _. exists u. split; [done|]. exact Hl.
Qed.

(** C1, as the code has it. The permissions of an account follow its
    role only where a save changes the role: an admin update or a
    promotion that is carried out leaves the requested role, with the
    permissions of the table for that role when it differs from the old
    role, and with the stored permissions untouched when it does not. A
    login that succeeds leaves the stored permissions as they were. And
    [PUT /users/:userId/permissions], for any actor the admin router lets
    through, overwrites the permissions the request names with the request's
    values, whatever the role, without writing an audit entry. *)
Theorem permissions_follow_role_changes (c : Ctx) (w w' : World)
    (resp : Response) (u : User) :
  code resp = 200 ->
  (forall actor b,
     findUser (byId (_id u)) (users w) = Some u ->
     updateUser c actor (_id u) b w = (Returned resp, w') ->
     exists u',
       findUser (byId (_id u)) (users w') = Some u'
       /\ role u' = requestedRole b u
       /\ permissions u'
          = if bool_decide (role u = requestedRole b u) then permissions u
            else rolePermissions (requestedRole b u))
  /\ (forall actor b,
        findUser (byId (_id u)) (users w) = Some u ->
        promoteUser c actor (_id u) b w = (Returned resp, w') ->
        exists role' u',
          pro_role b = Some role'
          /\ findUser (byId (_id u)) (users w') = Some u'
          /\ role u' = role'
          /\ permissions u'
             = if bool_decide (role u = role') then permissions u
               else rolePermissions role')
  /\ (forall b,
        findUser (byEmail (toLowerCase (login_email b))) (users w) = Some u ->
        login c b w = (Returned resp, w') ->
        exists u',
          findUser (byId (_id u)) (users w') = Some u'
          /\ role u' = role u
          /\ permissions u' = permissions u)
  /\ (forall actor patch,
        findUser (byId (_id u)) (users w) = Some u ->
        updatePermissions c actor (_id u) patch w = (Returned resp, w') ->
        exists u',
          findUser (byId (_id u)) (users w') = Some u'
          /\ role u' = role u
          /\ permissions u' = mergePermissions (permissions u) patch
          /\ logs w' = logs w).
Proof.
  intros Hcode. split; [|split; [|split]].
  - intros actor b Hf Hup.
    exact (updateUser_permissions c actor _ b w resp w' u Hf Hup Hcode).
  - intros actor b Hf Hp.
    destruct (promoteUser_200 c actor _ b w resp w' u Hf Hp Hcode)
      as (role' & u' & ? & _ & ? & ? & ? & _).
    by exists role', u'.
  - intros b Hf Hl.
    destruct (login_200 c b w resp w' Hl Hcode) as (u0 & Hf0 & Hf').
    assert (u0 = u) as -> by congruence.
    by exists (with_lastLogin (now c) u).
  - intros actor patch Hf Hp.
    destruct (updatePermissions_200 c actor _ patch w resp w' u Hf Hp Hcode)
      as (Hf' & Hlogs & _).
    by exists (with_permissions (mergePermissions (permissions u) patch) u).
Qed.

End RoleProperties.

Lemma permissions_follow_role_changes_witness :
  promoteUser (H := demo) ctx0 rootUser 3 promoteAdmin world0
  = (Returned promotedResponse, worldPromoted)
  /\ exists role' u',
       pro_role promoteAdmin = Some role'
       /\ findUser (byId 3) (users worldPromoted) = Some u'
       /\ role u' = role'
       /\ permissions u'
          = if bool_decide (role carol = role') then permissions carol
            else rolePermissions role'.
Proof.
  assert (Hrun : promoteUser (H := demo) ctx0 rootUser 3 promoteAdmin world0
                 = (Returned promotedResponse, worldPromoted))
    by (vm_compute; reflexivity).
  split; [exact Hrun|].
  exact (proj1 (proj2 (permissions_follow_role_changes (H := demo) ctx0 world0
                         worldPromoted promotedResponse carol eq_refl))
           rootUser promoteAdmin eq_refl Hrun).
Defined.

(** The promoted account has exactly the admin row of the table. *)
Example promoted_admin_permissions :
  permissions carolAdmin
  = mkPermissions true true true true false true false.
Proof. reflexivity. Qed.

(** C1 as the claim states it fails: an admin who is not a superadmin
    sets a permission of a customer through
    [PUT /users/:userId/permissions]; the request is answered 200, the
    stored permissions are no longer those of the customer's role, and
    nothing is recorded in the audit log. *)
Lemma permissions_set_independently :
  let run :=
    serve (H := demo) ctx0 (Some (accessTokenOf (H := demo) alice ctx0))
      (PutAdminPermissions 3 (Some grantManageUsers)) world0 in
  role alice <> "superadmin"
  /\ (exists body', run.1 = Returned (mkResponse 200 body'))
  /\ (exists u',
        findUser (byId 3) (users run.2) = Some u'
        /\ role u' = "user"
        /\ manageUsers (permissions u') = true
        /\ permissions u' <> rolePermissions (role u'))
  /\ logs run.2 = logs world0.
Proof.
  vm_compute. split; [discriminate|]. split; [eauto|]. split; [|done].
  eexists. split; [reflexivity|]. by repeat split.
Qed.

(** ** Setting the role [superadmin] *)

Section SuperadminGuard.
Context `{Platform}.

(** [PUT /users/:userId] refuses to set the role [superadmin] for an
    actor who is not a superadmin, and changes nothing. *)
Lemma updateUser_superadmin_guard c actor userId b w u :
  findUser (byId userId) (users w) = Some u ->
  upd_role b = Some "superadmin" ->
  user_role actor <> "superadmin" ->
  exists m, updateUser c actor userId b w
            = (Returned (mkResponse 403 (message m)), w).
Proof.
  intros Hf Hr Ha. unfold updateUser. unfold_M. rewrite Hf.
  rewrite (bool_decide_eq_false_2 (user_role actor = "superadmin")) by done.
  cbn [negb]. rewrite !andb_true_r.
  destruct (bool_decide (role u = "superadmin")); [eauto|].
  rewrite bool_decide_eq_true_2 by done. eauto.
Qed.

End SuperadminGuard.

(** C2, at the input where the code departs from it: an admin who is
    not a superadmin asks [PUT /promote/:userId] for the role [superadmin]
    on a customer; the request is answered 200 and the stored role is
    [superadmin]. (The same request through [PUT /users/:userId] is
    answered 403 and changes nothing.) *)
Example promote_to_superadmin_by_admin :
  let header := Some (accessTokenOf (H := demo) alice ctx0) in
  let run := serve (H := demo) ctx0 header
               (PutAdminPromote 3 promoteSuperadmin) world0 in
  role alice = "admin"
  /\ (exists body', run.1 = Returned (mkResponse 200 body'))
  /\ role <$> findUser (byId 3) (users run.2) = Some "superadmin"
  /\ serve (H := demo) ctx0 header
       (PutAdminUser 3 (mkUpdateBody None (Some "superadmin") None)) world0
     = (Returned
          (mkResponse 403
             (message "Only superadmins can promote to superadmin")),
        world0).
Proof. vm_compute. split; [done|]. split; [eauto|]. by split. Qed.

(** ** The status history *)

Section StatusHistory.
Context `{Platform}.

(** The status and the history of the document an admin update saves,
    before the hooks, when the request names a status. *)
Lemma updated_status c actor b u s :
  upd_status b = Some s ->
  nonEmpty s = true ->
  status (doc (updated c actor b u)) = s
  /\ statusHistory (doc (updated c actor b u))
     = mkStatusEntry s (upd_reason b) (now c) None :: statusHistory u
  /\ isModified "status" (updated c actor b u)
     = negb (bool_decide (status u = s)).
Proof.
  intros Hs Hne.
  unfold updated, applyRole, applyStatus, set_storeActive. rewrite Hs, Hne.
  repeat case_match; repeat split; try done; modified_paths;
    by rewrite ?andb_true_r, ?orb_false_r.
Qed.

(** The status history after an admin update that is carried out: the
    entry of the route, and on top of it the entry of the pre-save hook
    when the status differs from the stored one. *)
Lemma updateUser_history c actor userId b w resp w' u s :
  findUser (byId userId) (users w) = Some u ->
  upd_status b = Some s ->
  nonEmpty s = true ->
  updateUser c actor userId b w = (Returned resp, w') ->
  code resp = 200 ->
  exists u',
    findUser (byId userId) (users w') = Some u'
    /\ statusHistory u'
       = (if bool_decide (status u = s) then []
          else [mkStatusEntry s None (now c) None])
         ++ mkStatusEntry s (upd_reason b) (now c) None :: statusHistory u.
Proof.
  intros Hf Hs Hne Hup Hcode.
  apply updateUser_200 in Hup
    as (u0 & d' & Hf0 & _ & _ & _ & Hpre & Hf' & _); [|done].
  assert (u0 = u) as -> by congruence.
  destruct (updated_flags c actor b u) as (Hk & Hn & Hp & _).
  destruct (updated_status c actor b u s Hs Hne) as (Hst & Hh & Hm).
  pose proof (preSave_statusHistory _ _ _ Hk Hn Hp Hpre) as Hh'.
  exists (doc d'). split; [done|]. rewrite Hh', Hm, Hst, Hh.
  by destruct (bool_decide _).
Qed.

End StatusHistory.

(** C3, at the input where the code departs from it: an admin suspends
    an active customer whose history is empty; the one status change
    leaves two entries in the history, the pre-save hook's on top of the
    route's. *)
Example suspension_recorded_twice :
  let run := updateUser (H := demo) ctx0 aliceUser 3 suspendBody world0 in
  statusHistory carol = []
  /\ (exists body', run.1 = Returned (mkResponse 200 body'))
  /\ statusHistory <$> findUser (byId 3) (users run.2)
     = Some [mkStatusEntry "suspended" None (now ctx0) None;
             mkStatusEntry "suspended" (Some "abuse") (now ctx0) None].
Proof. vm_compute. split; [done|]. split; [eauto|done]. Qed.

(** * Further properties *)

(** ** Tokens: issue, verify, authenticate *)

Section TokenRoundTrip.
Context `{Platform}.

Lemma jwt_verify_Returned t c j :
  jwt_verify t c = Returned j ->
  t = Encoded j /\ isEmptyToken t = false /\ (now c / 1000 < exp j)%Z.
Proof.
  unfold jwt_verify. destruct t as [s|j']; [done|].
  destruct (negb _); [done|].
  destruct (_ <=? _)%Z eqn:E; [done|]. intros [= ->].
  apply Z.leb_gt in E. done.
Qed.

(** The tokens [generateTokens] issues verify, and decode to the claims
    they were issued for, exactly until their expiry: one hour for the
    access token, seven days for the refresh token (in whole seconds). *)
Theorem issued_tokens_verify (userId : Id) (email role : string)
    (c later : Ctx) :
  let tokens := generateTokens userId email role c in
  ((exists j, jwt_verify tokens.1 later = Returned j)
   <-> (now later / 1000 < now c / 1000 + 3600)%Z)
  /\ ((exists j, jwt_verify tokens.2 later = Returned j)
      <-> (now later / 1000 < now c / 1000 + 604800)%Z)
  /\ (forall j, jwt_verify tokens.1 later = Returned j ->
                payload j = AccessPayload userId email role)
  /\ (forall j, jwt_verify tokens.2 later = Returned j ->
                payload j = RefreshPayload userId (now c)).
Proof.
  cbn zeta. unfold generateTokens. cbn [fst snd].
  rewrite !jwt_verify_issued.
  repeat split.
  - intros [j Hj]. destruct (_ <=? _)%Z eqn:E; [done|]. by apply Z.leb_gt in E.
  - intros Hlt. apply Z.leb_gt in Hlt. rewrite Hlt. eauto.
  - intros [j Hj]. destruct (_ <=? _)%Z eqn:E; [done|]. by apply Z.leb_gt in E.
  - intros Hlt. apply Z.leb_gt in Hlt. rewrite Hlt. eauto.
  - intros j. destruct (_ <=? _)%Z; [done|]. by intros [= <-].
  - intros j. destruct (_ <=? _)%Z; [done|]. by intros [= <-].
Qed.

(** [auth] with a token that verifies: [req.user] is read from the
    stored account. *)
Lemma auth_passes t c j w u :
  jwt_verify t c = Returned j ->
  findUser (byId (payloadUserId (payload j))) (users w) = Some u ->
  auth c (Some t) w = (Returned (Next (reqUserOf u)), w).
Proof.
  intros Hv Hf. destruct (jwt_verify_Returned _ _ _ Hv) as (_ & He & _).
  unfold auth. rewrite He, Hv. unfold_M. by rewrite Hf.
Qed.

(** What [auth] has checked when it calls [next()]. *)
Lemma auth_Next c header w u w' :
  auth c header w = (Returned (Next u), w') ->
  exists t j a,
    header = Some t
    /\ jwt_verify t c = Returned j
    /\ findUser (byId (payloadUserId (payload j))) (users w) = Some a
    /\ u = reqUserOf a
    /\ w' = w.
Proof.
  unfold auth. destruct header as [t|]; [|by intros [=]].
  destruct (isEmptyToken t); [by intros [=]|].
  destruct (jwt_verify t c) as [j|e] eqn:Hv.
  - unfold_M. destruct (findUser _ _) as [a|] eqn:Hf; [|by intros [=]].
    intros [= <- <-]. by exists t, j, a.
  - by destruct e; intros [=].
Qed.

(** [auth] never writes to the database, never throws, and refuses a
    request with status 401 only. It lets a request through exactly when
    the header carries a token that [jwt.verify] accepts and an account is
    stored under the [userId] of the token's claims; [req.user] is then the
    [_id], e-mail address and role of that stored account. *)
Theorem auth_only_reads (c : Ctx) (header : option Token) (w : World) :
  exists g,
    auth c header w = (Returned g, w)
    /\ (forall r, g = Respond r -> code r = 401)
    /\ (forall u,
          g = Next u
          <-> exists t j a,
                header = Some t
                /\ jwt_verify t c = Returned j
                /\ findUser (byId (payloadUserId (payload j))) (users w)
                   = Some a
                /\ u = mkReqUser (_id a) (email a) (role a) None).
Proof.
  assert (Hrun : exists g, auth c header w = (Returned g, w)
                           /\ (forall r, g = Respond r -> code r = 401)).
  { unfold auth. destruct header as [t|].
    2:{ eexists. split; [done|]. by intros r [= <-]. }
    destruct (isEmptyToken t).
    { eexists. split; [done|]. by intros r [= <-]. }
    destruct (jwt_verify t c) as [j|e].
    - unfold_M. destruct (findUser _ _) as [a|] eqn:Hf.
      + eexists. split; [done|]. done.
      + eexists. split; [done|]. by intros r [= <-].
    - destruct e; (eexists; split; [done|]; by intros r [= <-]). }
  destruct Hrun as (g & Hrun & H401). exists g.
  split; [done|]. split; [done|]. intros u. split.
  - intros ->. apply auth_Next in Hrun as (t & j & a & ? & ? & ? & ? & _).
    by exists t, j, a.
  - intros (t & j & a & -> & Hv & Hf & ->).
    rewrite (auth_passes _ _ _ _ _ Hv Hf) in Hrun. by injection Hrun as <-.
Qed.

End TokenRoundTrip.

(** ** The permission gate behind [auth] *)

Section PermissionGate.
Context `{Platform}.

(** C8, as the code has it. [requirePermission(name)] reads [req.user]:
    it lets a superadmin through whatever permission table the request
    carries, and for any other role it lets the request through exactly
    when [req.user.permissions] is there and holds [true] for that
    permission, and otherwise answers 403 with the name of the missing
    permission. The [req.user] that [auth] builds carries no table, so a
    request that [auth] has let through passes the gate exactly when the
    stored role of the requester is [superadmin], whatever the stored
    permission table says, and is answered 403 with the name of the
    permission otherwise. In particular the gate for [manageUsers] passes
    for a superadmin whose table says no, and fails for a customer. *)
Theorem requirePermission_gate (p : Permission) (u : ReqUser) :
  (user_role u = "superadmin" -> requirePermission p (Some u) = Next u)
  /\ (user_role u <> "superadmin" ->
      (requirePermission p (Some u) = Next u <->
       exists ps, user_permissions u = Some ps /\ getPermission ps p = true)
      /\ (requirePermission p (Some u) <> Next u ->
          requirePermission p (Some u) = Respond (forbiddenPermission p u)))
  /\ (forall c header w w',
        auth c header w = (Returned (Next u), w') ->
        exists t j a,
          header = Some t
          /\ jwt_verify t c = Returned j
          /\ findUser (byId (payloadUserId (payload j))) (users w) = Some a
          /\ user_id u = _id a
          /\ (requirePermission p (Some u) = Next u
              <-> role a = "superadmin")
          /\ (role a <> "superadmin" ->
              requirePermission p (Some u)
              = Respond (forbiddenPermission p u)
              /\ code (forbiddenPermission p u) = 403))
  /\ (forall i e table,
        requirePermission ManageUsers (Some (mkReqUser i e "superadmin" table))
        = Next (mkReqUser i e "superadmin" table))
  /\ (forall i e,
        let customer := mkReqUser i e "user" (Some (rolePermissions "user")) in
        requirePermission ManageUsers (Some customer)
        = Respond (forbiddenPermission ManageUsers customer)).
Proof.
  split; [apply requirePermission_superadmin|].
  split; [|split].
  - intros Hr. rewrite (requirePermission_other p u Hr).
    destruct (user_permissions u) as [ps|]; [destruct (getPermission ps p) eqn:E|].
    + split; [split; [eauto | done] | done].
    + split; [split; [done | intros (ps' & [= <-] & ?); congruence] | done].
    + split; [split; [done | intros (ps' & [=] & ?)] | done].
  - intros c header w w' Ha.
    apply auth_Next in Ha as (t & j & a & -> & Hv & Hf & -> & _).
    exists t, j, a. do 4 (split; [done|]).
    unfold reqUserOf. rewrite requirePermission_without_table. split.
    + case_bool_decide; [done|]. split; [by intros [=] | done].
    + intros Hr. by rewrite bool_decide_eq_false_2.
  - split; reflexivity.
Qed.

End PermissionGate.

(** C8 as the claim states it fails: the admin [alice] is authenticated
    and her stored boolean for [manageUsers] is [true], yet
    [requirePermission('manageUsers')] answers her request with 403. *)
Lemma requirePermission_ignores_stored_table :
  let header := Some (accessTokenOf (H := demo) alice ctx0) in
  findUser (byId 2) (users world0) = Some alice
  /\ role alice <> "superadmin"
  /\ getPermission (permissions alice) ManageUsers = true
  /\ auth (H := demo) ctx0 header world0
     = (Returned (Next (reqUserOf alice)), world0)
  /\ requirePermission ManageUsers (Some (reqUserOf alice))
     = Respond (forbiddenPermission ManageUsers (reqUserOf alice))
  /\ code (forbiddenPermission ManageUsers (reqUserOf alice)) = 403.
Proof.
  vm_compute. split; [done|]. split; [discriminate|]. by repeat split.
Qed.

(** ** The admin router lets admins in, and nobody else *)

Section AdminGate.
Context `{Platform}.

(** A request to an admin route with the token of an account whose
    stored role is neither [admin] nor [superadmin] is answered 403, and
    nothing is written; the role in the token's claims plays no part. *)
Theorem admin_routes_refuse_others (c : Ctx) (t : Token) (j : Jwt)
    (w : World) (u : User) (r : Route) :
  jwt_verify t c = Returned j ->
  findUser (byId (payloadUserId (payload j))) (users w) = Some u ->
  role u <> "admin" ->
  role u <> "superadmin" ->
  isAdminRoute r = true ->
  serve c (Some t) r w
  = (Returned
       (mkResponse 403 (message "Access denied. Admin privileges required.")),
     w).
Proof.
  intros Hv Hf Ha Hs Hr.
  assert (Hgate : forall h, adminOnly c (Some t) h w
            = (Returned
                 (mkResponse 403
                    (message "Access denied. Admin privileges required.")), w)).
  { intros h. unfold adminOnly, guarded. unfold mbind at 1. unfold M_bind.
    rewrite (auth_passes t c j w u Hv Hf).
    unfold requireAdmin. unfold_M. cbn [user_id reqUserOf].
    rewrite <- (findUser_byId_id _ _ _ Hf) in Hf. rewrite Hf.
    replace (inEnum (role u) ["admin"; "superadmin"]) with false; [done|].
    symmetry. apply bool_decide_eq_false_2.
    rewrite !elem_of_cons, elem_of_nil. tauto. }
  destruct r; try done; cbn [serve]; apply Hgate.
Qed.

End AdminGate.

Lemma admin_routes_refuse_others_witness :
  serve (H := demo) ctx0 (Some (accessTokenOf (H := demo) carol ctx0))
    (PutAdminPromote 3 promoteSuperadmin) world0
  = (Returned
       (mkResponse 403 (message "Access denied. Admin privileges required.")),
     world0).
Proof.
  assert (Hv : jwt_verify (H := demo) (accessTokenOf (H := demo) carol ctx0)
                 ctx0
               = Returned (mkJwt (AccessPayload 3 "carol@x.com" "user")
                             1700000000 1700003600 "HS256:secret"))
    by (vm_compute; reflexivity).
  exact (admin_routes_refuse_others (H := demo) ctx0 _ _ world0 carol
           (PutAdminPromote 3 promoteSuperadmin) Hv eq_refl
           ltac:(discriminate) ltac:(discriminate) eq_refl).
Defined.

(** ** Writes touch one account *)

Lemma othersUntouched_refl i w : othersUntouched i w w.
Proof. by intros j _. Qed.

Lemma othersUntouched_trans i w1 w2 w3 :
  othersUntouched i w1 w2 -> othersUntouched i w2 w3 -> othersUntouched i w1 w3.
Proof. intros H12 H23 j Hj. by rewrite H23, H12. Qed.

Lemma findUser_replaceById_other u l l' j :
  replaceById u l = Some l' ->
  j <> _id u ->
  findUser (byId j) l' = findUser (byId j) l.
Proof.
  revert l'. induction l as [|x l IH]; [done|]. cbn. intros l'.
  unfold byId in *. destruct (bool_decide (_id x = _id u)) eqn:E.
  - intros [= <-] Hj. cbn. apply bool_decide_eq_true in E.
    rewrite !bool_decide_eq_false_2; [done|congruence|congruence].
  - destruct (replaceById u l) as [l0|]; [|done]. cbn. intros [= <-] Hj.
    cbn. destruct (bool_decide (_id x = j)); [done|]. by apply IH.
Qed.

Lemma findUser_removeById_other i l j :
  j <> i -> findUser (byId j) (removeById i l) = findUser (byId j) l.
Proof.
  intros Hj. induction l as [|x l IH]; [done|]. cbn. unfold byId in *.
  destruct (bool_decide (_id x = i)) eqn:E.
  - apply bool_decide_eq_true in E.
    rewrite (bool_decide_eq_false_2 (_id x = j)) by congruence. done.
  - cbn. destruct (bool_decide (_id x = j)); [done | apply IH].
Qed.

Lemma findUser_pushHistoryById_other i e l j :
  j <> i ->
  findUser (byId j) (pushHistoryById i e l) = findUser (byId j) l.
Proof.
  intros Hj. induction l as [|x l IH]; [done|]. cbn. unfold byId in *.
  destruct (bool_decide (_id x = i)) eqn:E.
  - apply bool_decide_eq_true in E. cbn.
    rewrite (bool_decide_eq_false_2 (_id x = j)) by congruence. done.
  - cbn. destruct (bool_decide (_id x = j)); [done | apply IH].
Qed.

Lemma SystemLog_create_users e w o w' :
  SystemLog_create e w = (o, w') -> users w' = users w.
Proof.
  unfold SystemLog_create. destruct (_ && _); by intros [= <- <-].
Qed.

Section Frames.
Context `{Platform}.

(** A [save] of a stored document writes that document and nothing else,
    and writes nothing when it throws. *)
Lemma save_frame c d w o w' :
  isNew d = false ->
  save c d w = (o, w') ->
  othersUntouched (_id (doc d)) w w'
  /\ logs w' = logs w
  /\ (forall e, o = Thrown e -> w' = w).
Proof.
  intros Hn. unfold save.
  destruct (preValidate d);
    [intros [= <- <-]; split; [apply othersUntouched_refl|done]|].
  destruct (schemaValid (doc d));
    [|intros [= <- <-]; split; [apply othersUntouched_refl|done]].
  cbn [negb]. destruct (preSave c d) as [d'|e] eqn:Hpre;
    [|intros [= <- <-]; split; [apply othersUntouched_refl|done]].
  destruct (preSave_preserves _ _ _ Hpre) as (Hid & _ & _ & _ & _ & Hn').
  unfold persist. rewrite Hn', Hn.
  destruct (replaceById (doc d') (users w)) as [l|] eqn:Hl;
    [|intros [= <- <-]; split; [apply othersUntouched_refl|done]].
  intros [= <- <-]. split; [|done].
  intros j Hj. cbn. eapply findUser_replaceById_other; [done|congruence].
Qed.

(** Whatever [PUT /users/:userId], [PUT /promote/:userId],
    [PUT /users/:userId/permissions] and [DELETE /users/:userId] answer,
    every account other than the one named in the path is left as it was. *)
Theorem admin_writes_touch_one_account (c : Ctx) (actor : ReqUser)
    (userId : Id) (w : World) :
  (forall b o w', updateUser c actor userId b w = (o, w') ->
                  othersUntouched userId w w')
  /\ (forall b o w', promoteUser c actor userId b w = (o, w') ->
                     othersUntouched userId w w')
  /\ (forall patch o w',
        updatePermissions c actor userId patch w = (o, w') ->
        othersUntouched userId w w')
  /\ (forall o w', deleteUser c actor userId w = (o, w') ->
                   othersUntouched userId w w').
Proof.
  split; [|split; [|split]].
  - intros b o w'. unfold updateUser. unfold_M.
    destruct (findUser (byId userId) (users w)) as [u|] eqn:Hf;
      [|intros [= <- <-]; apply othersUntouched_refl].
    destruct (_ && _); [intros [= <- <-]; apply othersUntouched_refl|].
    destruct (_ && _); [intros [= <- <-]; apply othersUntouched_refl|].
    cbn. rewrite Hf. fold (updated c actor b u).
    destruct (updated_flags c actor b u) as (_ & Hn & _ & Hid).
    destruct (save c _ w) as [[saved|e] w1] eqn:Hsave;
      apply save_frame in Hsave as (Hfr & _); try done;
      rewrite Hid, (findUser_byId_id _ _ _ Hf) in Hfr.
    + destruct (SystemLog_create _ w1) as [[[]|e] w2] eqn:Hlog;
        apply SystemLog_create_users in Hlog;
        intros [= <- <-]; intros j Hj; rewrite Hlog; by apply Hfr.
    + by intros [= <- <-].
  - intros b o w'. unfold promoteUser. unfold_M.
    destruct (findUser (byId userId) (users w)) as [u|] eqn:Hf;
      [|intros [= <- <-]; apply othersUntouched_refl].
    destruct (pro_role b) as [role'|];
      [|intros [= <- <-]; apply othersUntouched_refl].
    destruct (negb _); [intros [= <- <-]; apply othersUntouched_refl|].
    destruct (save c _ w) as [[saved|e] w1] eqn:Hsave.
    + pose proof Hsave as Hsave'.
      apply save_frame in Hsave as (Hfr & _); [|done].
      apply save_returned in Hsave' as (d' & _ & _ & Hpre & Hper).
      destruct (preSave_preserves _ _ _ Hpre) as (Hid & _ & _ & _ & _ & Hn').
      apply persist_loaded in Hper as (l & _ & -> & ->); [|by rewrite Hn'].
      unfold User_pushStatusHistory. cbn. intros [= <- <-]. intros j Hj. cbn.
      cbn in Hid. rewrite Hid, (findUser_byId_id _ _ _ Hf).
      rewrite findUser_pushHistoryById_other by done.
      cbn in Hfr. rewrite (findUser_byId_id _ _ _ Hf) in Hfr. by apply Hfr.
    + apply save_frame in Hsave as (Hfr & _); [|done].
      cbn in Hfr. rewrite (findUser_byId_id _ _ _ Hf) in Hfr.
      by intros [= <- <-].
  - intros patch o w'. unfold updatePermissions. unfold_M.
    destruct (findUser (byId userId) (users w)) as [u|] eqn:Hf;
      [|intros [= <- <-]; apply othersUntouched_refl].
    destruct (save c _ w) as [[saved|e] w1] eqn:Hsave;
      apply save_frame in Hsave as (Hfr & _); try done;
      cbn in Hfr; rewrite (findUser_byId_id _ _ _ Hf) in Hfr;
      by intros [= <- <-].
  - intros o w'. unfold deleteUser. unfold_M.
    destruct (negb _); [intros [= <- <-]; apply othersUntouched_refl|].
    cbn. destruct (findUser (byId userId) (users w)) as [u|] eqn:Hf;
      [|intros [= <- <-]; apply othersUntouched_refl].
    destruct (bool_decide _); [intros [= <- <-]; apply othersUntouched_refl|].
    destruct (SystemLog_create _ w) as [[[]|e] w1] eqn:Hlog;
      apply SystemLog_create_users in Hlog.
    + unfold User_findByIdAndDelete. cbn. intros [= <- <-]. intros j Hj. cbn.
      rewrite Hlog. by apply findUser_removeById_other.
    + intros [= <- <-]. intros j Hj. by rewrite Hlog.
Qed.

End Frames.

(** ** What a registration can and cannot create *)

(** A handler whose [catch] block answers always answers. *)
Lemma tryCatch_answers {A} (m : M A) (f : Exn -> A) w :
  exists r w', tryCatch m (fun e => mret (f e)) w = (Returned r, w').
Proof.
  unfold tryCatch. destruct (m w) as [[a|e] w']; unfold mret, M_ret; eauto.
Qed.

Lemma issue_nil ok p m : issue ok p m = [] -> ok = true.
Proof. by destruct ok. Qed.

Section RegistrationMore.
Context `{Platform}.

(** What a body that passes [registerSchema] satisfies. *)
Lemma registerSchema_Returned b :
  registerSchema b = Returned b ->
  isEmail (reg_email b) = true
  /\ 6 <= String.length (reg_password b)
  /\ (reg_role b = "user" \/ reg_role b = "vendor").
Proof.
  unfold registerSchema.
  destruct (_ ++ _) eqn:E; [intros _|done].
  apply app_eq_nil in E as [E _].
  repeat (apply app_eq_nil in E as [? E]).
  repeat match goal with Hi : issue _ _ _ = [] |- _ =>
    apply issue_nil in Hi end.
  split; [done|]. split; [by apply Nat.leb_le|].
  match goal with Hr : inEnum _ _ = true |- _ =>
    apply bool_decide_eq_true in Hr;
    rewrite !elem_of_cons, elem_of_nil in Hr end.
  tauto.
Qed.

(** A [save] that throws has written nothing. *)
Lemma save_thrown c d w e w' : save c d w = (Thrown e, w') -> w' = w.
Proof.
  unfold save. destruct (preValidate d); [by intros [= _ <-]|].
  destruct (schemaValid (doc d)); [|by intros [= _ <-]]. cbn [negb].
  destruct (preSave c d) as [d'|e']; [|by intros [= _ <-]].
  unfold persist. repeat case_match; by intros [= <-].
Qed.

(** [POST /register] always answers, and whatever it is sent it either
    leaves the accounts as they are, or answers 201 and has appended one
    account: a customer (active) or a vendor (pending), with every
    permission [false] and an empty status history. No registration
    creates an admin or a superadmin. *)
Theorem register_creates_unprivileged (c : Ctx) (b : RegisterBody)
    (w : World) :
  exists resp w',
    register c b w = (Returned resp, w')
    /\ (users w' = users w
        \/ (code resp = 201
            /\ exists u,
                 users w' = users w ++ [u]
                 /\ (role u = "user" /\ status u = "active"
                     \/ role u = "vendor" /\ status u = "pending")
                 /\ permissions u = defaultPermissions
                 /\ statusHistory u = []
                 /\ _id u = nextId w)).
Proof.
  assert (Ht : exists resp w', register c b w = (Returned resp, w'))
    by (unfold register; apply tryCatch_answers).
  destruct Ht as (resp & w' & Hreg).
  exists resp, w'. split; [done|].
  destruct (decide (code resp = 201)) as [Hc|Hc].
  - right. split; [done|].
    apply register_created in Hreg as (Hs & _ & _ & _ & Hu & _); [|done].
    exists (registered b c w). split; [done|].
    destruct (registerSchema_Returned b Hs) as (_ & _ & [Hr|Hr]);
      unfold registered, newUser; cbn; rewrite Hr; decide_literals;
      repeat split; tauto.
  - left. revert Hreg. unfold register. unfold_M.
    destruct (registerSchema_cases b) as [E|[l E]]; rewrite E; cbn;
      [|by intros [= <- <-]].
    destruct (findUser _ (users w)); [by intros [= <- <-]|].
    unfold freshId. cbn.
    destruct (save c _ _) as [[saved|e] w1] eqn:Hsave.
    + destruct (SystemLog_create _ w1) as [[[]|?] w2]; cbn;
        intros [= <- <-]; done.
    + apply save_thrown in Hsave as ->. by intros [= <- <-].
Qed.

End RegistrationMore.

(** ** Registering twice, and logging in after registering *)

Section RegisterThen.
Context `{PlatformLaws}.

Lemma register_201_preValidate c b w resp w' :
  register c b w = (Returned resp, w') ->
  code resp = 201 ->
  preValidate (skipping (newUser (nextId w) b c)) = None.
Proof.
  unfold register. unfold_M.
  destruct (registerSchema_cases b) as [E|[l E]]; rewrite E; cbn;
    [|by intros [= <- <-]].
  destruct (findUser _ (users w)); [by intros [= <- <-]|].
  unfold freshId. cbn.
  destruct (save c _ _) as [[saved|e] w1] eqn:Hsave.
  2:{ intros [= <- <-] Hc. by apply registerCatch_code in Hc. }
  intros _ _. revert Hsave. unfold save.
  by destruct (preValidate _).
Qed.

(** The second of two registrations with the same body is answered 409
    "Email already exists" and adds no account and no audit entry: either
    the look-up finds the address, or the unique index refuses the insert. *)
Theorem register_twice_conflicts (c c' : Ctx) (b : RegisterBody)
    (w w' : World) (resp : Response) :
  register c b w = (Returned resp, w') ->
  code resp = 201 ->
  exists w'',
    register c' b w'
    = (Returned (mkResponse 409 (message "Email already exists")), w'')
    /\ users w'' = users w'
    /\ logs w'' = logs w'.
Proof.
  intros Hreg Hcode.
  pose proof (register_201_preValidate c b w resp w' Hreg Hcode) as Hpv.
  apply register_created in Hreg as (Hs & _ & Hv & _ & Hu & _); [|done].
  unfold register. unfold_M. rewrite Hs. cbn.
  destruct (findUser _ (users w')); [eauto|].
  unfold freshId. cbn. unfold save.
  replace (preValidate (skipping (newUser (nextId w') b c')))
    with (preValidate (skipping (newUser (nextId w) b c))) by done.
  rewrite Hpv.
  replace (schemaValid (doc (skipping (newUser (nextId w') b c'))))
    with (schemaValid
            (with_password (bcrypt_hash (reg_password b) (salt c'))
               (registered b c w))) by done.
  rewrite schemaValid_with_password by (done || apply hash_length).
  cbn [negb]. unfold preSave. cbn [skipMiddleware skipping].
  unfold persist. cbn [isNew skipping newUser doc].
  replace (existsb _ (users w')) with true.
  { replace (isNew (newUser (nextId w') b c')) with true by done.
    cbn. eauto. }
  symmetry. rewrite Hu, existsb_app. apply orb_true_iff. right. cbn.
  rewrite orb_false_r. unfold byEmail. by apply bool_decide_eq_true_2.
Qed.

(** A customer who has just registered can log in with the same e-mail
    address and password (an address without blanks around it, as every
    address zod accepts is): the login is answered 200. *)
Theorem register_then_login (c c' : Ctx) (b : RegisterBody) (w w' : World)
    (resp : Response) :
  register c b w = (Returned resp, w') ->
  code resp = 201 ->
  reg_role b = "user" ->
  trim (toLowerCase (reg_email b)) = toLowerCase (reg_email b) ->
  exists u' w'',
    login c' (mkLoginBody (reg_email b) (reg_password b) None) w'
    = (Returned
         (mkResponse 200
            (JObj [("user", userView u');
                   ("tokens",
                    tokensJson
                      (generateTokens (_id u') (email u') (role u') c'))])),
       w'')
    /\ u' = with_lastLogin (now c') (registered b c w).
Proof.
  intros Hreg Hcode Hrole Htrim.
  apply register_created in Hreg as (Hs & _ & Hv & Hnew & Hu & _); [|done].
  destruct (registerSchema_Returned b Hs) as (Hmail & _ & _).
  set (lb := mkLoginBody (reg_email b) (reg_password b) None).
  set (u := registered b c w) in *.
  assert (He : email u = toLowerCase (reg_email b)) by (by subst u).
  assert (Hf : findUser (byEmail (toLowerCase (login_email lb))) (users w')
               = Some u).
  { cbn. rewrite <- He, Hu. apply findUser_app_new; [done|].
    unfold byEmail. by apply bool_decide_eq_true_2. }
  assert (Hls : loginSchema lb = Returned lb).
  { unfold loginSchema. cbn. by rewrite Hmail. }
  assert (Hpw : bcrypt_compare (login_password lb) (password u) = true)
    by apply compare_hash.
  rewrite (login_password_ok c' lb w' u Hls Hf eq_refl Hpw).
  assert (Hru : role u = "user") by (by subst u).
  rewrite (bool_decide_eq_false_2 (role u = "vendor")) by (by rewrite Hru).
  cbn [andb].
  destruct (save_lastLogin c' u _ w' Hf Hv) as (l & _ & ->).
  by eexists (with_lastLogin (now c') u), _.
Qed.

End RegisterThen.

Lemma dana_registers :
  register (H := demo) ctx0 danaBody world0
  = (Returned danaRegistered, worldDana).
Proof. vm_compute. reflexivity. Qed.

Lemma register_twice_conflicts_witness :
  exists w'',
    register (H := demo) ctxLate danaBody worldDana
    = (Returned (mkResponse 409 (message "Email already exists")), w'')
    /\ users w'' = users worldDana
    /\ logs w'' = logs worldDana.
Proof.
  exact (register_twice_conflicts (H := demo) (H0 := demo_laws) ctx0 ctxLate
           danaBody world0 worldDana danaRegistered dana_registers eq_refl).
Defined.

Lemma register_then_login_witness :
  exists u' w'',
    login (H := demo) ctxLate
      (mkLoginBody "Dana@Example.com" "hunter22" None) worldDana
    = (Returned
         (mkResponse 200
            (JObj [("user", userView u');
                   ("tokens",
                    tokensJson
                      (generateTokens (H := demo) (_id u') (email u')
                         (role u') ctxLate))])),
       w'')
    /\ u' = with_lastLogin (now ctxLate)
              (registered (H := demo) danaBody ctx0 world0).
Proof.
  exact (register_then_login (H := demo) (H0 := demo_laws) ctx0 ctxLate
           danaBody world0 worldDana danaRegistered dana_registers eq_refl
           eq_refl eq_refl).
Defined.

(** ** Logging in: the role check, and what a login leaves behind *)

Section LoginMore.
Context `{Platform}.

(** The role check of [POST /login] accepts exactly: no role; the role
    [admin] for an admin or a superadmin; any other role for the account
    that has that very role. When it refuses, the answer is 403 and nothing
    is written, not even the audit entry of a failed login, whatever the
    password: the check comes before the password is looked at. *)
Theorem login_role_check (c : Ctx) (b : LoginBody) (w : World) (u : User)
    (r : string) :
  loginSchema b = Returned b ->
  findUser (byEmail (toLowerCase (login_email b))) (users w) = Some u ->
  login_role b = Some r ->
  (roleMismatch (Some r) (role u) = None
   <-> (r = "admin" /\ (role u = "admin" \/ role u = "superadmin"))
       \/ (r <> "admin" /\ role u = r))
  /\ (roleMismatch (Some r) (role u) <> None ->
      exists m, login c b w = (Returned (mkResponse 403 (message m)), w)).
Proof.
  intros Hs Hf Hr.
  assert (Hne : nonEmpty r = true).
  { revert Hs. unfold loginSchema. rewrite Hr.
    destruct (_ ++ _) eqn:E; [intros _|done].
    apply app_eq_nil in E as [_ E]. apply issue_nil in E.
    apply bool_decide_eq_true in E. unfold nonEmpty.
    apply negb_true_iff, bool_decide_eq_false_2. intros ->.
    unfold roleEnum in E. rewrite !elem_of_cons, elem_of_nil in E.
    by destruct E as [?|[?|[?|[?|?]]]]. }
  split.
  - unfold roleMismatch. rewrite Hne.
    destruct (decide (r = "admin")) as [->|Hra].
    + decide_literals. cbn [andb negb].
      unfold inEnum. destruct (bool_decide (role u ∈ _)) eqn:E.
      * apply bool_decide_eq_true in E.
        rewrite !elem_of_cons, elem_of_nil in E. split; [tauto|done].
      * apply bool_decide_eq_false in E.
        rewrite !elem_of_cons, elem_of_nil in E. cbn. split; [done|tauto].
    + rewrite (bool_decide_eq_false_2 (r = "admin")) by done. cbn [andb negb].
      destruct (decide (role u = r)) as [Heq|Hneq].
      * rewrite (bool_decide_eq_true_2 _ Heq). cbn. split; [tauto|done].
      * rewrite (bool_decide_eq_false_2 _ Hneq). cbn. split; [done|tauto].
  - intros Hm. unfold login. unfold_M. rewrite Hs. cbn. rewrite Hf, Hr.
    destruct (roleMismatch (Some r) (role u)) as [resp|] eqn:E; [|done].
    revert E. unfold roleMismatch. repeat case_match; intros [= <-]; eauto.
Qed.

(** A login that is answered 200 has set the login time of the account
    and changed nothing else in it, has appended exactly one audit entry
    (level [info], action [LOGIN_SUCCESS], for that account), and has
    answered with the tokens [generateTokens] issues for the account. *)
Theorem login_success_effects (c : Ctx) (b : LoginBody) (w w' : World)
    (resp : Response) :
  login c b w = (Returned resp, w') ->
  code resp = 200 ->
  exists u,
    findUser (byEmail (toLowerCase (login_email b))) (users w) = Some u
    /\ bcrypt_compare (login_password b) (password u) = true
    /\ findUser (byId (_id u)) (users w') = Some (with_lastLogin (now c) u)
    /\ othersUntouched (_id u) w w'
    /\ logs w' = logs w ++ [loginEntry c u]
    /\ resp = mkResponse 200
                (JObj [("user", userView (with_lastLogin (now c) u));
                       ("tokens",
                        tokensJson
                          (generateTokens (_id u) (email u) (role u) c))]).
Proof.
  destruct (loginSchema_cases b) as [Hs|[l Hs]].
  2:{ unfold login. unfold_M. rewrite Hs. cbn. by intros [= <- <-]. }
  destruct (findUser (byEmail (toLowerCase (login_email b))) (users w))
    as [u|] eqn:Hf.
  2:{ rewrite login_not_found by done. by intros [= <- <-]. }
  destruct (roleMismatch (login_role b) (role u)) as [r|] eqn:Hm.
  { unfold login. unfold_M. rewrite Hs. cbn. rewrite Hf, Hm.
    intros [= <- <-] Hc. apply roleMismatch_code in Hm. congruence. }
  destruct (bcrypt_compare (login_password b) (password u)) eqn:Hc.
  2:{ rewrite (login_wrong_password c b w u) by done. by intros [= <- <-]. }
  rewrite (login_password_ok c b w u) by done.
  destruct (_ && _); [by intros [= <- <-]|].
  destruct (_ && _); [by intros [= <- <-]|].
  destruct (save c _ w) as [[saved|e] w1] eqn:Hsave.
  2:{ intros [= <- <-] Hcode. by apply loginCatch_code in Hcode. }
  pose proof Hsave as Hfr. apply save_frame in Hfr as (Hfr & _); [|done].
  apply save_returned in Hsave as (d' & _ & _ & Hpre & Hper).
  rewrite preSave_untouched in Hpre; [|done|done|by modified_paths..].
  injection Hpre as <-.
  apply persist_loaded in Hper as (l & Hl & -> & ->); [|done].
  apply findUser_replaceById in Hl.
  intros [= <- <-] _. exists u. by repeat split.
Qed.

(** The access token of a login keeps working for an hour against any
    later state of the database in which the account still exists, and
    [auth] then hands the handlers the e-mail address and the role stored
    at that time, not those the token was issued for. *)
Theorem login_token_authenticates (c later : Ctx) (b : LoginBody)
    (w w' : World) (resp : Response) :
  login c b w = (Returned resp, w') ->
  code resp = 200 ->
  (now later / 1000 < now c / 1000 + 3600)%Z ->
  exists u tokens,
    findUser (byEmail (toLowerCase (login_email b))) (users w) = Some u
    /\ resp = mkResponse 200
                (JObj [("user", userView (with_lastLogin (now c) u));
                       ("tokens", tokensJson tokens)])
    /\ forall w'' a,
         findUser (byId (_id u)) (users w'') = Some a ->
         auth later (Some tokens.1) w'' = (Returned (Next (reqUserOf a)), w'').
Proof.
  intros Hl Hcode Hlt.
  destruct (login_success_effects c b w w' resp Hl Hcode)
    as (u & Hf & _ & _ & _ & _ & ->).
  exists u, (generateTokens (_id u) (email u) (role u) c).
  split; [done|]. split; [done|]. intros w'' a Ha.
  destruct (issued_tokens_verify (_id u) (email u) (role u) c later)
    as (Hiff & _ & Hpay & _).
  destruct (proj2 Hiff Hlt) as [j Hj].
  apply (auth_passes _ _ j); [done|]. by rewrite (Hpay j Hj).
Qed.

End LoginMore.

Lemma carol_logs_in :
  login (H := demo) ctx0 carolLogin world0 = (Returned carolLoggedIn, worldCarolIn).
Proof. vm_compute. reflexivity. Qed.

Lemma login_role_check_witness :
  exists m,
    login (H := demo) ctx0 aliceAsVendor world0
    = (Returned (mkResponse 403 (message m)), world0).
Proof.
  assert (Hm : roleMismatch (Some "vendor") (role alice) <> None)
    by (vm_compute; discriminate).
  exact (proj2 (login_role_check (H := demo) ctx0 aliceAsVendor world0 alice
                  "vendor" eq_refl eq_refl eq_refl) Hm).
Defined.

Lemma login_success_effects_witness :
  exists u,
    findUser (byEmail (toLowerCase (login_email carolLogin))) (users world0)
    = Some u
    /\ bcrypt_compare (Platform := demo) (login_password carolLogin)
         (password u) = true
    /\ findUser (byId (_id u)) (users worldCarolIn)
       = Some (with_lastLogin (now ctx0) u)
    /\ othersUntouched (_id u) world0 worldCarolIn
    /\ logs worldCarolIn = logs world0 ++ [loginEntry ctx0 u]
    /\ carolLoggedIn
       = mkResponse 200
           (JObj [("user", userView (with_lastLogin (now ctx0) u));
                  ("tokens",
                   tokensJson
                     (generateTokens (H := demo) (_id u) (email u) (role u)
                        ctx0))]).
Proof.
  exact (login_success_effects (H := demo) ctx0 carolLogin world0
           worldCarolIn carolLoggedIn carol_logs_in eq_refl).
Defined.

Lemma login_token_authenticates_witness :
  exists u tokens,
    findUser (byEmail (toLowerCase (login_email carolLogin))) (users world0)
    = Some u
    /\ carolLoggedIn
       = mkResponse 200
           (JObj [("user", userView (with_lastLogin (now ctx0) u));
                  ("tokens", tokensJson tokens)])
    /\ forall w'' a,
         findUser (byId (_id u)) (users w'') = Some a ->
         auth (H := demo) ctxSoon (Some tokens.1) w''
         = (Returned (Next (reqUserOf a)), w'').
Proof.
  assert (Hsoon : (now ctxSoon / 1000 < now ctx0 / 1000 + 3600)%Z)
    by (vm_compute; reflexivity).
  exact (login_token_authenticates (H := demo) ctx0 ctxSoon carolLogin world0
           worldCarolIn carolLoggedIn carol_logs_in eq_refl Hsoon).
Defined.

(** ** Refreshing tokens *)

Section RefreshProperties.
Context `{Platform}.

Lemma refreshTokenRoute_verified c t j w u :
  jwt_verify t c = Returned j ->
  findUser (byId (payloadUserId (payload j))) (users w) = Some u ->
  refreshTokenRoute c (Some t) w
  = (Returned
       (mkResponse 200
          (JObj [("tokens",
                  tokensJson (generateTokens (_id u) (email u) (role u) c))])),
     w).
Proof.
  intros Hv Hf. destruct (jwt_verify_Returned _ _ _ Hv) as (_ & He & _).
  unfold refreshTokenRoute. rewrite He. unfold_M. rewrite Hv. cbn.
  by rewrite Hf.
Qed.

(** [POST /refresh-token] never writes to the database and answers 200,
    400 or 401. It answers 200, with fresh tokens for the e-mail address
    and role stored at that time, to every token that [jwt.verify] accepts
    and whose account exists: a refresh token for seven days after it was
    issued, and just as well an access token for an hour after it was
    issued (the route does not tell the two apart). A token whose account
    was deleted is answered 401. *)
Theorem refresh_token_route (c later : Ctx) (w : World) (u : User) :
  (forall t, exists resp,
     refreshTokenRoute later t w = (Returned resp, w)
     /\ (code resp = 200 \/ code resp = 400 \/ code resp = 401))
  /\ (forall a tok,
        let tokens := generateTokens (_id u) (email u) (role u) c in
        findUser (byId (_id u)) (users w) = Some a ->
        (tok = tokens.2 /\ (now later / 1000 < now c / 1000 + 604800)%Z
         \/ tok = tokens.1 /\ (now later / 1000 < now c / 1000 + 3600)%Z) ->
        refreshTokenRoute later (Some tok) w
        = (Returned
             (mkResponse 200
                (JObj [("tokens",
                        tokensJson
                          (generateTokens (_id a) (email a) (role a) later))])),
           w))
  /\ (forall t j,
        jwt_verify t later = Returned j ->
        findUser (byId (payloadUserId (payload j))) (users w) = None ->
        refreshTokenRoute later (Some t) w
        = (Returned (mkResponse 401 (message "User not found")), w)).
Proof.
  split; [|split].
  - intros t. unfold refreshTokenRoute. unfold_M.
    destruct t as [t|]; [|eexists; split; [done|tauto]].
    destruct (isEmptyToken t); [eexists; split; [done|tauto]|].
    destruct (jwt_verify t later) as [j|e]; cbn;
      [|eexists; split; [done|tauto]].
    destruct (findUser _ _); eexists; (split; [done|tauto]).
  - intros a tok tokens Ha Htok.
    destruct (issued_tokens_verify (_id u) (email u) (role u) c later)
      as (Hacc & Href & Hpa & Hpr).
    destruct Htok as [[-> Hlt]|[-> Hlt]].
    + destruct (proj2 Href Hlt) as [j Hj].
      apply (refreshTokenRoute_verified _ _ j); [done|].
      by rewrite (Hpr j Hj).
    + destruct (proj2 Hacc Hlt) as [j Hj].
      apply (refreshTokenRoute_verified _ _ j); [done|].
      by rewrite (Hpa j Hj).
  - intros t j Hv Hf. destruct (jwt_verify_Returned _ _ _ Hv) as (_ & He & _).
    unfold refreshTokenRoute. rewrite He. unfold_M. rewrite Hv. cbn.
    by rewrite Hf.
Qed.

End RefreshProperties.

(** ** The profile route *)

#[local] Arguments profileJson : simpl never.
#[local] Arguments updateProfileSchema : simpl never.

Section ProfileProperties.
Context `{Platform}.

Lemma updateProfileSchema_cases b :
  updateProfileSchema b = Returned b
  \/ exists l, updateProfileSchema b = Thrown (ZodError l).
Proof.
  unfold updateProfileSchema. destruct (_ ++ _); [by left | right; eauto].
Qed.

(** The status block of [PUT /profile] is dead code: its condition
    compares [req.user.id] with itself. *)
Lemma applyProfileStatus_self c actor b d :
  applyProfileStatus c actor (user_id actor) b d = d.
Proof.
  unfold applyProfileStatus. destruct (prof_status b); [|done].
  rewrite (bool_decide_eq_true_2 (user_id actor = user_id actor)) by done.
  by rewrite andb_false_r.
Qed.

(** An assignment to a path other than [password], [role] and [status],
    by a setter that keeps the fields below. *)
Lemma assign_keeps p x f d :
  p ∉ ["password"; "role"; "status"] ->
  (forall u, _id (f u) = _id u /\ role (f u) = role u
             /\ status (f u) = status u /\ permissions (f u) = permissions u
             /\ statusHistory (f u) = statusHistory u
             /\ password (f u) = password u) ->
  let d' := assign p x f d in
  skipMiddleware d' = skipMiddleware d /\ isNew d' = isNew d
  /\ isModified "password" d' = isModified "password" d
  /\ isModified "role" d' = isModified "role" d
  /\ isModified "status" d' = isModified "status" d
  /\ _id (doc d') = _id (doc d) /\ role (doc d') = role (doc d)
  /\ status (doc d') = status (doc d)
  /\ permissions (doc d') = permissions (doc d)
  /\ statusHistory (doc d') = statusHistory (doc d)
  /\ password (doc d') = password (doc d).
Proof.
  intros Hp Hf d'. subst d'. rewrite !isModified_assign.
  rewrite !elem_of_cons in Hp.
  rewrite !(bool_decide_eq_false_2 (_ = p)) by (intros <-; tauto).
  rewrite !andb_false_r. cbn [orb assign doc skipMiddleware isNew].
  destruct (Hf (doc d)) as (? & ? & ? & ? & ? & ?). by repeat split.
Qed.

Lemma isModified_set_password_other p v d :
  p <> "password" ->
  isModified p (set_password v d) = isModified p d.
Proof.
  intros Hne. unfold set_password. rewrite isModified_assign.
  by rewrite (bool_decide_eq_false_2 (p = "password")), andb_false_r by done.
Qed.

Lemma isNew_set_password v d : isNew (set_password v d) = isNew d.
Proof. done. Qed.

(** The document [PUT /profile] builds before it looks at the passwords. *)
Lemma applyProfileInfo_flags b u :
  let d := applyProfileInfo b (loaded u) in
  skipMiddleware d = false /\ isNew d = false
  /\ isModified "password" d = false /\ isModified "role" d = false
  /\ isModified "status" d = false
  /\ _id (doc d) = _id u /\ role (doc d) = role u /\ status (doc d) = status u
  /\ permissions (doc d) = permissions u
  /\ statusHistory (doc d) = statusHistory u
  /\ password (doc d) = password u.
Proof.
  unfold applyProfileInfo.
  repeat case_match; unfold set_name, set_email;
    repeat match goal with
      | |- context [skipMiddleware (assign ?p ?x ?f ?d)] =>
          destruct (assign_keeps p x f d)
            as (-> & -> & -> & -> & -> & -> & -> & -> & -> & -> & ->);
          [intros Hin;
           repeat (apply elem_of_cons in Hin as [?|Hin]; [done|]);
           by apply elem_of_nil in Hin
          |by intros []|]
      end;
    rewrite !isModified_loaded; by repeat split.
Qed.

(** What [saveIndexed] on a stored document has done. *)
Lemma saveIndexed_outcome c d w o w' :
  isNew d = false ->
  saveIndexed c d w = (o, w') ->
  (w' = w /\ exists e, o = Thrown e)
  \/ (exists d' l,
        preSave c d = Returned d'
        /\ replaceById (doc d') (users w) = Some l
        /\ o = Returned (loaded (doc d'))
        /\ w' = mkWorld l (logs w) (nextId w)
                  (journal w ++ [OpUserSave (_id (doc d'))])).
Proof.
  intros Hn. unfold saveIndexed.
  destruct (preValidate d); [intros [= <- <-]; left; eauto|].
  destruct (schemaValid (doc d)); [|intros [= <- <-]; left; eauto].
  cbn [negb]. destruct (preSave c d) as [d'|e] eqn:Hpre;
    [|intros [= <- <-]; left; eauto].
  destruct (preSave_preserves _ _ _ Hpre) as (_ & _ & _ & _ & _ & Hn').
  unfold persistIndexed. destruct (_ && _); [intros [= <- <-]; left; eauto|].
  unfold persist. rewrite Hn', Hn.
  destruct (replaceById _ _) as [l|] eqn:Hl; [|intros [= <- <-]; left; eauto].
  intros [= <- <-]. right. eauto 10.
Qed.

(** The pre-save hook on a stored document whose role and status were
    not assigned leaves the permissions and the history alone, whether or
    not it hashes the password. *)
Lemma preSave_keeps_privileges c d d' :
  skipMiddleware d = false ->
  isNew d = false ->
  isModified "role" d = false ->
  isModified "status" d = false ->
  preSave c d = Returned d' ->
  permissions (doc d') = permissions (doc d)
  /\ statusHistory (doc d') = statusHistory (doc d).
Proof.
  intros Hk Hn Hr Hs. unfold preSave. rewrite Hk.
  destruct (isModified "password" d).
  - destruct (negb _); [by intros [= <-]|].
    destruct (startsWith _ _); [by intros [= <-]|].
    replace (isModified "role" (set_password _ d)) with false
      by (by modified_paths).
    replace (isNew (set_password _ d)) with false by done.
    rewrite andb_false_r. cbn [orb].
    replace (isModified "status" (set_password _ d)) with false
      by (by modified_paths).
    by intros [= <-].
  - rewrite Hr, Hn, andb_false_r. cbn [orb]. rewrite Hs. by intros [= <-].
Qed.

(** Whatever [PUT /profile] is sent and whatever it answers, the
    account keeps its role, status, permissions and status history (a
    [status] in the body is never applied), every other account is left as
    it was, and no audit entry is written. *)
Theorem updateProfile_keeps_privileges (c : Ctx) (actor : ReqUser)
    (b : ProfileBody) (w w' : World) (o : Outcome Response) (u : User) :
  findUser (byId (user_id actor)) (users w) = Some u ->
  updateProfile c actor b w = (o, w') ->
  exists u',
    findUser (byId (user_id actor)) (users w') = Some u'
    /\ role u' = role u
    /\ status u' = status u
    /\ permissions u' = permissions u
    /\ statusHistory u' = statusHistory u
    /\ othersUntouched (user_id actor) w w'
    /\ logs w' = logs w.
Proof.
  intros Hf.
  assert (Hsame : exists u', findUser (byId (user_id actor)) (users w) = Some u'
            /\ role u' = role u /\ status u' = status u
            /\ permissions u' = permissions u
            /\ statusHistory u' = statusHistory u
            /\ othersUntouched (user_id actor) w w /\ logs w = logs w).
  { exists u. by repeat split. }
  assert (Hsave : forall d o1 w1,
            isNew d = false -> skipMiddleware d = false ->
            isModified "role" d = false -> isModified "status" d = false ->
            _id (doc d) = _id u -> role (doc d) = role u ->
            status (doc d) = status u -> permissions (doc d) = permissions u ->
            statusHistory (doc d) = statusHistory u ->
            saveIndexed c d w = (o1, w1) ->
            exists u', findUser (byId (user_id actor)) (users w1) = Some u'
              /\ role u' = role u /\ status u' = status u
              /\ permissions u' = permissions u
              /\ statusHistory u' = statusHistory u
              /\ othersUntouched (user_id actor) w w1 /\ logs w1 = logs w).
  { intros d o1 w1 Hn Hk Hr Hs Hid Hro Hst Hpe Hhi Hsv.
    apply (saveIndexed_outcome c d w o1 w1 Hn) in Hsv
      as [[-> _]|(d' & l & Hpre & Hl & _ & ->)]; [exact Hsame|].
    destruct (preSave_preserves _ _ _ Hpre) as (Hid' & Hr' & Hs' & _).
    destruct (preSave_keeps_privileges _ _ _ Hk Hn Hr Hs Hpre) as (Hp' & Hh').
    pose proof (findUser_byId_id _ _ _ Hf) as Hu.
    exists (doc d'). split; [|repeat split; try congruence].
    - apply findUser_replaceById in Hl. rewrite Hid', Hid, Hu in Hl. exact Hl.
    - intros j Hj. cbn. eapply findUser_replaceById_other; [done|congruence]. }
  unfold updateProfile. unfold_M.
  destruct (updateProfileSchema_cases b) as [E|[l E]]; rewrite E; cbn;
    [|by intros [= <- <-]].
  rewrite Hf. rewrite applyProfileStatus_self.
  destruct (applyProfileInfo_flags b u)
    as (Hk & Hn & Hp & Hr & Hs & Hid & Hro & Hst & Hpe & Hhi & _).
  destruct (_ && _).
  - destruct (negb _); [by intros [= <- <-]|].
    destruct (saveIndexed c _ w) as [o1 w1] eqn:Hsv.
    apply Hsave in Hsv;
      rewrite ?isNew_set_password, ?isModified_set_password_other by done;
      try assumption.
    destruct o1; by intros [= <- <-].
  - destruct (saveIndexed c _ w) as [o1 w1] eqn:Hsv.
    apply Hsave in Hsv; try done.
    destruct o1; by intros [= <- <-].
Qed.

End ProfileProperties.

Section ProfilePassword.
Context `{PlatformLaws}.

Lemma updateProfileSchema_newPassword b new :
  updateProfileSchema b = Returned b ->
  prof_newPassword b = Some new ->
  nonEmpty new = true.
Proof.
  unfold updateProfileSchema. intros Hs Hn. rewrite Hn in Hs.
  destruct (_ ++ _) eqn:E; [|done].
  repeat (apply app_eq_nil in E as [? E]).
  repeat match goal with Hi : issue _ _ _ = [] |- _ =>
    apply issue_nil in Hi end.
  destruct new; [done|]. apply nonEmpty_String.
Qed.

Lemma preSave_keeps_password c d d' :
  isModified "password" d = false ->
  preSave c d = Returned d' ->
  password (doc d') = password (doc d).
Proof.
  intros Hp. unfold preSave. rewrite Hp.
  repeat case_match; intros [= <-]; simplify_eq; done.
Qed.

Lemma nonEmpty_hash pw s : nonEmpty (bcrypt_hash pw s) = true.
Proof.
  pose proof (hash_format pw s) as Hf. unfold startsWith in Hf.
  destruct (bcrypt_hash pw s); [done | apply nonEmpty_String].
Qed.

(** Changing the password through [PUT /profile]. With a current
    password that [comparePassword] rejects, the request is answered 400
    and nothing is written, the name and e-mail changes of the same request
    included. A request that is answered 200 had the right current password
    and has stored the hash of the new one, which [comparePassword] accepts
    from then on. A request that names a new password but no current one
    leaves the stored password as it is, whatever it answers. *)
Theorem updateProfile_password_change (c : Ctx) (actor : ReqUser)
    (b : ProfileBody) (w : World) (u : User) :
  findUser (byId (user_id actor)) (users w) = Some u ->
  updateProfileSchema b = Returned b ->
  (forall cur new,
     prof_currentPassword b = Some cur ->
     prof_newPassword b = Some new ->
     nonEmpty cur = true ->
     (comparePassword u cur = false ->
      updateProfile c actor b w
      = (Returned (mkResponse 400 (message "Current password is incorrect")),
         w))
     /\ (forall resp w',
           updateProfile c actor b w = (Returned resp, w') ->
           code resp = 200 ->
           comparePassword u cur = true
           /\ exists u',
                findUser (byId (user_id actor)) (users w') = Some u'
                /\ password u' = bcrypt_hash new (salt c)
                /\ comparePassword u' new = true))
  /\ (truthy (prof_currentPassword b) = false ->
      forall o w',
        updateProfile c actor b w = (o, w') ->
        exists u',
          findUser (byId (user_id actor)) (users w') = Some u'
          /\ password u' = password u).
Proof.
  intros Hf Hs.
  destruct (applyProfileInfo_flags b u)
    as (Hk & Hn & Hp & Hr & Hst & Hid & _ & _ & _ & _ & Hpw).
  pose proof (findUser_byId_id _ _ _ Hf) as Hu.
  assert (Hcmp : forall cur, comparePassword (doc (applyProfileInfo b (loaded u))) cur
                             = comparePassword u cur).
  { intros cur. unfold comparePassword. by rewrite Hpw. }
  split.
  - intros cur new Hcur Hnew Hne.
    pose proof (updateProfileSchema_newPassword b new Hs Hnew) as Hne'.
    assert (Hrun : updateProfile c actor b w
              = if negb (comparePassword u cur)
                then (Returned
                        (mkResponse 400
                           (message "Current password is incorrect")), w)
                else match saveIndexed c
                             (set_password (bcrypt_hash new (salt c))
                                (applyProfileInfo b (loaded u))) w with
                     | (Returned saved, w1) =>
                         (Returned (mkResponse 200 (profileJson (doc saved))),
                          w1)
                     | (Thrown e, w1) => (Returned (profileCatch e), w1)
                     end).
    { unfold updateProfile. unfold_M. rewrite Hs. cbn. rewrite Hf.
      rewrite applyProfileStatus_self, Hcur, Hnew. cbn [truthy default].
      rewrite Hne, Hne', Hcmp. cbn [andb].
      destruct (negb _); [done|]. by destruct (saveIndexed _ _ _) as [[?|?] ?]. }
    rewrite Hrun. split.
    + by intros ->.
    + intros resp w'. destruct (comparePassword u cur); [|by intros [= <- <-]].
      cbn [negb]. destruct (saveIndexed c _ w) as [o1 w1] eqn:Hsv.
      intros Hr' Hcode. split; [done|].
      apply saveIndexed_outcome in Hsv
        as [[-> [e ->]]|(d' & l & Hpre & Hl & -> & ->)]; [| |done].
      { injection Hr' as <- <-. by destruct e. }
      injection Hr' as <- <-.
      assert (Hd' : d' = set_password (bcrypt_hash new (salt c))
                           (applyProfileInfo b (loaded u))).
      { revert Hpre. unfold preSave.
        replace (skipMiddleware (set_password _ _)) with false by done.
        replace (password (doc (set_password _ _)))
          with (bcrypt_hash new (salt c)) by done.
        rewrite hash_format, nonEmpty_hash. cbn [negb].
        destruct (isModified "password" (set_password _ _));
          [by intros [= <-]|].
        rewrite isModified_set_password_other, Hr by done.
        rewrite isNew_set_password, Hn, andb_false_r.
        cbn [orb].
        rewrite isModified_set_password_other, Hst by done.
        by intros [= <-]. }
      subst d'. apply findUser_replaceById in Hl. cbn in Hl.
      rewrite Hid, Hu in Hl. eexists. split; [exact Hl|]. split; [done|].
      unfold comparePassword. cbn. rewrite nonEmpty_hash, Hne'. cbn.
      apply compare_hash.
  - intros Hnone o w'. unfold updateProfile. unfold_M. rewrite Hs. cbn.
    rewrite Hf, applyProfileStatus_self, Hnone. cbn [andb].
    destruct (saveIndexed c _ w) as [o1 w1] eqn:Hsv.
    apply saveIndexed_outcome in Hsv
      as [[-> [e ->]]|(d' & l & Hpre & Hl & -> & ->)]; [| |done].
    + intros [= <- <-]. eauto.
    + intros [= <- <-].
      destruct (preSave_preserves _ _ _ Hpre) as (Hid' & _).
      pose proof (preSave_keeps_password _ _ _ Hp Hpre) as Hpw'.
      apply findUser_replaceById in Hl. rewrite Hid', Hid, Hu in Hl.
      eexists. split; [exact Hl|]. congruence.
Qed.

End ProfilePassword.

Lemma updateProfile_keeps_privileges_witness :
  exists u',
    findUser (byId 2)
      (users (updateProfile (H := demo) ctx0 (reqUserOf alice) aliceInactive
                world0).2)
    = Some u'
    /\ role u' = "admin" /\ status u' = "active"
    /\ permissions u' = rolePermissions "admin" /\ statusHistory u' = []
    /\ othersUntouched 2 world0
         (updateProfile (H := demo) ctx0 (reqUserOf alice) aliceInactive
            world0).2
    /\ logs (updateProfile (H := demo) ctx0 (reqUserOf alice) aliceInactive
               world0).2 = [].
Proof.
  exact (updateProfile_keeps_privileges (H := demo) ctx0 (reqUserOf alice)
           aliceInactive world0 _ _ alice eq_refl
           (surjective_pairing _)).
Defined.

Lemma updateProfile_password_change_witness :
  updateProfile (H := demo) ctx0 (reqUserOf carol) carolNewPassword world0
  = (Returned (mkResponse 200 (profileJson carolChanged)), worldCarolChanged)
  /\ comparePassword (H := demo) carol "carol-pw" = true
  /\ exists u',
       findUser (byId 3) (users worldCarolChanged) = Some u'
       /\ password u' = demo_hash "correct horse" "salt"
       /\ comparePassword (H := demo) u' "correct horse" = true.
Proof.
  assert (Hrun : updateProfile (H := demo) ctx0 (reqUserOf carol)
                   carolNewPassword world0
                 = (Returned (mkResponse 200 (profileJson carolChanged)),
                    worldCarolChanged))
    by (vm_compute; reflexivity).
  split; [exact Hrun|].
  exact (proj2 (proj1 (updateProfile_password_change (H := demo)
                         (H0 := demo_laws) ctx0 (reqUserOf carol)
                         carolNewPassword world0 carol eq_refl eq_refl)
                  "carol-pw" "correct horse" eq_refl eq_refl eq_refl)
           _ _ Hrun eq_refl).
Defined.

(** ** The gates and the guards *)

(** The three gates of the role middleware are ordered: a request that
    [requireSuperAdmin] lets through passes [requireAdmin] and every
    [requirePermission]; all three answer 401 to a request without
    [req.user]; and [requireVendor] of the vendor router lets through no
    request that [requireAdmin] lets through. *)
Theorem role_gates_ordered (user : option ReqUser) (p : Permission) :
  (forall u, requireSuperAdmin user = Next u ->
             RoleMiddleware.requireAdmin user = Next u
             /\ requirePermission p user = Next u)
  /\ (user = None <->
      exists r, requireSuperAdmin user = Respond r /\ code r = 401)
  /\ (user = None <->
      exists r, RoleMiddleware.requireAdmin user = Respond r /\ code r = 401)
  /\ (user = None <->
      exists r, requirePermission p user = Respond r /\ code r = 401)
  /\ (forall u, user = Some u ->
                requireVendor u = Next u ->
                exists r, RoleMiddleware.requireAdmin user = Respond r
                          /\ code r = 403).
Proof.
  destruct user as [u|]; cbn.
  - unfold requireVendor, requirePermission.
    destruct (decide (user_role u = "superadmin")) as [E|E].
    + rewrite !(bool_decide_eq_true_2 _ E), E, orb_true_r. cbn.
      repeat split; try done; try by intros (r & [=] & _).
      intros ? [= <-]. case_bool_decide as V; [|done]. by rewrite V in E.
    + rewrite !(bool_decide_eq_false_2 (user_role u = "superadmin")) by done.
      rewrite orb_false_r. cbn [orb].
      repeat split; try done; try by intros (r & [=] & _).
      * by intros (r & [= <-] & ?).
      * case_bool_decide; [by intros (r & [=] & ?)|by intros (r & [= <-] & ?)].
      * destruct (match user_permissions u with Some _ => _ | None => _ end);
          [by intros (r & [=] & ?)|by intros (r & [= <-] & ?)].
      * intros ? [= <-]. case_bool_decide as V; [|done]. intros _.
        rewrite V. cbn. eauto.
  - repeat split; try done; eauto.
Qed.

(** For a stored account, the admin gate of the admin router (which reads
    the role from the database), the admin gate of the role middleware
    (which reads [req.user]) and the [/admin] route of the React
    application agree: each lets the account through exactly when its role
    is [admin] or [superadmin]. [ProtectedRoute] with [requireAdmin] also
    renders its children for the role [superuser], which is not a member of
    the schema's enum of roles. *)
Theorem admin_guards_agree (u : User) (w : World) :
  findUser (byId (_id u)) (users w) = Some u ->
  let allowed := role u = "admin" \/ role u = "superadmin" in
  let session := mkAuthState true (Some (role u)) in
  (requireAdmin (reqUserOf u) w = (Returned (Next (reqUserOf u)), w)
   <-> allowed)
  /\ (RoleMiddleware.requireAdmin (Some (reqUserOf u)) = Next (reqUserOf u)
      <-> allowed)
  /\ (adminConsoleRoute session = Children <-> allowed)
  /\ (ProtectedRoute session true = Children
      <-> allowed \/ role u = "superuser")
  /\ "superuser" ∉ roleEnum.
Proof.
  intros Hf allowed session. subst allowed session.
  unfold requireAdmin, User_findById, adminConsoleRoute, RoleBasedRoute,
    ProtectedRoute, adminRoles, inEnum. unfold_M. cbn. rewrite Hf.
  assert (Hin : forall l, role u ∈ "admin" :: "superadmin" :: l
                          <-> (role u = "admin" \/ role u = "superadmin")
                              \/ role u ∈ l).
  { intros l. rewrite !elem_of_cons. tauto. }
  assert (Hne : role u = "admin" \/ role u = "superadmin" ->
                nonEmpty (role u) = true).
  { by intros [->| ->]. }
  repeat split.
  - case_bool_decide as E; [|done]. intros _. apply Hin in E as [E|E]; [done|].
    by apply elem_of_nil in E.
  - intros E. rewrite bool_decide_eq_true_2; [done|]. apply Hin. by left.
  - destruct (bool_decide (role u = "admin")) eqn:A;
      [apply bool_decide_eq_true in A; auto|].
    destruct (bool_decide (role u = "superadmin")) eqn:S;
      [apply bool_decide_eq_true in S; auto|done].
  - intros [-> | ->]; done.
  - destruct (nonEmpty (role u)); [|done]. cbn.
    case_bool_decide as E; [|done]. intros _. apply Hin in E as [E|E]; [done|].
    by apply elem_of_nil in E.
  - intros E. rewrite (Hne E). cbn.
    rewrite bool_decide_eq_true_2; [done|]. apply Hin. by left.
  - case_bool_decide as E; [|done]. intros _. apply Hin in E as [E|E]; [by left|].
    apply elem_of_cons in E as [E|E]; [by right|]. by apply elem_of_nil in E.
  - intros E. rewrite bool_decide_eq_true_2; [done|]. apply Hin.
    destruct E as [E|E]; [by left|]. right. rewrite E. apply list_elem_of_here.
  - unfold roleEnum. rewrite !elem_of_cons, elem_of_nil.
    intros [?|[?|[?|[?|[]]]]]; done.
Qed.

(** The vendor pages of the dashboard ([/dashboard/orders] and
    [/dashboard/inventory]) are rendered exactly for a signed-in vendor or
    admin. A visitor who is not signed in is sent to [/login], and every
    other signed-in user, a superadmin included, to [/]. An admin whom the
    pages are rendered for is refused by [requireVendor] on the server. *)
Theorem vendor_dashboard_guard (s : AuthState) :
  (vendorDashboardRoute s = Children
   <-> isAuthenticated s = true
       /\ (userRole s = Some "vendor" \/ userRole s = Some "admin"))
  /\ (isAuthenticated s = false -> vendorDashboardRoute s = Navigate "/login")
  /\ (isAuthenticated s = true ->
      vendorDashboardRoute s <> Children ->
      vendorDashboardRoute s = Navigate "/")
  /\ (isAuthenticated s = true -> userRole s = Some "superadmin" ->
      vendorDashboardRoute s = Navigate "/")
  /\ (forall u, userRole s = Some (user_role u) ->
                vendorDashboardRoute s = Children ->
                user_role u = "admin" ->
                exists r, requireVendor u = Respond r /\ code r = 403).
Proof.
  unfold vendorDashboardRoute, ProtectedRoute, RoleBasedRoute, nested.
  destruct s as [[] r]; cbn.
  - assert (Hin : forall x : string,
              x ∈ ["vendor"; "admin"] <-> x = "vendor" \/ x = "admin").
    { intros x. rewrite !elem_of_cons, elem_of_nil. tauto. }
    destruct r as [r|]; cbn.
    + destruct (nonEmpty r) eqn:Hn; cbn.
      * case_bool_decide as E; cbn.
        -- apply Hin in E. repeat split; try done.
           ++ destruct E as [-> | ->]; auto.
           ++ intros _ [= ->]. by destruct E.
           ++ intros u [= ->] _ Hr. unfold requireVendor. rewrite Hr. cbn.
              eauto.
        -- split; [|done].
           split; [done|]. intros [_ [[= ->]|[= ->]]]; destruct E; apply Hin; auto.
      * split; [|done].
        split; [done|]. intros [_ [[= ->]|[= ->]]]; done.
    + split; [|done]. split; [done|]. by intros [_ [|]].
  - split; [|done]. split; [done|]. by intros [].
Qed.

Lemma admin_guards_agree_witness :
  let allowed := role alice = "admin" \/ role alice = "superadmin" in
  let session := mkAuthState true (Some (role alice)) in
  (requireAdmin (reqUserOf alice) world0
   = (Returned (Next (reqUserOf alice)), world0) <-> allowed)
  /\ (RoleMiddleware.requireAdmin (Some (reqUserOf alice))
      = Next (reqUserOf alice) <-> allowed)
  /\ (adminConsoleRoute session = Children <-> allowed)
  /\ (ProtectedRoute session true = Children
      <-> allowed \/ role alice = "superuser")
  /\ "superuser" ∉ roleEnum.
Proof. exact (admin_guards_agree alice world0 eq_refl). Defined.

(** ** Connecting to the database *)

(** [connectDB] as [server/index.js] writes it: one attempt, then a wait
    and the call of itself with [retryCount + 1] while
    [retryCount < maxRetries], and [process.exit(1)] after that. *)
Lemma connectDB_unfold connects retryCount maxRetries :
  connectDB connects retryCount maxRetries
  = if connects retryCount then (Connected retryCount, [])
    else if bool_decide (retryCount < maxRetries) then
      let r := connectDB connects (S retryCount) maxRetries in
      (r.1, waitTime retryCount :: r.2)
    else (Exited 1, []).
Proof.
  unfold connectDB.
  destruct (maxRetries - retryCount) as [|n] eqn:E; cbn.
  - rewrite bool_decide_eq_false_2 by lia. done.
  - rewrite bool_decide_eq_true_2 by lia.
    replace (maxRetries - S retryCount) with n by lia. done.
Qed.

Lemma waitTime_bounds n : (1000 <= waitTime n <= 10000)%Z.
Proof.
  unfold waitTime.
  assert (1 <= 2 ^ Z.of_nat n)%Z by (apply (Z.pow_le_mono_r 2 0); lia).
  lia.
Qed.

Lemma connectDB_from_outcome remaining connects k :
  let r := connectDB_from remaining connects k in
  (forall n, r.1 = Connected n ->
     k <= n <= k + remaining /\ connects n = true
     /\ (forall j, k <= j < n -> connects j = false)
     /\ r.2 = map waitTime (seq k (n - k)))
  /\ (forall e, r.1 = Exited e ->
        e = 1 /\ (forall j, k <= j <= k + remaining -> connects j = false)
        /\ r.2 = map waitTime (seq k remaining)).
Proof.
  revert k. induction remaining as [|m IH]; intros k; cbn.
  - destruct (connects k) eqn:Hc; cbn; split.
    + intros n [= <-]. repeat split; try lia; [done|].
      by rewrite Nat.sub_diag.
    + done.
    + done.
    + intros e [= <-]. repeat split. intros j Hj.
      by replace j with k by lia.
  - destruct (connects k) eqn:Hc; cbn; split.
    + intros n [= <-]. repeat split; try lia; [done|].
      by rewrite Nat.sub_diag.
    + done.
    + intros n Hn. destruct (IH (S k)) as [IH1 _].
      destruct (IH1 n Hn) as (Hr & Ht & Hf & Hw).
      repeat split; try lia; [done| |].
      * intros j Hj. destruct (decide (j = k)) as [->|]; [done|].
        apply Hf. lia.
      * rewrite Hw. replace (n - k) with (S (n - S k)) by lia. done.
    + intros e He. destruct (IH (S k)) as [_ IH2].
      destruct (IH2 e He) as (-> & Hf & Hw).
      repeat split.
      * intros j Hj. destruct (decide (j = k)) as [->|]; [done|].
        apply Hf. lia.
      * by rewrite Hw.
Qed.

(** What [connectDB()] ends in, for every way the attempts may go and every
    bound on the retries. It connects at the first attempt that succeeds
    among the attempts 0 to [maxRetries], having waited once after each
    failed attempt before it; when all [maxRetries + 1] attempts fail it
    exits with code 1 after [maxRetries] waits. The wait after the attempt
    numbered [n] is [min(1000 * 2 ^ n, 10000)] milliseconds, so each wait is
    between one and ten seconds and ten seconds from the fifth wait on. *)
Theorem connectDB_outcome (connects : nat -> bool) (maxRetries : nat) :
  let r := connectDB connects 0 maxRetries in
  (forall n, r.1 = Connected n ->
     n <= maxRetries /\ connects n = true
     /\ (forall j, j < n -> connects j = false)
     /\ r.2 = map waitTime (seq 0 n))
  /\ (forall e, r.1 = Exited e ->
        e = 1 /\ (forall j, j <= maxRetries -> connects j = false)
        /\ r.2 = map waitTime (seq 0 maxRetries))
  /\ (forall n, n <= maxRetries -> connects n = true ->
        exists n', n' <= n /\ r.1 = Connected n')
  /\ Forall (fun t => 1000 <= t <= 10000)%Z r.2
  /\ (forall n, 4 <= n -> waitTime n = 10000%Z).
Proof.
  intros r. subst r. unfold connectDB. rewrite Nat.sub_0_r.
  destruct (connectDB_from_outcome maxRetries connects 0) as [Hc He].
  cbn zeta in Hc, He.
  destruct (connectDB_from maxRetries connects 0) as [res waits] eqn:Hrun.
  cbn [fst snd] in *.
  assert (Hw : exists l, waits = map waitTime l).
  { destruct res as [n|e]; [destruct (Hc n eq_refl) as (_ & _ & _ & ->)
                          |destruct (He e eq_refl) as (_ & _ & ->)]; eauto. }
  split; [|split; [|split; [|split]]].
  - intros n Hn. destruct (Hc n Hn) as (Hr & Ht & Hf & Hwt).
    rewrite Nat.sub_0_r in Hwt. repeat split; try done; try lia.
    intros j Hj. apply Hf. lia.
  - intros e Hx. destruct (He e Hx) as (-> & Hf & Hwt).
    repeat split; try done. intros j Hj. apply Hf. lia.
  - intros n Hn Ht. destruct res as [n'|e].
    + exists n'. split; [|done].
      destruct (Hc n' eq_refl) as (_ & _ & Hf & _).
      destruct (decide (n' <= n)) as [|Hgt]; [done|].
      rewrite Hf in Ht by lia. done.
    + destruct (He e eq_refl) as (_ & Hf & _). rewrite Hf in Ht by lia. done.
  - destruct Hw as [l ->]. clear. induction l as [|n l IH]; cbn; constructor;
      [apply waitTime_bounds|done].
  - intros n Hn. unfold waitTime.
    assert (2 ^ 4 <= 2 ^ Z.of_nat n)%Z by (apply Z.pow_le_mono_r; lia).
    lia.
Qed.

(** ** The user statistics *)

Lemma countUsers_split p l :
  countUsers p l + countUsers (fun u => negb (p u)) l = length l.
Proof.
  unfold countUsers. induction l as [|x l IH]; [done|]. cbn.
  destruct (p x); cbn; lia.
Qed.

Lemma countUsers_le p q l :
  (forall u, p u = true -> q u = true) ->
  countUsers p l <= countUsers q l.
Proof.
  intros Hpq. unfold countUsers. induction l as [|x l IH]; [done|]. cbn.
  destruct (p x) eqn:Hp; [rewrite (Hpq x Hp); cbn; lia|].
  destruct (q x); cbn; lia.
Qed.

(** The counts that [GET /analytics] reports add up: the active and the
    inactive accounts are all the accounts, the pending vendors are among
    the vendors, the four role counts never exceed the total, and they sum
    to the total when every account has a role of the schema's enum. *)
Theorem userStats_partition (l : list User) :
  let s := userStats l in
  activeUsers s + inactiveUsers s = totalUsers s
  /\ pendingVendors s <= vendors s
  /\ pendingVendors s <= inactiveUsers s
  /\ customers s + vendors s + admins s + superadmins s <= totalUsers s
  /\ (Forall (fun u => role u ∈ roleEnum) l ->
      customers s + vendors s + admins s + superadmins s = totalUsers s).
Proof.
  cbn. split; [apply countUsers_split|].
  split; [apply countUsers_le; intros u; by rewrite andb_true_iff; intros []|].
  split.
  { apply countUsers_le. intros u. rewrite andb_true_iff.
    intros [_ Hp%bool_decide_eq_true]. by rewrite Hp. }
  assert (Hone : forall u : User,
            (if bool_decide (role u = "user") then 1 else 0)
            + (if bool_decide (role u = "vendor") then 1 else 0)
            + (if bool_decide (role u = "admin") then 1 else 0)
            + (if bool_decide (role u = "superadmin") then 1 else 0)
            = if bool_decide (role u ∈ roleEnum) then 1 else 0).
  { intros u. unfold roleEnum.
    destruct (decide (role u = "user")) as [->|H1]; [done|].
    destruct (decide (role u = "vendor")) as [->|H2]; [done|].
    destruct (decide (role u = "admin")) as [->|H3]; [done|].
    destruct (decide (role u = "superadmin")) as [->|H4]; [done|].
    rewrite !bool_decide_eq_false_2; try done.
    rewrite !elem_of_cons, elem_of_nil. tauto. }
  unfold countUsers. split.
  - induction l as [|x l IH]; [done|]. cbn. specialize (Hone x).
    repeat case_bool_decide; cbn in *; lia.
  - induction 1 as [|x l Hx Hl IH]; [done|]. cbn. specialize (Hone x).
    rewrite (bool_decide_eq_true_2 _ Hx) in Hone.
    repeat case_bool_decide; cbn in *; lia.
Qed.

(** ** The upgrade script *)

Section UpgradeProperties.
Context `{Platform}.

Lemma schemaValid_upgraded a e :
  schemaValid a = true ->
  inEnum (entry_status e) statusEnum = true ->
  schemaValid
    (with_statusHistory (statusHistory a ++ [e])
       (with_name "Super Admin" (with_role "superadmin" a))) = true.
Proof.
  unfold schemaValid.
  cbn [name email password role storeDetails status statusHistory
       with_statusHistory with_name with_role].
  intros Hv He. repeat (apply andb_prop in Hv as [Hv ?]).
  repeat (apply andb_true_intro; split); try done.
  - destruct (storeDetails a); [done|]. done.
  - rewrite forallb_app. apply andb_true_intro. split; [done|].
    cbn. by rewrite He.
Qed.

(** The upgrade script on a database that holds
    [admin@pharmalink.com] (an account that passes the schema's
    validators): the account ends as a superadmin named "Super Admin", with
    the superadmin permissions when its role was another one and its old
    permissions when it was a superadmin already; one entry is appended to
    its status history; its password, e-mail and status are as before, and
    so is every other account. *)
Theorem upgrade_existing_admin (c : Ctx) (w : World) (a : User) :
  findUser (byEmail "admin@pharmalink.com") (users w) = Some a ->
  schemaValid a = true ->
  exists w' a',
    updateAdminToSuperAdmin c w = (Returned tt, w')
    /\ findUser (byId (_id a)) (users w') = Some a'
    /\ role a' = "superadmin" /\ name a' = "Super Admin"
    /\ permissions a'
       = (if bool_decide (role a = "superadmin") then permissions a
          else rolePermissions "superadmin")
    /\ statusHistory a'
       = statusHistory a
         ++ [mkStatusEntry "active" (Some "Upgraded to superadmin role")
               (now c) None]
    /\ password a' = password a /\ status a' = status a
    /\ email a' = email a
    /\ othersUntouched (_id a) w w' /\ logs w' = logs w.
Proof.
  intros Hf Hv.
  set (e := mkStatusEntry "active" (Some "Upgraded to superadmin role")
              (now c) None).
  set (d0 := push_statusHistory e
               (set_name "Super Admin" (set_role "superadmin" (loaded a)))).
  set (a0 := with_statusHistory (statusHistory a ++ [e])
               (with_name "Super Admin" (with_role "superadmin" a))).
  assert (Hdoc : doc d0 = a0).
  { subst d0 a0. unfold push_statusHistory, set_name, set_role, assign.
    cbn [doc]. by change (trim "Super Admin") with "Super Admin". }
  assert (Hflags : skipMiddleware d0 = false /\ isNew d0 = false) by done.
  destruct Hflags as [Hk Hn].
  assert (Hmp : isModified "password" d0 = false).
  { subst d0. unfold push_statusHistory, set_name, set_role.
    rewrite !isModified_assign, isModified_loaded. decide_literals.
    by rewrite !andb_false_r. }
  assert (Hms : isModified "status" d0 = false).
  { subst d0. unfold push_statusHistory, set_name, set_role.
    rewrite !isModified_assign, isModified_loaded. decide_literals.
    by rewrite !andb_false_r. }
  assert (Hmr : isModified "role" d0
                = negb (bool_decide (role a = "superadmin"))).
  { subst d0. unfold push_statusHistory, set_name, set_role.
    rewrite !isModified_assign, isModified_loaded. decide_literals.
    rewrite !andb_false_r. cbn [orb isNew loaded doc].
    by rewrite andb_true_r, orb_false_r. }
  assert (Hmd : isModified "storeDetails" d0 = false).
  { subst d0. unfold push_statusHistory, set_name, set_role.
    rewrite !isModified_assign, isModified_loaded. decide_literals.
    by rewrite !andb_false_r. }
  set (d' := if bool_decide (role a = "superadmin") then d0
             else set_permissions (rolePermissions "superadmin") d0).
  assert (Hpre : preSave c d0 = Returned d').
  { unfold preSave. rewrite Hk, Hmp, Hmr, Hn, andb_false_r, orb_false_r.
    rewrite Hdoc. subst d'.
    replace (role a0) with "superadmin" by done.
    rewrite (bool_decide_eq_false_2 ("superadmin" = "vendor")) by done.
    cbn [andb]. destruct (bool_decide (role a = "superadmin")); cbn [negb].
    - by rewrite Hms.
    - replace (isModified "status" (set_permissions _ d0))
        with (isModified "status" d0) by (by modified_paths).
      by rewrite Hms. }
  assert (Hval : preValidate d0 = None).
  { unfold preValidate. rewrite Hdoc. replace (role a0) with "superadmin" by done.
    by rewrite (bool_decide_eq_false_2 ("superadmin" = "vendor")). }
  assert (Hsv : schemaValid (doc d0) = true).
  { rewrite Hdoc. by apply schemaValid_upgraded. }
  assert (Hid : _id (doc d') = _id a).
  { subst d'. destruct (bool_decide _); [by rewrite Hdoc|].
    unfold set_permissions, assign. cbn [doc]. by rewrite Hdoc. }
  assert (Hn' : isNew d' = false).
  { subst d'. by destruct (bool_decide _). }
  pose proof (findUser_byId _ _ _ Hf) as Hex.
  destruct (findUser (byId (_id a)) (users w)) as [x|] eqn:Hx; [|done].
  rewrite <- Hid in Hx.
  destruct (replaceById_found (doc d') (users w) x Hx) as (l & Hl & Hl' & _).
  pose proof (save_update c d0 d' w l Hval Hsv Hpre Hn' Hl) as Hsave.
  eexists _, (doc d'). split.
  { unfold updateAdminToSuperAdmin. unfold_M. rewrite Hf.
    fold e. fold d0. by rewrite Hsave. }
  cbn [users logs]. rewrite <- Hid. split; [exact Hl'|].
  assert (Hrest : role (doc d') = "superadmin" /\ name (doc d') = "Super Admin"
            /\ statusHistory (doc d') = statusHistory a ++ [e]
            /\ password (doc d') = password a /\ status (doc d') = status a
            /\ email (doc d') = email a).
  { subst d'. destruct (bool_decide _);
      [|unfold set_permissions, assign; cbn [doc]]; by rewrite Hdoc. }
  destruct Hrest as (? & ? & ? & ? & ? & ?).
  repeat split; try done.
  - subst d'. destruct (bool_decide _); [by rewrite Hdoc|done].
  - intros j Hj. cbn. eapply findUser_replaceById_other; [done|congruence].
Qed.

End UpgradeProperties.

Section CreateSuperAdmin.
Context `{PlatformLaws}.

(** The upgrade script on a database without [admin@pharmalink.com]: it
    adds one account with the role [superadmin] whose password is
    "Admin@2024" and whose permissions are all [false]. The password
    reaches [save] hashed, so the pre-save hook returns at its
    already-hashed check, before the step that derives the permissions from
    the role. *)
Theorem create_superadmin_unprivileged (c : Ctx) (w : World) :
  findUser (byEmail "admin@pharmalink.com") (users w) = None ->
  exists u,
    updateAdminToSuperAdmin c w
    = (Returned tt,
       mkWorld (users w ++ [u]) (logs w) (S (nextId w))
         (journal w ++ [OpUserSave (nextId w)]))
    /\ _id u = nextId w /\ email u = "admin@pharmalink.com"
    /\ role u = "superadmin" /\ status u = "active"
    /\ (forall p, getPermission (permissions u) p = false)
    /\ permissions u <> rolePermissions "superadmin"
    /\ comparePassword u "Admin@2024" = true
    /\ statusHistory u
       = [mkStatusEntry "active" (Some "Initial superadmin account creation")
            (now c) None].
Proof.
  intros Hf.
  exists (doc (newSuperAdmin (nextId w) c)).
  assert (Hex : existsb (byEmail "admin@pharmalink.com") (users w) = false).
  { apply not_true_is_false. intros Hx. apply existsb_exists in Hx as (x & Hin & Hx).
    eapply find_none in Hf; [|exact Hin]. congruence. }
  split.
  - unfold updateAdminToSuperAdmin. unfold_M. rewrite Hf. unfold freshId.
    unfold save.
    replace (preValidate (newSuperAdmin (nextId w) c)) with (@None Exn)
      by done.
    replace (schemaValid (doc (newSuperAdmin (nextId w) c))) with true.
    2:{ symmetry. unfold schemaValid, newSuperAdmin.
        cbn [doc name email password role storeDetails status statusHistory].
        pose proof (hash_length "Admin@2024" (salt c)) as Hl.
        apply Nat.leb_le in Hl. rewrite Hl. done. }
    cbn [negb].
    replace (preSave c (newSuperAdmin (nextId w) c))
      with (Returned (newSuperAdmin (nextId w) c)).
    2:{ symmetry. unfold preSave.
        replace (skipMiddleware (newSuperAdmin (nextId w) c)) with false by done.
        replace (isModified "password" (newSuperAdmin (nextId w) c))
          with true by done.
        replace (password (doc (newSuperAdmin (nextId w) c)))
          with (bcrypt_hash "Admin@2024" (salt c)) by done.
        by rewrite nonEmpty_hash, hash_format. }
    unfold persist. cbn [isNew newSuperAdmin doc email users].
    by rewrite Hex.
  - repeat split; try done.
    + by intros [].
    + unfold comparePassword. cbn [password newSuperAdmin doc].
      rewrite nonEmpty_hash. cbn. apply compare_hash.
Qed.

End CreateSuperAdmin.

Lemma upgrade_existing_admin_witness :
  exists w' a',
    updateAdminToSuperAdmin (H := demo) ctx0 worldPharma = (Returned tt, w')
    /\ findUser (byId 5) (users w') = Some a'
    /\ role a' = "superadmin" /\ name a' = "Super Admin"
    /\ permissions a' = rolePermissions "superadmin"
    /\ statusHistory a'
       = [mkStatusEntry "active" (Some "Upgraded to superadmin role")
            (now ctx0) None]
    /\ password a' = password pharmaAdmin /\ status a' = "active"
    /\ email a' = "admin@pharmalink.com"
    /\ othersUntouched 5 worldPharma w' /\ logs w' = [].
Proof.
  exact (upgrade_existing_admin (H := demo) ctx0 worldPharma pharmaAdmin
           eq_refl eq_refl).
Defined.

Lemma create_superadmin_unprivileged_witness :
  exists u,
    updateAdminToSuperAdmin (H := demo) ctx0 world0
    = (Returned tt,
       mkWorld ([root; alice; carol; acme] ++ [u]) [] 6 [OpUserSave 5])
    /\ _id u = 5 /\ email u = "admin@pharmalink.com"
    /\ role u = "superadmin" /\ status u = "active"
    /\ (forall p, getPermission (permissions u) p = false)
    /\ permissions u <> rolePermissions "superadmin"
    /\ comparePassword (H := demo) u "Admin@2024" = true
    /\ statusHistory u
       = [mkStatusEntry "active" (Some "Initial superadmin account creation")
            (now ctx0) None].
Proof.
  exact (create_superadmin_unprivileged (H := demo) (H0 := demo_laws) ctx0
           world0 eq_refl).
Defined.

(** ** The password in the pre-save hook *)

Section HookPassword.
Context `{PlatformLaws}.

Lemma schemaValid_short_password u :
  String.length (password u) < 8 -> schemaValid u = false.
Proof.
  intros Hl. unfold schemaValid.
  replace (8 <=? String.length (password u)) with false
    by (symmetry; apply Nat.leb_gt; lia).
  by rewrite !andb_false_r.
Qed.

(** Saving a stored account (one that passes the schema's validators)
    after [this.password = pw], with [pw] other than the stored password.
    A [pw] of fewer than 8 characters is refused by the validators and
    nothing is written. A [pw] of 8 characters or more that does not start
    with [$2] is stored as its hash, which [comparePassword] accepts for
    [pw]. A [pw] of 8 characters or more that starts with [$2] is taken for
    a hash and stored as it is. *)
Theorem save_assigned_password (c : Ctx) (u : User) (p : User -> bool)
    (w : World) (pw : string) :
  findUser p (users w) = Some u ->
  schemaValid u = true ->
  password u <> pw ->
  let stored :=
    if startsWith pw "$2" then pw else bcrypt_hash pw (salt c) in
  (String.length pw < 8 ->
   save c (set_password pw (loaded u)) w
   = (Thrown (ValidationError "User validation failed"), w))
  /\ (8 <= String.length pw ->
      exists w',
        save c (set_password pw (loaded u)) w
        = (Returned (loaded (with_password stored u)), w')
        /\ findUser (byId (_id u)) (users w')
           = Some (with_password stored u)
        /\ othersUntouched (_id u) w w'
        /\ (startsWith pw "$2" = false ->
            comparePassword (with_password stored u) pw = true)).
Proof.
  intros Hf Hv Hne stored.
  set (d := set_password pw (loaded u)).
  assert (Hval : preValidate d = None).
  { apply preValidate_untouched; [done|subst d; by modified_paths..]. }
  assert (Hmp : isModified "password" d = true).
  { subst d. unfold set_password. rewrite isModified_assign.
    cbn [doc loaded isNew]. rewrite (bool_decide_eq_false_2 _ Hne).
    by rewrite (bool_decide_eq_true_2 ("password" = "password")). }
  split.
  - intros Hl. unfold save. rewrite Hval.
    replace (schemaValid (doc d)) with false; [done|].
    symmetry. by apply schemaValid_short_password.
  - intros Hl.
    assert (Hnon : nonEmpty pw = true).
    { destruct pw; [cbn in Hl; lia|apply nonEmpty_String]. }
    assert (Hsv : schemaValid (doc d) = true).
    { by apply schemaValid_with_password. }
    assert (Hpre : preSave c d
                   = Returned (if startsWith pw "$2" then d
                               else set_password (bcrypt_hash pw (salt c)) d)).
    { unfold preSave. replace (skipMiddleware d) with false by done.
      rewrite Hmp. replace (password (doc d)) with pw by done.
      rewrite Hnon. cbn [negb].
      destruct (startsWith pw "$2"); [done|].
      rewrite isModified_set_password_other, isNew_set_password by done.
      replace (isModified "role" d) with false
        by (subst d; by modified_paths).
      replace (isNew d) with false by done.
      rewrite andb_false_r. cbn [orb].
      rewrite isModified_set_password_other by done.
      replace (isModified "status" d) with false
        by (subst d; by modified_paths).
      done. }
    set (d' := if startsWith pw "$2" then d
               else set_password (bcrypt_hash pw (salt c)) d) in *.
    assert (Hdoc : doc d' = with_password stored u).
    { subst d' stored. by destruct (startsWith pw "$2"). }
    assert (Hn' : isNew d' = false).
    { subst d'. by destruct (startsWith pw "$2"). }
    pose proof (findUser_byId _ _ _ Hf) as Hex.
    destruct (findUser (byId (_id u)) (users w)) as [x|] eqn:Hx; [|done].
    destruct (replaceById_found (with_password stored u) (users w) x Hx)
      as (l & Hl' & Hfind & _).
    rewrite <- Hdoc in Hl'.
    pose proof (save_update c d d' w l Hval Hsv Hpre Hn' Hl') as Hsave.
    rewrite Hdoc in Hsave, Hl'.
    eexists. split; [exact Hsave|]. split; [exact Hfind|]. split.
    + intros j Hj. cbn. eapply findUser_replaceById_other; [done|].
      cbn. congruence.
    + intros Hs. subst stored. rewrite Hs. unfold comparePassword.
      cbn [password with_password]. rewrite nonEmpty_hash, Hnon. cbn.
      apply compare_hash.
Qed.

End HookPassword.

Lemma save_assigned_password_witness :
  let stored := demo_hash "correct horse" "salt" in
  (String.length "correct horse" < 8 ->
   save (H := demo) ctx0 (set_password "correct horse" (loaded carol)) world0
   = (Thrown (ValidationError "User validation failed"), world0))
  /\ (8 <= String.length "correct horse" ->
      exists w',
        save (H := demo) ctx0 (set_password "correct horse" (loaded carol))
          world0
        = (Returned (loaded (with_password stored carol)), w')
        /\ findUser (byId 3) (users w') = Some (with_password stored carol)
        /\ othersUntouched 3 world0 w'
        /\ (startsWith "correct horse" "$2" = false ->
            comparePassword (H := demo) (with_password stored carol)
              "correct horse" = true)).
Proof.
  exact (save_assigned_password (H := demo) (H0 := demo_laws) ctx0 carol
           (byId 3) world0 "correct horse" eq_refl eq_refl
           ltac:(discriminate)).
Defined.

(** ** Who can make a superadmin *)

Section SuperadminSet.
Context `{Platform}.

(** [PUT /users/:userId] with a body whose [status], [role] and [reason]
    are JSON strings or absent, sent by an actor who is not a superadmin:
    whatever the three strings are and whatever the route answers, the
    superadmin accounts after the request are those before it: none is
    added, and none is taken away. (A [role] sent as another JSON value is
    not covered: the route tests the value as it is sent and Mongoose
    stores its cast.) *)
Theorem updateUser_preserves_superadmins (c : Ctx) (actor : ReqUser)
    (userId : Id) (request : UpdateRequest) (b : UpdateBody) (w w' : World)
    (o : Outcome Response) :
  stringBody request = Some b ->
  user_role actor <> "superadmin" ->
  updateUser c actor userId b w = (o, w') ->
  forall j,
    role <$> findUser (byId j) (users w') = Some "superadmin"
    <-> role <$> findUser (byId j) (users w) = Some "superadmin".
Proof.
  intros _ Ha. unfold updateUser. unfold_M.
  destruct (findUser (byId userId) (users w)) as [u|] eqn:Hf;
    [|by intros [= <- <-]].
  rewrite (bool_decide_eq_false_2 (user_role actor = "superadmin")) by done.
  cbn [negb]. rewrite !andb_true_r.
  case_bool_decide as G1; [by intros [= <- <-]|].
  case_bool_decide as G2; [by intros [= <- <-]|].
  cbn. rewrite Hf. fold (updated c actor b u).
  destruct (save c _ w) as [[saved|e] w1] eqn:Hsave.
  - apply save_returned in Hsave as (d' & _ & _ & Hpre & Hper).
    destruct (updated_flags c actor b u) as (_ & Hn & _ & Hid).
    destruct (preSave_preserves _ _ _ Hpre) as (Hid' & Hr' & _ & _ & _ & Hn').
    apply persist_loaded in Hper as (l & Hl & -> & ->); [|congruence].
    destruct (updated_role c actor b u) as (Hrole & _).
    assert (Hnot : role (doc d') <> "superadmin").
    { rewrite Hr', Hrole. unfold requestedRole, orUndefined.
      destruct (upd_role b) as [r|]; [|done].
      destruct (nonEmpty r); [|done]. congruence. }
    assert (Hu : _id (doc d') = userId).
    { by rewrite Hid', Hid, (findUser_byId_id _ _ _ Hf). }
    assert (Hw : forall w2, users w2 = l ->
              forall j,
                role <$> findUser (byId j) (users w2) = Some "superadmin"
                <-> role <$> findUser (byId j) (users w) = Some "superadmin").
    { intros w2 -> j. destruct (decide (j = userId)) as [->|Hj].
      - pose proof (findUser_replaceById _ _ _ Hl) as Hl'.
        rewrite Hu in Hl'. rewrite Hl', Hf. cbn.
        split; intros [= E]; congruence.
      - by rewrite (findUser_replaceById_other _ _ _ j Hl) by congruence. }
    destruct (SystemLog_create _ _) as [[[]|e] w2] eqn:Hlog;
      apply SystemLog_create_users in Hlog; intros [= <- <-];
      by apply Hw.
  - apply save_thrown in Hsave as ->. by intros [= <- <-].
Qed.

End SuperadminSet.

Lemma updateUser_preserves_superadmins_witness :
  role <$> findUser (byId 1)
             (users (updateUser (H := demo) ctx0 aliceUser 3 suspendBody
                       world0).2)
  = Some "superadmin"
  <-> role <$> findUser (byId 1) (users world0) = Some "superadmin".
Proof.
  exact (updateUser_preserves_superadmins (H := demo) ctx0 aliceUser 3
           suspendRequest suspendBody world0 _ _ eq_refl ltac:(discriminate)
           (surjective_pairing _) 1).
Defined.
